(** * payments-orders-service: tenant isolation, quotas, credentials, audit

    A shallow embedding of the multi-tenant core of the service:
    - [BaseTenantRepository] (tenant-scoped data access over one table),
    - [TenantService] (tenant onboarding, settings and quotas),
    - [tenantExtractorMiddleware] (bearer credential parsing),
    - [BaseRepository] (the in-memory / relational dual-mode repository),
    - the in-memory orders service with its controllers and router.

    The relational store is modelled as lists of rows; each SQL statement
    the source issues is translated to the list operation it denotes, and
    the pg-promise result combinators ([one], [oneOrNone], [none]) are
    modelled with the errors they raise.  Identifiers are UUID text and
    the keys of data objects are column names; [Uuid], [Sql] and
    [InsertText] say what the server and the code do with other text.  What the JavaScript code reads
    from its environment (the clock, generated UUIDs, whether the audit
    insert is accepted by the server) is an explicit input. *)

From Stdlib Require Import ZArith.
From stdpp Require Import base option list gmap strings fin_maps pretty.

Local Open Scope string_scope.
Local Open Scope list_scope.
Local Open Scope Z_scope.

(** ** Values, rows and results *)

(** A JavaScript value as it is bound to an SQL parameter or read back
    from a column. *)
Inductive Value :=
| VNull
| VStr (s : string)
| VNum (n : Z)
| VBool (b : bool)
| VDate (t : Z).

#[global] Instance Value_eq_dec : EqDecision Value.
Proof. solve_decision. Defined.

(** A record of a dynamically typed table, or a JS object used as a
    column/value map: keys are column names. *)
Abbreviation Row := (gmap string Value).

(** pg-promise's [QueryResultError] codes. *)
Inductive QueryResultCode := noData | multiple | notEmpty.

(** What the code throws.  The repository and the service throw plain
    [Error] objects that differ by message only; each constructor stands
    for one message template of the source. *)
Inductive Error :=
| NotFound (tenantId : string)
    (* `Record not found or does not belong to tenant ${tenantId}` *)
| TenantNotFound (tenantId : string)
    (* `Tenant not found: ${tenantId}` *)
| QuotaExceeded (resource tenantId : string)
    (* `User|Order|Event|API calls quota exceeded for tenant ${tenantId}` *)
| QueryResultError (code : QueryResultCode)
    (* raised by db.one / db.oneOrNone / db.none on a row-count mismatch *)
| DbError (reason : string).
    (* the server rejected the statement *)

#[global] Instance QueryResultCode_eq_dec : EqDecision QueryResultCode.
Proof. solve_decision. Defined.

#[global] Instance Error_eq_dec : EqDecision Error.
Proof. solve_decision. Defined.

Definition message (e : Error) : string :=
  match e with
  | NotFound t => "Record not found or does not belong to tenant " +:+ t
  | TenantNotFound t => "Tenant not found: " +:+ t
  | QuotaExceeded r t => r +:+ " quota exceeded for tenant " +:+ t
  | QueryResultError noData => "No data returned from the query."
  | QueryResultError multiple => "Multiple rows were not expected."
  | QueryResultError notEmpty => "No return data was expected."
  | DbError reason => reason
  end.

Inductive Result (A : Type) :=
| Ok (a : A)
| Throw (e : Error).
Arguments Ok {A} a.
Arguments Throw {A} e.

(** ** The effect of an asynchronous method

    A method awaits statements against the store and may throw: a state
    and exception monad over the store type [S].  A thrown error keeps the
    state reached so far, as a rejected promise does. *)

Definition Eff (S A : Type) : Type := S -> Result A * S.

Definition ret {S A} (a : A) : Eff S A := fun st => (Ok a, st).
Definition throw {S A} (e : Error) : Eff S A := fun st => (Throw e, st).
Definition bind {S A B} (m : Eff S A) (k : A -> Eff S B) : Eff S B :=
  fun st =>
    match m st with
    | (Ok a, st') => k a st'
    | (Throw e, st') => (Throw e, st')
    end.
Definition try_catch {S A} (body : Eff S A) (handler : Error -> Eff S A)
  : Eff S A :=
  fun st =>
    match body st with
    | (Ok a, st') => (Ok a, st')
    | (Throw e, st') => handler e st'
    end.
Definition lift {S A} (r : Result A) : Eff S A := fun st => (r, st).

Notation "x <- m ;; k" := (bind m (fun x => k))
  (at level 100, m at next level, right associativity).
Notation "m ;;; k" := (bind m (fun _ => k))
  (at level 100, right associativity).

(** [a || b] on an optional number: 0 and undefined are falsy. *)
Definition num_or (a : option Z) (b : Z) : Z :=
  match a with
  | Some n => if n =? 0 then b else n
  | None => b
  end.

(** [a || b] on an optional string: the empty string and undefined are
    falsy. *)
Definition str_or (a : option string) (b : string) : string :=
  match a with
  | Some s => if decide (s = EmptyString) then b else s
  | None => b
  end.

(** ** pg-promise result combinators *)

Module Pg.

(** [db.oneOrNone]: null for no row, the row for one, an error for more. *)
Definition oneOrNone {A} (rs : list A) : Result (option A) :=
  match rs with
  | [] => Ok None
  | [r] => Ok (Some r)
  | _ => Throw (QueryResultError multiple)
  end.

(** [db.one]: exactly one row expected. *)
Definition one {A} (rs : list A) : Result A :=
  match rs with
  | [] => Throw (QueryResultError noData)
  | [r] => Ok r
  | _ => Throw (QueryResultError multiple)
  end.

(** [db.none]: no row expected back. *)
Definition none {A} (rs : list A) : Result unit :=
  match rs with
  | [] => Ok tt
  | _ => Throw (QueryResultError notEmpty)
  end.

End Pg.

(** ** UUID text and column names

    The [id] and [tenant_id] columns of the schema are of type UUID.  The
    server reads the text bound to such a column, or compared with it,
    through the type's input function, which refuses text that is not a
    UUID, and prints a stored UUID in one spelling.  Modelled from
    PostgreSQL's input function: 32 hexadecimal digits in either case,
    optionally surrounded by braces, with an optional hyphen after any
    group of four digits. *)

Module Uuid.

Definition hyphen : Ascii.ascii := Ascii.ascii_of_nat 45.
Definition open_brace : Ascii.ascii := Ascii.ascii_of_nat 123.
Definition close_brace : Ascii.ascii := Ascii.ascii_of_nat 125.

(** A hexadecimal digit, in lower case. *)
Definition hex_lower (c : Ascii.ascii) : option Ascii.ascii :=
  let n := Ascii.nat_of_ascii c in
  if (Nat.leb 48 n && Nat.leb n 57) || (Nat.leb 97 n && Nat.leb n 102) then Some c
  else if Nat.leb 65 n && Nat.leb n 70 then Some (Ascii.ascii_of_nat (n + 32))
  else None.

(** Reads [n] bytes, two digits each, starting with byte number [i]; a
    hyphen is skipped after an odd-numbered byte other than the last. *)
Fixpoint read_bytes (n i : nat) (s : string)
  : option (list Ascii.ascii * string) :=
  match n with
  | O => Some ([], s)
  | S n' =>
      match s with
      | String c1 (String c2 rest) =>
          match hex_lower c1, hex_lower c2 with
          | Some d1, Some d2 =>
              let rest' :=
                match rest with
                | String c r =>
                    if Ascii.eqb c hyphen && Nat.odd i && Nat.ltb i 15
                    then r else rest
                | EmptyString => rest
                end in
              match read_bytes n' (S i) rest' with
              | Some (ds, tl) => Some (d1 :: d2 :: ds, tl)
              | None => None
              end
          | _, _ => None
          end
      | _ => None
      end
  end.

Definition group (from len : nat) (ds : list Ascii.ascii) : string :=
  String.string_of_list_ascii (take len (drop from ds)).

(** The spelling the server prints: 8-4-4-4-12. *)
Definition print (ds : list Ascii.ascii) : string :=
  group 0 8 ds +:+ "-" +:+ group 8 4 ds +:+ "-" +:+ group 12 4 ds +:+ "-"
    +:+ group 16 4 ds +:+ "-" +:+ group 20 12 ds.

(** The input function: the UUID the text spells, as the server prints
    it, or nothing when the server refuses the text (error 22P02). *)
Definition uuid_in (s : string) : option string :=
  let (braces, body) :=
    match s with
    | String c r => if Ascii.eqb c open_brace then (true, r) else (false, s)
    | EmptyString => (false, s)
    end in
  match read_bytes 16 0 body with
  | Some (ds, tl) =>
      if bool_decide (tl = if braces : bool then String close_brace EmptyString
                           else EmptyString)
      then Some (print ds) else None
  | None => None
  end.

(** Text in the server's own spelling: what a UUID column reads back. *)
Definition uuid_text (s : string) : Prop := uuid_in s = Some s.

End Uuid.

(** The keys of a data object are spliced into the statement text where
    the column names go.  A key made of lower-case letters, digits and
    underscores that does not start with a digit is read by the server as
    the column of that name. *)
Module Sql.

Definition name_char (c : Ascii.ascii) : bool :=
  let n := Ascii.nat_of_ascii c in
  (Nat.leb 97 n && Nat.leb n 122) || (Nat.leb 48 n && Nat.leb n 57)
  || Nat.eqb n 95.

Definition digit (c : Ascii.ascii) : bool :=
  let n := Ascii.nat_of_ascii c in Nat.leb 48 n && Nat.leb n 57.

Definition column_name (k : string) : bool :=
  match k with
  | EmptyString => false
  | String c _ =>
      negb (digit c) && forallb name_char (String.list_ascii_of_string k)
  end.

(** Every key of the object is a column name. *)
Definition column_names {V} (data : gmap string V) : Prop :=
  map_Forall (fun k _ => column_name k = true) data.

End Sql.

(** ** BaseTenantRepository

    The definitions of this module compare identifiers as the text the
    server prints for a UUID and treat each key of a data object as one
    column.  They describe the calls whose [tenantId] and [id] arguments
    are UUID text in the server's spelling ([Uuid.uuid_text]) and whose
    data keys are column names ([Sql.column_names]); a statement about
    arbitrary arguments carries these conditions.  For other text the
    server refuses the statement (error 22P02) or reads another spelling
    of a stored UUID as that UUID, and a key that is not a column name
    changes the statement itself: see [InsertText].  The order in which
    an unordered SELECT returns rows is the server's choice; the list
    order used here is one such order. *)

Module TenantRepo.

(** A row of [audit_logs] as [logAudit] writes it.  [changes] and
    [previous] hold the JSON documents; [None] is SQL NULL, which is what
    [JSON.stringify(undefined)] binds. *)
Record AuditLog := mkAuditLog {
  al_tenant_id : string;
  al_user_id : string;
  al_action : string;
  al_resource : string;
  al_resource_id : Value;
  al_changes : option Row;
  al_previous : option Row;
  al_timestamp : Z
}.

(** The state the repository acts on: the backing table, the audit table
    and the process console. *)
Record Store := mkStore {
  rows : list Row;
  audit_logs : list AuditLog;
  console : list string
}.

(** The table behind one repository instance: its name, the column
    defaults the server fills in, and the server's verdict on a candidate
    row given the current contents (unknown or repeated columns, type,
    CHECK, UNIQUE, foreign-key and row-security checks).  The primary key
    on [id] is modelled separately below. *)
Record Repo := mkRepo {
  tableName : string;
  col_defaults : Row;
  accepts : list Row -> Row -> bool
}.

(** What one call reads from outside the program. *)
Record Env := mkEnv {
  now : Z;                       (* new Date() / NOW() *)
  gen_uuid : string;             (* gen_random_uuid() for the id default *)
  audit_fault : option string    (* Some msg: the audit INSERT is rejected *)
}.

(** The same call with another verdict on the audit INSERT. *)
Definition with_audit_fault (fault : option string) (env : Env) : Env :=
  mkEnv (now env) (gen_uuid env) fault.

Record TenantQueryOptions := mkOptions {
  opt_tenantId : option string;
  opt_userId : option string;
  includeTenantId : option bool;
  validateTenantId : option bool;
  auditLog : option bool
}.

Record PageOptions := mkPage {
  limit : option Z;
  offset : option Z
}.

Abbreviation M := (Eff Store).

(** [options?.auditLog] used as a condition. *)
Definition wants_audit (options : option TenantQueryOptions) : bool :=
  match options with
  | Some o => match auditLog o with Some b => b | None => false end
  | None => false
  end.

Definition userId_of (options : option TenantQueryOptions) : option string :=
  match options with
  | Some o => opt_userId o
  | None => None
  end.

(** [col = $n] with a string parameter: true only for a non-null column
    holding that string. *)
Definition col_is (c : string) (s : string) (r : Row) : bool :=
  bool_decide (r !! c = Some (VStr s)).

(** [WHERE tenant_id = $1] *)
Definition of_tenant (tenantId : string) (r : Row) : bool :=
  col_is "tenant_id" tenantId r.

(** [WHERE tenant_id = $1 AND id = $2] *)
Definition of_tenant_and_id (tenantId id : string) (r : Row) : bool :=
  col_is "tenant_id" tenantId r && col_is "id" id r.

Definition row_id (r : Row) : option Value := r !! "id".

(** The primary key on [id]: present, not null, and not yet used. *)
Definition pk_free (rs : list Row) (r : Row) : bool :=
  match row_id r with
  | None | Some VNull => false
  | Some v => bool_decide (Some v ∉ row_id <$> rs)
  end.

Definition pk_unique (rs : list Row) : Prop := NoDup (row_id <$> rs).

Definition set_rows (rs : list Row) (st : Store) : Store :=
  mkStore rs (audit_logs st) (console st).

(** The range of a BIGINT, the type of LIMIT and OFFSET. *)
Definition in_int8 (z : Z) : bool :=
  (-9223372036854775808 <=? z) && (z <=? 9223372036854775807).

(** [SELECT * FROM t WHERE tenant_id = $1 LIMIT $2 OFFSET $3]; the
    server reads both numbers as BIGINT and evaluates the offset before
    the limit. *)
Definition findAll (tenantId : string) (options : option PageOptions)
  : M (list Row) :=
  let lim := num_or (options ≫= limit) 1000 in
  let off := num_or (options ≫= offset) 0 in
  fun st =>
    if negb (in_int8 lim && in_int8 off) then
      (Throw (DbError "bigint out of range"), st)
    else if off <? 0 then (Throw (DbError "OFFSET must not be negative"), st)
    else if lim <? 0 then (Throw (DbError "LIMIT must not be negative"), st)
    else (Ok (take (Z.to_nat lim)
                (drop (Z.to_nat off) (filter (of_tenant tenantId) (rows st)))),
          st).

(** [SELECT * FROM t WHERE tenant_id = $1 AND id = $2] through
    [db.oneOrNone], then the [!record] test. *)
Definition findById (tenantId id : string) : M Row :=
  record <- (fun st =>
    (Pg.oneOrNone (filter (of_tenant_and_id tenantId id) (rows st)), st)) ;;
  match record with
  | None => throw (NotFound tenantId)
  | Some r => ret r
  end.

(** The row the server stores for the submitted columns: the column
    defaults, [id] defaulting to a generated UUID, overridden by every
    column the statement names. *)
Definition inserted_row (env : Env) (repo : Repo) (obj : Row) : Row :=
  obj ∪ <["id" := VStr (gen_uuid env)]> (col_defaults repo).

(** [INSERT INTO t (columns) VALUES (...) RETURNING *] through [db.one],
    for an object whose keys are column names: one row is written or the
    statement is refused. *)
Definition db_insert (env : Env) (repo : Repo) (obj : Row) : M Row :=
  fun st =>
    let row := inserted_row env repo obj in
    if negb (accepts repo (rows st) row) then
      (Throw (DbError "statement rejected"), st)
    else if negb (pk_free (rows st) row) then
      (Throw (DbError "duplicate key value violates unique constraint"), st)
    else (Ok row, set_rows (rows st ++ [row]) st).

(** The audit INSERT through [db.none]. *)
Definition db_insert_audit (env : Env) (entry : AuditLog) : M unit :=
  fun st =>
    match audit_fault env with
    | Some reason => (Throw (DbError reason), st)
    | None => (Ok tt, mkStore (rows st) (audit_logs st ++ [entry]) (console st))
    end.

Definition console_error (line : string) : M unit :=
  fun st => (Ok tt, mkStore (rows st) (audit_logs st) (console st ++ [line])).

Definition logAudit (env : Env) (tenantId : string) (userId : option string)
    (action resource : string) (resourceId : Value)
    (changes previous : option Row) : M unit :=
  try_catch
    (db_insert_audit env
       (mkAuditLog tenantId (str_or userId "system") action resource
          resourceId changes previous (now env)))
    (fun error => console_error ("Error logging audit: " +:+ message error)).

(** [{...data, tenant_id: tenantId, created_at: new Date(),
    updated_at: new Date()}]: later keys overwrite earlier ones. *)
Definition dataWithTenant (env : Env) (tenantId : string) (data : Row) : Row :=
  <["updated_at" := VDate (now env)]>
    (<["created_at" := VDate (now env)]>
       (<["tenant_id" := VStr tenantId]> data)).

Definition create (env : Env) (repo : Repo) (tenantId : string) (data : Row)
    (options : option TenantQueryOptions) : M Row :=
  record <- db_insert env repo (dataWithTenant env tenantId data) ;;
  (if wants_audit options then
     logAudit env tenantId (userId_of options) "CREATE" (tableName repo)
       (default VNull (row_id record)) (Some data) None
   else ret tt) ;;;
  ret record.

(** [UPDATE t SET columns WHERE tenant_id = $k AND id = $k+1 RETURNING *],
    for an object whose keys are column names: the rows written back, or
    the server's rejection. *)
Definition db_update (repo : Repo) (tenantId id : string) (obj : Row)
  : M (list Row) :=
  fun st =>
    let hit := of_tenant_and_id tenantId id in
    let rest := filter (fun r => negb (hit r)) (rows st) in
    let rows' := (fun r => if hit r then obj ∪ r else r) <$> rows st in
    let written := (fun r => obj ∪ r) <$> filter hit (rows st) in
    if negb (forallb (accepts repo rest) written) then
      (Throw (DbError "statement rejected"), st)
    else if negb (bool_decide (NoDup (row_id <$> rows'))) then
      (Throw (DbError "duplicate key value violates unique constraint"), st)
    else (Ok written, set_rows rows' st).

(** [{...data, updated_at: new Date()}] *)
Definition dataWithTimestamp (env : Env) (data : Row) : Row :=
  <["updated_at" := VDate (now env)]> data.

(** The [!existing] test that follows [findById] in the source cannot
    fire: [findById] has thrown by then. *)
Definition update (env : Env) (repo : Repo) (tenantId id : string)
    (data : Row) (options : option TenantQueryOptions) : M Row :=
  existing <- findById tenantId id ;;
  written <- db_update repo tenantId id (dataWithTimestamp env data) ;;
  updated <- lift (Pg.one written) ;;
  (if wants_audit options then
     logAudit env tenantId (userId_of options) "UPDATE" (tableName repo)
       (VStr id) (Some data) (Some existing)
   else ret tt) ;;;
  ret updated.

(** [DELETE FROM t WHERE tenant_id = $1 AND id = $2] through [db.result]:
    the row count. *)
Definition db_delete (tenantId id : string) : M Z :=
  fun st =>
    let hit := of_tenant_and_id tenantId id in
    (Ok (Z.of_nat (length (filter hit (rows st)))),
     set_rows (filter (fun r => negb (hit r)) (rows st)) st).

Definition delete (env : Env) (repo : Repo) (tenantId id : string)
    (options : option TenantQueryOptions) : M bool :=
  findById tenantId id ;;;
  rowCount <- db_delete tenantId id ;;
  (if wants_audit options then
     logAudit env tenantId (userId_of options) "DELETE" (tableName repo)
       (VStr id) None None
   else ret tt) ;;;
  ret (rowCount =? 1).

End TenantRepo.

(** ** The text of the INSERT statement

    [create] builds its statement from the keys of the data object.  An
    object is kept here with its own string keys in insertion order, as
    [Object.keys] enumerates them (keys that are array indices, which come
    first in that enumeration, are not used). *)

Module InsertText.

Definition Obj := list (string * Value).

(** [{...obj, k: v}]: a key the object has keeps its place and takes the
    new value; a new key goes last. *)
Fixpoint assign (k : string) (v : Value) (obj : Obj) : Obj :=
  match obj with
  | [] => [(k, v)]
  | (k', v') :: rest =>
      if decide (k' = k) then (k, v) :: rest else (k', v') :: assign k v rest
  end.

Definition dataWithTenant (env : TenantRepo.Env) (tenantId : string)
    (data : Obj) : Obj :=
  assign "updated_at" (VDate (TenantRepo.now env))
    (assign "created_at" (VDate (TenantRepo.now env))
       (assign "tenant_id" (VStr tenantId) data)).

(** [Object.keys(dataWithTenant)] *)
Definition columns (obj : Obj) : list string := obj.*1.

(** [columns.map((_, i) => `$${i + 1}`)] *)
Definition placeholders (obj : Obj) : list string :=
  (fun i => "$" +:+ pretty (S i)) <$> seq 0 (length obj).

Definition nl : string := String (Ascii.ascii_of_nat 10) EmptyString.

(** The template literal of [create], line by line. *)
Definition insert_text (tableName : string) (obj : Obj) : string :=
  nl +:+ "      INSERT INTO " +:+ tableName +:+ " ("
     +:+ String.concat ", " (columns obj) +:+ ")"
  +:+ nl +:+ "      VALUES (" +:+ String.concat ", " (placeholders obj) +:+ ")"
  +:+ nl +:+ "      RETURNING *"
  +:+ nl +:+ "    ".

(** The statement [create(tenantId, data)] hands to [db.one], with the
    values it binds. *)
Definition create_statement (env : TenantRepo.Env) (tableName tenantId : string)
    (data : Obj) : string * list Value :=
  let dataWithTenant := dataWithTenant env tenantId data in
  (insert_text tableName dataWithTenant, dataWithTenant.*2).

End InsertText.

(** ** TenantService

    Tenant identifiers are compared as the text the server prints for a
    UUID: the definitions describe the calls whose [tenantId] argument is
    UUID text in that spelling ([Uuid.uuid_text]). *)

Module TenantSvc.

(** Rows of [tenants], [tenant_settings] and [tenant_quotas], with the
    columns the service reads or writes.  Timestamps are milliseconds. *)
Record TenantRow := mkTenantRow {
  t_id : string;
  t_name : string;
  t_slug : string;
  t_email : string;
  t_plan : string;
  t_status : string;
  t_created_at : Z;
  t_updated_at : Z;
  t_deleted_at : option Z
}.

Record SettingsRow := mkSettingsRow {
  s_tenant_id : string;
  s_max_users : Z;
  s_max_orders : Z;
  s_max_events : Z;
  s_features : list string;
  s_webhook_url : option string;
  s_custom_domain : option string;
  s_data_residency : string;
  s_encryption_enabled : bool
}.

Record QuotaRow := mkQuotaRow {
  q_tenant_id : string;
  q_max_users : Z;
  q_used_users : Z;
  q_max_orders : Z;
  q_used_orders : Z;
  q_max_events : Z;
  q_used_events : Z;
  q_storage_quota_mb : Z;
  q_used_storage_mb : Z;
  q_api_calls_per_day : Z;
  q_used_api_calls : Z;
  q_reset_date : Z;
  q_updated_at : Z
}.

Record Db := mkDb {
  tenants : list TenantRow;
  tenant_settings : list SettingsRow;
  tenant_quotas : list QuotaRow
}.

(** The objects the service returns. *)
Record TenantSettings := mkTenantSettings {
  maxUsers_s : Z;
  maxOrders_s : Z;
  maxEvents_s : Z;
  features : option (list string);
  webhookUrl : option string;
  customDomain : option string;
  dataResidency : string;
  encryptionEnabled : bool
}.

Record TenantInfo := mkTenantInfo {
  id : string;
  name : string;
  slug : string;
  email : string;
  plan : string;
  status : string;
  createdAt : Z;
  updatedAt : Z;
  settings : option TenantSettings
}.

Record TenantQuota := mkTenantQuota {
  tenantId : string;
  maxUsers : Z;
  usedUsers : Z;
  maxOrders : Z;
  usedOrders : Z;
  maxEvents : Z;
  usedEvents : Z;
  storageQuota : Z;
  usedStorage : Z;
  apiCallsPerDay : Z;
  usedApiCalls : Z;
  resetDate : Z
}.

(** The argument of [createTenant]. *)
Record NewTenant := mkNewTenant {
  nt_name : string;
  nt_slug : string;
  nt_email : string;
  nt_plan : option string
}.

Record Env := mkEnv {
  now : Z;            (* NOW() *)
  gen_uuid : string;  (* gen_random_uuid() for tenants.id *)
  insert_fault : string -> option string
    (* Some msg: the server refuses the INSERT into the named table for a
       reason other than the constraints modelled below *)
}.

Abbreviation M := (Eff Db).

Definition one_day : Z := 86400000.

(** The range of an INTEGER column. *)
Definition in_int4 (z : Z) : bool := (-2147483648 <=? z) && (z <=? 2147483647).

(** CHECK (plan IN (...)) on [tenants]. *)
Definition valid_plans : list string := ["free"; "pro"; "enterprise"; "custom"].

Definition fits (n : nat) (s : string) : bool := Nat.leb (String.length s) n.

Definition has_tenant (tid : string) (db : Db) : bool :=
  bool_decide (tid ∈ t_id <$> tenants db).

(** [SELECT * FROM tenants WHERE id = $1 AND deleted_at IS NULL] *)
Definition live_tenant (tid : string) (t : TenantRow) : bool :=
  bool_decide (t_id t = tid) && bool_decide (t_deleted_at t = None).

Definition settings_of (tid : string) (r : SettingsRow) : bool :=
  bool_decide (s_tenant_id r = tid).

Definition quota_of (tid : string) (q : QuotaRow) : bool :=
  bool_decide (q_tenant_id q = tid).

Definition getTenantSettings (tenantId : string) : M TenantSettings :=
  settings <- (fun db =>
    (Pg.oneOrNone (filter (settings_of tenantId) (tenant_settings db)), db)) ;;
  match settings with
  | None =>
      ret (mkTenantSettings 10 1000 100 None None None "global" false)
  | Some r =>
      ret (mkTenantSettings (s_max_users r) (s_max_orders r) (s_max_events r)
             (Some (s_features r)) (s_webhook_url r) (s_custom_domain r)
             (s_data_residency r) (s_encryption_enabled r))
  end.

Definition getTenantInfo (tenantId : string) : M TenantInfo :=
  tenant <- (fun db =>
    (Pg.oneOrNone (filter (live_tenant tenantId) (tenants db)), db)) ;;
  match tenant with
  | None => throw (TenantNotFound tenantId)
  | Some t =>
      settings <- getTenantSettings tenantId ;;
      ret (mkTenantInfo (t_id t) (t_name t) (t_slug t) (t_email t) (t_plan t)
             (t_status t) (t_created_at t) (t_updated_at t) (Some settings))
  end.

Definition getQuotas (tenantId : string) : M TenantQuota :=
  quota <- (fun db =>
    (Pg.one (filter (quota_of tenantId) (tenant_quotas db)), db)) ;;
  ret (mkTenantQuota (q_tenant_id quota)
         (q_max_users quota) (q_used_users quota)
         (q_max_orders quota) (q_used_orders quota)
         (q_max_events quota) (q_used_events quota)
         (q_storage_quota_mb quota) (q_used_storage_mb quota)
         (q_api_calls_per_day quota) (q_used_api_calls quota)
         (q_reset_date quota)).

(** One arm of the switch: throw when the counter has reached its
    ceiling. *)
Definition check (used max : Z) (label tenantId : string) : M unit :=
  if used >=? max then throw (QuotaExceeded label tenantId) else ret tt.

Definition validateQuota (tenantId resource : string) : M bool :=
  quota <- getQuotas tenantId ;;
  (if decide (resource = "users") then
     check (usedUsers quota) (maxUsers quota) "User" tenantId
   else if decide (resource = "orders") then
     check (usedOrders quota) (maxOrders quota) "Order" tenantId
   else if decide (resource = "events") then
     check (usedEvents quota) (maxEvents quota) "Event" tenantId
   else if decide (resource = "api_calls") then
     check (usedApiCalls quota) (apiCallsPerDay quota) "API calls" tenantId
   else ret tt) ;;;
  ret true.

(** [validateQuota] as a gate on one counter and its ceiling: it throws
    the quota error exactly when the counter has reached the ceiling and
    returns true exactly when it has not, handing the store back as it
    was. *)
Definition gate (tenantId resource : string) (db : Db) (used max : Z) : Prop :=
  ((∃ label, validateQuota tenantId resource db
               = (Throw (QuotaExceeded label tenantId), db)) ↔ max ≤ used) ∧
  (validateQuota tenantId resource db = (Ok true, db) ↔ used < max).

(** What a property read on the [fields] object literal can yield: one of
    its own strings, something inherited from [Object.prototype], or
    undefined. *)
Inductive JsValue :=
| JsString (s : string)
| JsNativeFunction (fname : string)
| JsObjectPrototype
| JsUndefined.

Fixpoint assoc {V} (key : string) (l : list (string * V)) : option V :=
  match l with
  | [] => None
  | (k, v) :: l' => if decide (k = key) then Some v else assoc key l'
  end.

Definition fields : list (string * string) :=
  [("users", "used_users");
   ("orders", "used_orders");
   ("events", "used_events");
   ("api_calls", "used_api_calls");
   ("storage", "used_storage_mb")].

(** The properties every object literal inherits. *)
Definition Object_prototype : list (string * JsValue) :=
  [("constructor", JsNativeFunction "Object");
   ("__defineGetter__", JsNativeFunction "__defineGetter__");
   ("__defineSetter__", JsNativeFunction "__defineSetter__");
   ("hasOwnProperty", JsNativeFunction "hasOwnProperty");
   ("__lookupGetter__", JsNativeFunction "__lookupGetter__");
   ("__lookupSetter__", JsNativeFunction "__lookupSetter__");
   ("isPrototypeOf", JsNativeFunction "isPrototypeOf");
   ("propertyIsEnumerable", JsNativeFunction "propertyIsEnumerable");
   ("toString", JsNativeFunction "toString");
   ("valueOf", JsNativeFunction "valueOf");
   ("__proto__", JsObjectPrototype);
   ("toLocaleString", JsNativeFunction "toLocaleString")].

(** [obj[key]] on an object literal with the given own properties. *)
Definition get_property (own : list (string * string)) (key : string)
  : JsValue :=
  match assoc key own with
  | Some s => JsString s
  | None => default JsUndefined (assoc key Object_prototype)
  end.

Definition truthy (v : JsValue) : bool :=
  match v with
  | JsString s => negb (bool_decide (s = EmptyString))
  | JsNativeFunction _ | JsObjectPrototype => true
  | JsUndefined => false
  end.

(** String conversion, as a template literal applies it. *)
Definition to_string (v : JsValue) : string :=
  match v with
  | JsString s => s
  | JsNativeFunction f => "function " +:+ f +:+ "() { [native code] }"
  | JsObjectPrototype => "[object Object]"
  | JsUndefined => "undefined"
  end.

Definition getQuotaFieldForResource (resource : string) : JsValue :=
  let v := get_property fields resource in
  if truthy v then v else JsString "used_orders".

(** The INTEGER columns of [tenant_quotas] by name. *)
Definition int_columns : list (string * (QuotaRow -> Z)) :=
  [("max_users", q_max_users); ("used_users", q_used_users);
   ("max_orders", q_max_orders); ("used_orders", q_used_orders);
   ("max_events", q_max_events); ("used_events", q_used_events);
   ("storage_quota_mb", q_storage_quota_mb);
   ("used_storage_mb", q_used_storage_mb);
   ("api_calls_per_day", q_api_calls_per_day);
   ("used_api_calls", q_used_api_calls)].

(** [SET col = v] on one row. *)
Definition set_int_column (col : string) (v : Z) (q : QuotaRow) : QuotaRow :=
  let pick (name : string) (old : Z) := if decide (col = name) then v else old in
  mkQuotaRow (q_tenant_id q)
    (pick "max_users" (q_max_users q)) (pick "used_users" (q_used_users q))
    (pick "max_orders" (q_max_orders q)) (pick "used_orders" (q_used_orders q))
    (pick "max_events" (q_max_events q)) (pick "used_events" (q_used_events q))
    (pick "storage_quota_mb" (q_storage_quota_mb q))
    (pick "used_storage_mb" (q_used_storage_mb q))
    (pick "api_calls_per_day" (q_api_calls_per_day q))
    (pick "used_api_calls" (q_used_api_calls q))
    (q_reset_date q) (q_updated_at q).

(** How to read and how to overwrite the column a piece of text names.
    Any other text in the place of a column makes the UPDATE statement
    invalid. *)
Definition quota_column (col : string)
  : option ((QuotaRow -> Z) * (Z -> QuotaRow -> QuotaRow)) :=
  (fun get => (get, set_int_column col)) <$> assoc col int_columns.

Definition touch (t : Z) (q : QuotaRow) : QuotaRow :=
  mkQuotaRow (q_tenant_id q) (q_max_users q) (q_used_users q)
    (q_max_orders q) (q_used_orders q) (q_max_events q) (q_used_events q)
    (q_storage_quota_mb q) (q_used_storage_mb q) (q_api_calls_per_day q)
    (q_used_api_calls q) (q_reset_date q) t.

(** [UPDATE tenant_quotas SET <field> = <field> + $2, updated_at = NOW()
    WHERE tenant_id = $1] through [db.none].  The server checks the range
    of the sum it stores, row by row; the amount itself is not bound to
    the column's type. *)
Definition db_add_to_quota (env : Env) (field : string) (tenantId : string)
    (amount : Z) : M unit :=
  fun db =>
    match quota_column field with
    | None => (Throw (DbError "syntax error in UPDATE statement"), db)
    | Some (get, set) =>
        let hit := filter (quota_of tenantId) (tenant_quotas db) in
        if negb (forallb (fun q => in_int4 (get q + amount)) hit)
        then (Throw (DbError "integer out of range"), db)
        else
          (Ok tt,
           mkDb (tenants db) (tenant_settings db)
             ((fun q => if quota_of tenantId q
                        then touch (now env) (set (get q + amount) q)
                        else q) <$> tenant_quotas db))
    end.

Definition incrementQuota (env : Env) (tenantId resource : string)
    (amount : option Z) : M unit :=
  let amount := default 1 amount in
  let field := getQuotaFieldForResource resource in
  db_add_to_quota env (to_string field) tenantId amount.

(** The three INSERT statements of [createTenant], each awaited on its
    own: no transaction spans them.  The [id] columns of the settings and
    quota rows, which the service never reads, are left out. *)
Definition refused (env : Env) (table : string) : M unit :=
  match insert_fault env table with
  | Some why => throw (DbError why)
  | None => ret tt
  end.

Definition db_insert_tenant (env : Env) (name slug email plan : string)
  : M TenantRow :=
  refused env "tenants" ;;;
  fun db =>
    let row := mkTenantRow (gen_uuid env) name slug email plan "active"
                 (now env) (now env) None in
    if negb (fits 255 name && fits 100 slug && fits 255 email) then
      (Throw (DbError "value too long for type character varying"), db)
    else if negb (bool_decide (plan ∈ valid_plans)) then
      (Throw (DbError "violates check constraint on plan"), db)
    else if has_tenant (gen_uuid env) db then
      (Throw (DbError "duplicate key value violates unique constraint"), db)
    else if bool_decide (slug ∈ t_slug <$> tenants db) then
      (Throw (DbError "duplicate key value violates unique constraint"), db)
    else
      (Ok row, mkDb (tenants db ++ [row]) (tenant_settings db) (tenant_quotas db)).

Definition db_insert_settings (env : Env) (tid : string)
    (max_users max_orders max_events : Z) : M unit :=
  refused env "tenant_settings" ;;;
  fun db =>
    if negb (has_tenant tid db) then
      (Throw (DbError "violates foreign key constraint"), db)
    else if bool_decide (tid ∈ s_tenant_id <$> tenant_settings db) then
      (Throw (DbError "duplicate key value violates unique constraint"), db)
    else
      (Ok tt,
       mkDb (tenants db)
         (tenant_settings db ++
            [mkSettingsRow tid max_users max_orders max_events [] None None
               "us" false])
         (tenant_quotas db)).

Definition db_insert_quotas (env : Env) (tid : string)
    (max_users max_orders max_events api_calls_per_day : Z) : M unit :=
  refused env "tenant_quotas" ;;;
  fun db =>
    if negb (has_tenant tid db) then
      (Throw (DbError "violates foreign key constraint"), db)
    else if bool_decide (tid ∈ q_tenant_id <$> tenant_quotas db) then
      (Throw (DbError "duplicate key value violates unique constraint"), db)
    else
      (Ok tt,
       mkDb (tenants db) (tenant_settings db)
         (tenant_quotas db ++
            [mkQuotaRow tid max_users 0 max_orders 0 max_events 0 1000 0
               api_calls_per_day 0 (now env + one_day) (now env)])).

Definition createTenant (env : Env) (data : NewTenant) : M TenantInfo :=
  tenant <- db_insert_tenant env (nt_name data) (nt_slug data) (nt_email data)
              (str_or (nt_plan data) "free") ;;
  db_insert_settings env (t_id tenant) 10 1000 100 ;;;
  db_insert_quotas env (t_id tenant) 10 1000 100 10000 ;;;
  ret (mkTenantInfo (t_id tenant) (t_name tenant) (t_slug tenant)
         (t_email tenant) (t_plan tenant) (t_status tenant)
         (t_created_at tenant) (t_updated_at tenant) None).


End TenantSvc.

(** ** tenantExtractorMiddleware *)

Module TenantExtractor.

Record JWTPayload := mkPayload {
  sub : option string;
  tenant_id : option string;
  role : option string;
  permissions : option (list string);
  iat : option Z;
  exp : option Z;
  nbf : option Z;
  tenant_name : option string;
  plan : option string;
  metadata : option string
}.

Record TenantContext := mkContext {
  tenantId : string;
  userId : option string;
  tenantName : option string;
  ctx_plan : string;
  ctx_role : string;
  ctx_permissions : list string;
  issuedAt : option Z;
  expiresAt : option Z;
  ctx_metadata : option string
}.

(** The error classes of the jsonwebtoken package that [jwt.verify]
    throws, and anything else. *)
Inductive ErrorClass :=
| JsonWebTokenError
| TokenExpiredError
| NotBeforeError
| OtherError.

#[global] Instance ErrorClass_eq_dec : EqDecision ErrorClass.
Proof. solve_decision. Defined.

(** The prototype chain of the package: [TokenExpiredError] and
    [NotBeforeError] are created with
    [Object.create(JsonWebTokenError.prototype)]. *)
Definition superclass (c : ErrorClass) : option ErrorClass :=
  match c with
  | TokenExpiredError | NotBeforeError => Some JsonWebTokenError
  | JsonWebTokenError | OtherError => None
  end.

(** [error instanceof K] *)
Definition instanceof (c K : ErrorClass) : bool :=
  bool_decide (c = K) || bool_decide (superclass c = Some K).

(** A token as the signer produced it: the key it was signed with and the
    claims it carries.  Reading the compact wire format back into this
    form is the parameter [decode] of [verify]. *)
Record SignedJwt := mkJwt {
  signed_with : string;
  claims : JWTPayload
}.

(** [jwt.verify(token, secret)] at clock time [clock] (seconds): structure,
    then signature, then not-before, then expiry. *)
Definition verify (decode : string -> option SignedJwt) (clock : Z)
    (token secret : string) : (ErrorClass * string) + JWTPayload :=
  if bool_decide (secret = EmptyString) then
    inl (JsonWebTokenError, "secret or public key must be provided")
  else
    match decode token with
    | None => inl (JsonWebTokenError, "jwt malformed")
    | Some jwt =>
        if negb (bool_decide (signed_with jwt = secret)) then
          inl (JsonWebTokenError, "invalid signature")
        else if match nbf (claims jwt) with
                | Some n => clock <? n
                | None => false
                end then
          inl (NotBeforeError, "jwt not active")
        else if match exp (claims jwt) with
                | Some e => e <=? clock
                | None => false
                end then
          inl (TokenExpiredError, "jwt expired")
        else inr (claims jwt)
    end.

(** What the middleware does with the request. *)
Inductive Outcome :=
| Next (context : option TenantContext)
| Json (status : Z) (error message : string)
| NextError (c : ErrorClass) (msg : string).

(** The delimiter '|'. *)
Definition pipe : Ascii.ascii := Ascii.ascii_of_nat 124.

(** [s.split('|')[0]] *)
Fixpoint first_segment (s : string) : string :=
  match s with
  | EmptyString => EmptyString
  | String c rest =>
      if Ascii.eqb c pipe then EmptyString else String c (first_segment rest)
  end.

(** [process.env.JWT_SECRET || 'your-secret-key'] *)
Definition default_secret (JWT_SECRET : option string) : string :=
  str_or JWT_SECRET "your-secret-key".

(** The catch block of the middleware. *)
Definition on_error (c : ErrorClass) (msg : string) : Outcome :=
  if instanceof c JsonWebTokenError then
    Json 401 "INVALID_TOKEN" "Token verification failed"
  else if instanceof c TokenExpiredError then
    Json 401 "TOKEN_EXPIRED" "Token has expired"
  else NextError c msg.

Definition tenantExtractorMiddleware (decode : string -> option SignedJwt)
    (clock : Z) (jwtSecret : string) (authorization : option string)
  : Outcome :=
  match authorization with
  | None => Next None
  | Some authHeader =>
      if negb (String.prefix "Bearer " authHeader) then Next None
      else
        let token :=
          String.substring 7 (String.length authHeader - 7) authHeader in
        match verify decode clock token jwtSecret with
        | inl (c, msg) => on_error c msg
        | inr decoded =>
            let tenantId :=
              str_or (tenant_id decoded)
                (default EmptyString (first_segment <$> sub decoded)) in
            if bool_decide (tenantId = EmptyString) then
              Json 401 "INVALID_TOKEN" "Token does not contain tenant_id"
            else
              Next (Some (mkContext tenantId (sub decoded)
                            (tenant_name decoded)
                            (str_or (plan decoded) "free")
                            (str_or (role decoded) "user")
                            (default [] (permissions decoded))
                            (iat decoded) (exp decoded) (metadata decoded)))
        end
  end.

End TenantExtractor.

(** ** BaseRepository *)

Module BaseRepo.

Section Repository.
Context {T : Type}.

(** [item.id]; for a row of the relational table, whose [id] column is
    of type UUID in the schema, the text the server prints. *)
Variable item_id : T -> string.

(** How the relational server reads [WHERE <whereClause>] with the
    bound values: the row predicate it denotes, or nothing when the
    statement is rejected. *)
Variable where_sem : string -> list Value -> option (T -> bool).

Record State := mkState {
  isMemoryMode : bool;
  memoryStore : list T;
  table : list T
}.

Definition findAll : Eff State (list T) :=
  fun st =>
    if isMemoryMode st then (Ok (memoryStore st), st)
    else (Ok (table st), st).

(** The relational branch compares with a UUID column: the server reads
    the parameter through the type's input function. *)
Definition findById (id : string) : Eff State (option T) :=
  fun st =>
    if isMemoryMode st then
      (Ok (head (filter (fun item => bool_decide (item_id item = id))
                   (memoryStore st))), st)
    else
      match Uuid.uuid_in id with
      | None => (Throw (DbError "invalid input syntax for type uuid"), st)
      | Some u =>
          (Ok (head (filter (fun item => bool_decide (item_id item = u))
                       (table st))), st)
      end.

Definition find (whereClause : string) (values : option (list Value))
  : Eff State (list T) :=
  fun st =>
    if isMemoryMode st then (Ok (memoryStore st), st)
    else
      match where_sem whereClause (default [] values) with
      | None => (Throw (DbError "syntax error in WHERE clause"), st)
      | Some p => (Ok (filter p (table st)), st)
      end.

Definition count : Eff State Z :=
  fun st =>
    if isMemoryMode st then (Ok (Z.of_nat (length (memoryStore st))), st)
    else (Ok (Z.of_nat (length (table st))), st).

(** [findIndex] then [splice(index, 1)]: drops the first match. *)
Fixpoint remove_first (id : string) (l : list T) : option (list T) :=
  match l with
  | [] => None
  | item :: l' =>
      if bool_decide (item_id item = id) then Some l'
      else cons item <$> remove_first id l'
  end.

Definition delete (id : string) : Eff State bool :=
  fun st =>
    if isMemoryMode st then
      match remove_first id (memoryStore st) with
      | Some l => (Ok true, mkState true l (table st))
      | None => (Ok false, st)
      end
    else
      match Uuid.uuid_in id with
      | None => (Throw (DbError "invalid input syntax for type uuid"), st)
      | Some u =>
          let keep := filter (fun item => negb (bool_decide (item_id item = u)))
                        (table st) in
          (Ok (0 <? Z.of_nat (length (table st)) - Z.of_nat (length keep)),
           mkState false (memoryStore st) keep)
      end.

End Repository.

Arguments State T : clear implicits.

End BaseRepo.

(** ** Sample data *)

Module Samples.

(** A tenant-scoped [orders] table that accepts every row. *)
Definition orders : TenantRepo.Repo :=
  TenantRepo.mkRepo "orders" {["status" := VStr "pending"]} (fun _ _ => true).

Definition env1 : TenantRepo.Env := TenantRepo.mkEnv 1700000000000 "X" None.

Definition empty_store : TenantRepo.Store := TenantRepo.mkStore [] [] [].

(** The store after tenant t2 created the record X, asking for an audit
    entry. *)
Definition store_t2 : TenantRepo.Store :=
  (TenantRepo.create env1 orders "t2" {["total_price" := VNum 200]}
     (Some (TenantRepo.mkOptions None (Some "u7") None None (Some true)))
     empty_store).2.

Definition record_X : Row :=
  TenantRepo.inserted_row env1 orders
    (TenantRepo.dataWithTenant env1 "t2" {["total_price" := VNum 200]}).

Definition env2 : TenantRepo.Env := TenantRepo.mkEnv 1700000000500 "Y" None.

(** A caller under t1 that names another tenant in the data. *)
Definition forged : Row :=
  {["tenant_id" := VStr "t2"; "total_price" := VNum 5]}.

Definition new_tenant : TenantSvc.NewTenant :=
  TenantSvc.mkNewTenant "Acme" "acme" "ops@acme.test" None.

Definition svc_env : TenantSvc.Env :=
  TenantSvc.mkEnv 1700000000000 "T1" (fun _ => None).

Definition empty_db : TenantSvc.Db := TenantSvc.mkDb [] [] [].

Definition quota_row (used_orders used_api_calls reset_date : Z)
  : TenantSvc.QuotaRow :=
  TenantSvc.mkQuotaRow "T1" 10 0 1000 used_orders 100 0 1000 0 10000
    used_api_calls reset_date 0.

Definition quota_db (used_orders used_api_calls reset_date : Z)
  : TenantSvc.Db :=
  TenantSvc.mkDb [] [] [quota_row used_orders used_api_calls reset_date].

(** What [getQuotas] reads from [quota_db]. *)
Definition quota_view (used_orders used_api_calls reset_date : Z)
  : TenantSvc.TenantQuota :=
  TenantSvc.mkTenantQuota "T1" 10 0 1000 used_orders 100 0 1000 0 10000
    used_api_calls reset_date.


Definition expired_jwt : TenantExtractor.SignedJwt :=
  TenantExtractor.mkJwt "k1"
    (TenantExtractor.mkPayload (Some "T1|u7") (Some "T1") (Some "admin") None
       (Some 1000) (Some 2000) None None None None).

(** A token is written here as "<key>.<exp>"; two entries suffice. *)
Definition sample_decode (token : string) : option TenantExtractor.SignedJwt :=
  let claims e :=
    TenantExtractor.mkPayload (Some "T1|u7") (Some "T1") (Some "admin") None
      (Some 1000) (Some e) None None None None in
  if decide (token = "k1.2000") then Some (TenantExtractor.mkJwt "k1" (claims 2000))
  else if decide (token = "k2.2000") then Some (TenantExtractor.mkJwt "k2" (claims 2000))
  else None.

Record Order := mkOrder {
  o_id : string;
  o_userId : string;
  o_status : string
}.

(** The server's reading of the one WHERE clause used in the samples. *)
Definition sample_where (whereClause : string) (values : list Value)
  : option (Order -> bool) :=
  if decide (whereClause = "status = $1") then
    match values with
    | [VStr s] => Some (fun o => bool_decide (o_status o = s))
    | _ => None
    end
  else None.

Definition is_pending (o : Order) : bool := bool_decide (o_status o = "pending").

Definition two_orders : list Order :=
  [mkOrder "o1" "u1" "pending"; mkOrder "o2" "u1" "completed"].

End Samples.

(** ** BaseTenantRepository: custom queries and statistics *)

Module TenantRepoExt.
Import TenantRepo.

(** [toLowerCase] on the letters A-Z; every other code unit is kept, which
    is all that matters for finding the ASCII text tenant_id. *)
Definition lower_char (c : Ascii.ascii) : Ascii.ascii :=
  let n := Ascii.nat_of_ascii c in
  if Nat.leb 65 n && Nat.leb n 90 then Ascii.ascii_of_nat (n + 32) else c.

Fixpoint toLowerCase (s : string) : string :=
  match s with
  | EmptyString => EmptyString
  | String c rest => String (lower_char c) (toLowerCase rest)
  end.

(** [hay.includes(needle)] *)
Fixpoint includes (needle hay : string) : bool :=
  String.prefix needle hay ||
  match hay with
  | EmptyString => false
  | String _ rest => includes needle rest
  end.

(** [options?.validateTenantId] used as a condition. *)
Definition wants_validation (options : option TenantQueryOptions) : bool :=
  match options with
  | Some o => default false (validateTenantId o)
  | None => false
  end.

(** The outcome of [query]: the error of its own guard, or whatever
    [db.query] did with the statement. *)
Inductive QueryOutcome :=
| GuardError (message : string)
| Ran (result : Result (list Row)).

Definition guard_message : string :=
  "Query must include tenant_id filter for security. Use unsafe() if you really want to skip this.".

(** [exec] is the server's reading of an arbitrary statement with its
    bound values. *)
Definition query (exec : string -> list Value -> M (list Row))
    (text : string) (values : list Value)
    (options : option TenantQueryOptions) : Store -> QueryOutcome * Store :=
  fun st =>
    if wants_validation options
       && negb (includes "tenant_id" (toLowerCase text))
    then (GuardError guard_message, st)
    else let (result, st') := exec text values st in (Ran result, st').

Definition unsafe_warning : string :=
  "⚠️  UNSAFE QUERY EXECUTED - Ensure you understand the security implications".

(** [console.warn] writes to the same console as [console.error]. *)
Definition unsafe (exec : string -> list Value -> M (list Row))
    (text : string) (values : list Value) : M (list Row) :=
  console_error unsafe_warning ;;; exec text values.


Definition one_day : Z := 86400000.




End TenantRepoExt.

(** ** TenantService: consistency and suspension *)

Module TenantSvcExt.
Import TenantSvc.

(** The constraints the schema puts on the three tables. *)
Record consistent (db : Db) : Prop := mkConsistent {
  ids_unique : NoDup (t_id <$> tenants db);
  slugs_unique : NoDup (t_slug <$> tenants db);
  settings_fk : ∀ r, r ∈ tenant_settings db → s_tenant_id r ∈ t_id <$> tenants db;
  settings_unique : NoDup (s_tenant_id <$> tenant_settings db);
  quotas_fk : ∀ r, r ∈ tenant_quotas db → q_tenant_id r ∈ t_id <$> tenants db;
  quotas_unique : NoDup (q_tenant_id <$> tenant_quotas db)
}.

(** The row [suspendTenant] writes to [audit_logs]; [sa_reason] is the
    reason inside the metadata document. *)
Record SuspensionAudit := mkSuspensionAudit {
  sa_tenant_id : string;
  sa_action : string;
  sa_resource : string;
  sa_status : string;
  sa_reason : string;
  sa_timestamp : Z
}.

Record State := mkState {
  db : Db;
  audit_logs : list SuspensionAudit
}.

Record SuspendEnv := mkSuspendEnv {
  s_now : Z;                      (* NOW() *)
  s_audit_fault : option string   (* Some msg: the audit INSERT is rejected *)
}.

(** The columns of [audit_logs] in the schema. *)
Definition audit_logs_columns : list string :=
  ["id"; "tenant_id"; "user_id"; "action"; "resource"; "resource_id";
   "changes"; "previous"; "ip_address"; "user_agent"; "status"; "error";
   "timestamp"].

(** The columns the audit INSERT of [suspendTenant] names. *)
Definition suspension_audit_columns : list string :=
  ["tenant_id"; "action"; "resource"; "status"; "metadata"].

Definition suspended (t : Z) (row : TenantRow) : TenantRow :=
  mkTenantRow (t_id row) (t_name row) (t_slug row) (t_email row) (t_plan row)
    "suspended" (t_created_at row) t (t_deleted_at row).

(** [UPDATE tenants SET status = 'suspended', metadata = ..., updated_at =
    NOW() WHERE id = $1]; the metadata column, which the service never
    reads, is left out. *)
Definition db_suspend (env : SuspendEnv) (tenantId : string) : Eff State unit :=
  fun st =>
    (Ok tt,
     mkState
       (mkDb ((λ row, if bool_decide (t_id row = tenantId)
                      then suspended (s_now env) row else row)
                <$> tenants (db st))
          (tenant_settings (db st)) (tenant_quotas (db st)))
       (audit_logs st)).

(** [INSERT INTO audit_logs (tenant_id, action, resource, status, metadata)]:
    the server refuses a statement that names a column the table does not
    have before it looks at any row; then comes the foreign key on the
    tenant. *)
Definition db_insert_suspension_audit (env : SuspendEnv) (tenantId reason : string)
  : Eff State unit :=
  fun st =>
    match s_audit_fault env with
    | Some why => (Throw (DbError why), st)
    | None =>
        if negb (forallb (λ c, bool_decide (c ∈ audit_logs_columns))
                   suspension_audit_columns) then
          (Throw (DbError "column of relation audit_logs does not exist"), st)
        else if negb (has_tenant tenantId (db st)) then
          (Throw (DbError "violates foreign key constraint"), st)
        else
          (Ok tt,
           mkState (db st)
             (audit_logs st ++
                [mkSuspensionAudit tenantId "SUSPEND_TENANT" "tenant" "success"
                   reason (s_now env)]))
    end.

Definition suspendTenant (env : SuspendEnv) (tenantId reason : string)
  : Eff State unit :=
  db_suspend env tenantId ;;;
  db_insert_suspension_audit env tenantId reason.

End TenantSvcExt.

(** ** Authorization guards and token issuance *)

Module AccessGuard.
Import TenantExtractor.

Definition requireTenantContext (context : option TenantContext) : Outcome :=
  match context with
  | None =>
      Json 401 "TENANT_REQUIRED"
        "No tenant context found. Authentication required."
  | Some _ => Next context
  end.

(** [list.join(', ')] *)
Definition join (l : list string) : string := String.concat ", " l.

Definition requireRole (allowedRoles : list string)
    (context : option TenantContext) : Outcome :=
  match context with
  | None => Json 401 "TENANT_REQUIRED" "No tenant context found"
  | Some ctx =>
      if negb (bool_decide (ctx_role ctx ∈ allowedRoles)) then
        Json 403 "INSUFFICIENT_PERMISSIONS"
          ("This action requires one of these roles: " +:+ join allowedRoles)
      else Next context
  end.

Definition requirePermission (requiredPermissions : list string)
    (context : option TenantContext) : Outcome :=
  match context with
  | None => Json 401 "TENANT_REQUIRED" "No tenant context found"
  | Some ctx =>
      let hasPermission :=
        existsb (λ perm, bool_decide (perm ∈ ctx_permissions ctx))
          requiredPermissions in
      if negb hasPermission then
        Json 403 "INSUFFICIENT_PERMISSIONS"
          ("This action requires one of these permissions: "
             +:+ join requiredPermissions)
      else Next context
  end.

(** [jwt.sign(payload, secret, {expiresIn})] at clock time [clock]
    (seconds): the package stamps [iat] and [exp] and refuses an empty key
    or a span it cannot read ([None]).  [timespan] is its reading of the
    span text, in seconds. *)
Definition sign (timespan : string -> option Z) (clock : Z)
    (payload : JWTPayload) (secret expiresIn : string) : option SignedJwt :=
  if bool_decide (secret = EmptyString) then None
  else
    match timespan expiresIn with
    | None => None
    | Some span =>
        Some (mkJwt secret
                (mkPayload (sub payload) (tenant_id payload) (role payload)
                   (permissions payload) (Some clock) (Some (clock + span))
                   (nbf payload) (tenant_name payload) (plan payload)
                   (metadata payload)))
    end.

(** The claims [generateTenantToken] hands to the signer. *)
Definition jwtPayload (payload : TenantContext) : JWTPayload :=
  mkPayload (userId payload) (Some (tenantId payload))
    (Some (ctx_role payload)) (Some (ctx_permissions payload))
    None None None (tenantName payload) (Some (ctx_plan payload)) None.

(** [encode] writes a signed token in its compact wire form. *)
Definition generateTenantToken (encode : SignedJwt -> string)
    (timespan : string -> option Z) (clock : Z)
    (payload : TenantContext) (jwtSecret expiresIn : string) : option string :=
  encode <$> sign timespan clock (jwtPayload payload) jwtSecret expiresIn.

End AccessGuard.

(** ** The in-memory orders service and its controllers *)

Module OrdersService.

(** The three stored objects.  Fields filled from a request body hold
    whatever value the body carried.  [stripePaymentId], which the service
    never sets, is left out of [Order]. *)
Record Order := mkOrder {
  id : string;
  userId : Value;
  ticketId : Value;
  quantity : Value;
  totalAmount : Value;
  status : Value;
  nftTokenIds : list Value;
  createdAt : Z;
  updatedAt : Z
}.

Record Payment := mkPayment {
  p_id : string;
  p_orderId : string;
  p_amount : Value;
  p_currency : Value;
  p_status : string;
  p_stripeChargeId : option string;
  p_paymentMethod : Value;
  p_errorMessage : option string;
  p_createdAt : Z;
  p_updatedAt : Z
}.

Record NFTMintTransaction := mkTx {
  x_id : string;
  x_orderId : string;
  x_contractAddress : Value;
  x_recipientAddress : Value;
  x_tokenId : Value;
  x_transactionHash : option string;
  x_status : string;
  x_createdAt : Z;
  x_updatedAt : Z
}.

(** The three module-level arrays.  The functions below take the UUID
    they draw and each value of [Date.now()] they read as arguments. *)
Record State := mkState {
  orders : list Order;
  payments : list Payment;
  nftTransactions : list NFTMintTransaction
}.

(** [array.find(p)] followed by a mutation of the object found: the
    first match is changed in place. *)
Fixpoint update_first {A} (p : A -> bool) (f : A -> A) (l : list A)
  : option A * list A :=
  match l with
  | [] => (None, [])
  | a :: l' =>
      if p a then (Some (f a), f a :: l')
      else let (r, l'') := update_first p f l' in (r, a :: l'')
  end.

(** [array.find(p)] *)
Definition find_first {A} (p : A -> bool) (l : list A) : option A :=
  head (filter p l).

(** A string used as a condition: empty and undefined are falsy. *)
Definition given (s : option string) : bool :=
  match s with
  | Some s => negb (bool_decide (s = EmptyString))
  | None => false
  end.

Definition has_id (i : string) (o : Order) : bool := bool_decide (id o = i).

Definition createOrder (uuid : string) (t1 t2 : Z)
    (userId ticketId quantity totalAmount : Value) (st : State)
  : Order * State :=
  let order := mkOrder uuid userId ticketId quantity totalAmount
                 (VStr "pending") [] t1 t2 in
  (order, mkState (orders st ++ [order]) (payments st) (nftTransactions st)).

Definition getOrder (orderId : string) (st : State) : option Order :=
  find_first (has_id orderId) (orders st).

Definition getUserOrders (u : string) (st : State) : list Order :=
  filter (λ o, bool_decide (userId o = VStr u)) (orders st).

Definition updateOrderStatus (now : Z) (orderId : string) (status : Value)
    (st : State) : option Order * State :=
  let (r, l) :=
    update_first (has_id orderId)
      (λ o, mkOrder (id o) (userId o) (ticketId o) (quantity o)
              (totalAmount o) status (nftTokenIds o) (createdAt o) now)
      (orders st) in
  (r, mkState l (payments st) (nftTransactions st)).

Definition addNFTTokenToOrder (now : Z) (orderId : string) (tokenId : Value)
    (st : State) : option Order * State :=
  let (r, l) :=
    update_first (has_id orderId)
      (λ o, mkOrder (id o) (userId o) (ticketId o) (quantity o)
              (totalAmount o) (status o) (nftTokenIds o ++ [tokenId])
              (createdAt o) now)
      (orders st) in
  (r, mkState l (payments st) (nftTransactions st)).

Definition createPayment (uuid : string) (t1 t2 : Z) (orderId : string)
    (amount currency paymentMethod : Value) (st : State) : Payment * State :=
  let payment := mkPayment uuid orderId amount currency "pending" None
                   paymentMethod None t1 t2 in
  (payment, mkState (orders st) (payments st ++ [payment]) (nftTransactions st)).

Definition getPayment (paymentId : string) (st : State) : option Payment :=
  find_first (λ p, bool_decide (p_id p = paymentId)) (payments st).

Definition getOrderPayments (orderId : string) (st : State) : list Payment :=
  filter (λ p, bool_decide (p_orderId p = orderId)) (payments st).

Definition updatePaymentStatus (now : Z) (paymentId status : string)
    (stripeChargeId errorMessage : option string) (st : State)
  : option Payment * State :=
  let (r, l) :=
    update_first (λ p, bool_decide (p_id p = paymentId))
      (λ p, mkPayment (p_id p) (p_orderId p) (p_amount p) (p_currency p) status
              (if given stripeChargeId then stripeChargeId
               else p_stripeChargeId p)
              (p_paymentMethod p)
              (if given errorMessage then errorMessage else p_errorMessage p)
              (p_createdAt p) now)
      (payments st) in
  (r, mkState (orders st) l (nftTransactions st)).

Definition recordNFTMintTransaction (uuid : string) (t1 t2 : Z)
    (orderId : string) (contractAddress recipientAddress tokenId : Value)
    (st : State) : NFTMintTransaction * State :=
  let tx := mkTx uuid orderId contractAddress recipientAddress tokenId None
              "pending" t1 t2 in
  (tx, mkState (orders st) (payments st) (nftTransactions st ++ [tx])).

Definition getMintTransaction (txId : string) (st : State)
  : option NFTMintTransaction :=
  find_first (λ x, bool_decide (x_id x = txId)) (nftTransactions st).

Definition getOrderMintTransactions (orderId : string) (st : State)
  : list NFTMintTransaction :=
  filter (λ x, bool_decide (x_orderId x = orderId)) (nftTransactions st).

Definition updateMintTransactionStatus (now : Z) (txId status : string)
    (transactionHash : option string) (st : State)
  : option NFTMintTransaction * State :=
  let (r, l) :=
    update_first (λ x, bool_decide (x_id x = txId))
      (λ x, mkTx (x_id x) (x_orderId x) (x_contractAddress x)
              (x_recipientAddress x) (x_tokenId x)
              (if given transactionHash then transactionHash
               else x_transactionHash x)
              status (x_createdAt x) now)
      (nftTransactions st) in
  (r, mkState (orders st) (payments st) l).

End OrdersService.

Module OrdersController.
Import OrdersService.

(** What a handler sends: the status code and the JSON it serialises. *)
Inductive Body :=
| ErrorBody (error : string)
| OrderBody (order : Order)
| OrdersBody (list_ : list Order)
| PaymentReceipt (order : option Order) (payment : option Payment)
| PaymentsBody (list_ : list Payment)
| MintReceipt (order : option Order) (mintTransaction : option NFTMintTransaction)
| MintTransactionsBody (list_ : list NFTMintTransaction).

Record Response := mkResponse {
  code : Z;
  body : Body
}.

(** [!x] on a field destructured from the request body is false for a
    present, truthy value: a non-empty string, a number other than 0,
    [true]. *)
Definition truthy (v : option Value) : bool :=
  match v with
  | None | Some VNull | Some (VBool false) => false
  | Some (VStr s) => negb (bool_decide (s = EmptyString))
  | Some (VNum n) => negb (n =? 0)
  | Some (VBool true) | Some (VDate _) => true
  end.

Definition field (req_body : Row) (k : string) : Value :=
  default VNull (req_body !! k).

(** [id.slice(0, 8)] *)
Definition slice8 (s : string) : string := String.substring 0 8 s.

(** What one request draws: the UUID and the successive readings of the
    clock. *)
Record Draw := mkDraw {
  uuid : string;
  t1 : Z;
  t2 : Z;
  t3 : Z;
  t4 : Z
}.

(** The request body is the object [express.json()] leaves in [req.body].
    The catch arm of each handler, which answers 500, is then not
    reachable: nothing the handlers call throws. *)
Definition createOrder (d : Draw) (req_body : Row) (st : State)
  : Response * State :=
  if negb (truthy (req_body !! "userId")) || negb (truthy (req_body !! "ticketId"))
     || negb (truthy (req_body !! "quantity"))
     || negb (truthy (req_body !! "totalAmount"))
  then
    (mkResponse 400
       (ErrorBody "userId, ticketId, quantity, and totalAmount are required"), st)
  else
    let (order, st') :=
      OrdersService.createOrder (uuid d) (t1 d) (t2 d) (field req_body "userId")
        (field req_body "ticketId") (field req_body "quantity")
        (field req_body "totalAmount") st in
    (mkResponse 201 (OrderBody order), st').

Definition getOrderHandler (orderId : string) (st : State) : Response * State :=
  match getOrder orderId st with
  | None => (mkResponse 404 (ErrorBody "Order not found"), st)
  | Some order => (mkResponse 200 (OrderBody order), st)
  end.

Definition getUserOrders (u : string) (st : State) : Response * State :=
  (mkResponse 200 (OrdersBody (OrdersService.getUserOrders u st)), st).

Definition updateOrderStatus (d : Draw) (orderId : string) (req_body : Row)
    (st : State) : Response * State :=
  if negb (truthy (req_body !! "status")) then
    (mkResponse 400 (ErrorBody "status is required"), st)
  else
    match OrdersService.updateOrderStatus (t1 d) orderId
            (field req_body "status") st with
    | (None, st') => (mkResponse 404 (ErrorBody "Order not found"), st')
    | (Some order, st') => (mkResponse 200 (OrderBody order), st')
    end.

Definition processPayment (d : Draw) (orderId : string)
    (req_body : Row) (st : State) : Response * State :=
  if negb (truthy (req_body !! "amount")) || negb (truthy (req_body !! "currency"))
     || negb (truthy (req_body !! "paymentMethod"))
  then
    (mkResponse 400
       (ErrorBody "amount, currency, and paymentMethod are required"), st)
  else
    match getOrder orderId st with
    | None => (mkResponse 404 (ErrorBody "Order not found"), st)
    | Some _ =>
        let (payment, st1) :=
          createPayment (uuid d) (t1 d) (t2 d) orderId (field req_body "amount")
            (field req_body "currency") (field req_body "paymentMethod") st in
        let st2 :=
          (updatePaymentStatus (t3 d) (p_id payment) "succeeded"
             (Some ("charge_" +:+ slice8 (p_id payment))) None st1).2 in
        let st3 :=
          (OrdersService.updateOrderStatus (t4 d) orderId (VStr "completed")
             st2).2 in
        (mkResponse 201
           (PaymentReceipt (getOrder orderId st3) (getPayment (p_id payment) st3)),
         st3)
    end.

Definition getOrderPayments (orderId : string) (st : State) : Response * State :=
  (mkResponse 200 (PaymentsBody (OrdersService.getOrderPayments orderId st)), st).

Definition mintNFT (d : Draw) (orderId : string)
    (req_body : Row) (st : State) : Response * State :=
  if negb (truthy (req_body !! "contractAddress"))
     || negb (truthy (req_body !! "recipientAddress"))
     || negb (truthy (req_body !! "tokenId"))
  then
    (mkResponse 400
       (ErrorBody "contractAddress, recipientAddress, and tokenId are required"),
     st)
  else
    match getOrder orderId st with
    | None => (mkResponse 404 (ErrorBody "Order not found"), st)
    | Some _ =>
        let (tx, st1) :=
          recordNFTMintTransaction (uuid d) (t1 d) (t2 d) orderId
            (field req_body "contractAddress")
            (field req_body "recipientAddress") (field req_body "tokenId") st in
        let st2 :=
          (updateMintTransactionStatus (t3 d) (x_id tx) "minted"
             (Some ("0xtxhash" +:+ slice8 (x_id tx))) st1).2 in
        let st3 :=
          (addNFTTokenToOrder (t4 d) orderId (field req_body "tokenId") st2).2 in
        (mkResponse 201
           (MintReceipt (getOrder orderId st3) (getMintTransaction (x_id tx) st3)),
         st3)
    end.

Definition getOrderMintTransactions (orderId : string) (st : State)
  : Response * State :=
  (mkResponse 200
     (MintTransactionsBody (OrdersService.getOrderMintTransactions orderId st)),
   st).

(** A request as the orders router hands it to a handler: the route it
    matched with the route's parameter, and the body.  [serve] handles the
    requests received one after the other. *)
Inductive Request :=
| PostOrder (req_body : Row)
| GetOrder (orderId : string)
| GetUserOrders (userId : string)
| PutOrderStatus (orderId : string) (req_body : Row)
| PostPayment (orderId : string) (req_body : Row)
| GetPayments (orderId : string)
| PostMintNft (orderId : string) (req_body : Row)
| GetMintTransactions (orderId : string).

Definition router (d : Draw) (req : Request) (st : State) : Response * State :=
  match req with
  | PostOrder b => createOrder d b st
  | GetOrder i => getOrderHandler i st
  | GetUserOrders u => getUserOrders u st
  | PutOrderStatus i b => updateOrderStatus d i b st
  | PostPayment i b => processPayment d i b st
  | GetPayments i => getOrderPayments i st
  | PostMintNft i b => mintNFT d i b st
  | GetMintTransactions i => getOrderMintTransactions i st
  end.

Fixpoint serve (reqs : list (Draw * Request)) (st : State) : State :=
  match reqs with
  | [] => st
  | (d, req) :: reqs' => serve reqs' (router d req st).2
  end.

End OrdersController.

(** ** More sample data *)

Module MoreSamples.

Definition order_data : Row := {["total_price" := VNum 200]}.




(** The database after onboarding the sample tenant. *)
Definition acme_db : TenantSvc.Db :=
  (TenantSvc.createTenant Samples.svc_env Samples.new_tenant Samples.empty_db).2.

Definition acme_row : TenantSvc.TenantRow :=
  TenantSvc.mkTenantRow "T1" "Acme" "acme" "ops@acme.test" "free" "active"
    1700000000000 1700000000000 None.

Definition acme_state : TenantSvcExt.State := TenantSvcExt.mkState acme_db [].

Definition suspend_ok : TenantSvcExt.SuspendEnv :=
  TenantSvcExt.mkSuspendEnv 1700000000900 None.

Definition suspend_refused : TenantSvcExt.SuspendEnv :=
  TenantSvcExt.mkSuspendEnv 1700000000900 (Some "permission denied").

(** The context the sample token k1.2000 yields. *)
Definition sample_context : TenantExtractor.TenantContext :=
  TenantExtractor.mkContext "T1" (Some "T1|u7") None "free" "admin" []
    (Some 1000) (Some 2000) None.

(** A one-entry reading of time spans and a one-token wire format. *)
Definition sample_timespan (s : string) : option Z :=
  if decide (s = "1h") then Some 3600 else None.

Definition issued_jwt : TenantExtractor.SignedJwt :=
  TenantExtractor.mkJwt "k1"
    (TenantExtractor.mkPayload (Some "T1|u7") (Some "T1") (Some "admin")
       (Some []) (Some 1000) (Some 4600) None None (Some "free") None).

Definition sample_encode (jwt : TenantExtractor.SignedJwt) : string := "k1.4600".

Definition wire_decode (token : string) : option TenantExtractor.SignedJwt :=
  if decide (token = "k1.4600") then Some issued_jwt else None.

End MoreSamples.

(** ** Sample data with UUID identifiers *)

Module UuidSamples.

Definition tenant_a : string := "a0eebc99-9c0b-4ef8-bb6d-6bb9bd380a11".
Definition tenant_b : string := "b1ffcd00-0d1c-4fa9-8c7e-7cc0ce491b22".
Definition id_x : string := "c2aade11-1e2d-4ab0-9d8f-8dd1df5a2c33".
Definition id_y : string := "d3bbef22-2f3e-4bc1-8e90-9ee2e06b3d44".
Definition user_7 : string := "e4ccf033-3a4f-4cd2-9fa1-aff3f17c4e55".

(** The same tenant as [tenant_a], in capitals. *)
Definition tenant_a_capitals : string := "A0EEBC99-9C0B-4EF8-BB6D-6BB9BD380A11".

Definition env_x : TenantRepo.Env := TenantRepo.mkEnv 1700000000000 id_x None.
Definition env_y : TenantRepo.Env := TenantRepo.mkEnv 1700000000500 id_y None.

(** The store after tenant a created the record x, asking for an audit
    entry. *)
Definition store_a : TenantRepo.Store :=
  (TenantRepo.create env_x Samples.orders tenant_a {["total_price" := VNum 200]}
     (Some (TenantRepo.mkOptions None (Some user_7) None None (Some true)))
     Samples.empty_store).2.

Definition record_x : Row :=
  TenantRepo.inserted_row env_x Samples.orders
    (TenantRepo.dataWithTenant env_x tenant_a {["total_price" := VNum 200]}).

(** A caller under tenant b that names tenant a in the data. *)
Definition forged_a : Row :=
  {["tenant_id" := VStr tenant_a; "total_price" := VNum 5]}.

(** A data object whose first key carries SQL: it closes the column list
    with a row for tenant b and opens a second INSERT for the columns that
    follow. *)
Definition smuggled_key : string :=
  "tenant_id, event_id, user_id, unit_price, total_price) VALUES ('b1ffcd00-0d1c-4fa9-8c7e-7cc0ce491b22', 'd3bbef22-2f3e-4bc1-8e90-9ee2e06b3d44', 'e4ccf033-3a4f-4cd2-9fa1-aff3f17c4e55', 1, 1); INSERT INTO orders (event_id".

Definition smuggled : InsertText.Obj :=
  [(smuggled_key, VStr id_y); ("user_id", VStr user_7);
   ("unit_price", VNum 5); ("total_price", VNum 5)].

Definition pro_tenant : TenantSvc.NewTenant :=
  TenantSvc.mkNewTenant "Acme" "acme" "ops@acme.test" (Some "pro").

Definition svc_env_a : TenantSvc.Env :=
  TenantSvc.mkEnv 1700000000000 tenant_a (fun _ => None).

(** Tenant a with 7 orders counted against a ceiling of 1000. *)
Definition quota_db_a : TenantSvc.Db :=
  TenantSvc.mkDb [] []
    [TenantSvc.mkQuotaRow tenant_a 10 0 1000 7 100 0 1000 0 10000 0 0 0].

(** The server is out of reach when the settings row is written. *)
Definition svc_env_settings_lost : TenantSvc.Env :=
  TenantSvc.mkEnv 1700000000000 tenant_a
    (fun table => if decide (table = "tenant_settings")
                  then Some "connection terminated" else None).

Definition uuid_orders : list Samples.Order :=
  [Samples.mkOrder id_x user_7 "pending";
   Samples.mkOrder id_y user_7 "completed"].

(** The id of the first order, in capitals. *)
Definition id_x_capitals : string := "C2AADE11-1E2D-4AB0-9D8F-8DD1DF5A2C33".

(** Tenant a after a complete onboarding. *)
Definition acme_db_a : TenantSvc.Db :=
  (TenantSvc.createTenant svc_env_a pro_tenant Samples.empty_db).2.

Definition acme_row_a : TenantSvc.TenantRow :=
  TenantSvc.mkTenantRow tenant_a "Acme" "acme" "ops@acme.test" "pro" "active"
    1700000000000 1700000000000 None.

Definition acme_state_a : TenantSvcExt.State :=
  TenantSvcExt.mkState acme_db_a [].

End UuidSamples.

(** ** What the orders store keeps *)

Module OrdersHistory.
Import OrdersService.

(** Every position of [l] is still filled in [l'], by an element related
    to the old one. *)
Definition kept {A} (R : A -> A -> Prop) (l l' : list A) : Prop :=
  forall k a, l !! k = Some a -> exists a', l' !! k = Some a' /\ R a a'.

Definition same_order (o o' : Order) : Prop :=
  id o' = id o /\ userId o' = userId o /\ ticketId o' = ticketId o /\
  quantity o' = quantity o /\ totalAmount o' = totalAmount o /\
  createdAt o' = createdAt o /\ nftTokenIds o `prefix_of` nftTokenIds o'.

Definition same_payment (p p' : Payment) : Prop :=
  p_id p' = p_id p /\ p_orderId p' = p_orderId p /\ p_amount p' = p_amount p /\
  p_currency p' = p_currency p /\ p_paymentMethod p' = p_paymentMethod p /\
  p_createdAt p' = p_createdAt p.

Definition same_tx (x x' : NFTMintTransaction) : Prop :=
  x_id x' = x_id x /\ x_orderId x' = x_orderId x /\
  x_contractAddress x' = x_contractAddress x /\
  x_recipientAddress x' = x_recipientAddress x /\ x_tokenId x' = x_tokenId x /\
  x_createdAt x' = x_createdAt x.

Record grows (st st' : State) : Prop := {
  orders_kept : kept same_order (orders st) (orders st');
  payments_kept : kept same_payment (payments st) (payments st');
  nftTransactions_kept : kept same_tx (nftTransactions st) (nftTransactions st')
}.

End OrdersHistory.

Module OrderSamples.
Import OrdersService OrdersController.

Definition no_orders : State := mkState [] [] [].

Definition d1 : Draw := mkDraw "11111111-aaaa" 10 11 12 13.
Definition d2 : Draw := mkDraw "22222222-bbbb" 20 21 22 23.
Definition d3 : Draw := mkDraw "33333333-cccc" 30 31 32 33.

Definition order_body : Row :=
  {[ "userId" := VStr "u1"; "ticketId" := VStr "tk1"; "quantity" := VNum 2;
     "totalAmount" := VStr "50.00" ]}.

(** The same order with quantity 0. *)
Definition empty_basket : Row := <[ "quantity" := VNum 0 ]> order_body.

Definition payment_body : Row :=
  {[ "amount" := VStr "50.00"; "currency" := VStr "EUR";
     "paymentMethod" := VStr "card" ]}.

Definition mint_body : Row :=
  {[ "contractAddress" := VStr "0xabc"; "recipientAddress" := VStr "0xdef";
     "tokenId" := VStr "7" ]}.

Definition one_order : State := (createOrder d1 order_body no_orders).2.

Definition first_order : Order :=
  mkOrder "11111111-aaaa" (VStr "u1") (VStr "tk1") (VNum 2) (VStr "50.00")
    (VStr "pending") [] 10 11.

End OrderSamples.

(** * Properties *)

(** Closes a decidable goal on concrete data by evaluation. *)
Ltac by_compute :=
  match goal with
  | |- ?P => apply (bool_decide_unpack P); vm_compute; exact I
  end.

Section TenantRepoFacts.
Import TenantRepo.

Implicit Types (st : Store) (r : Row) (rs : list Row).

Lemma col_is_true c s r : col_is c s r = true ↔ r !! c = Some (VStr s).
Proof. unfold col_is. apply bool_decide_eq_true. Qed.

Lemma of_tenant_and_id_true t i r :
  of_tenant_and_id t i r = true ↔
  r !! "tenant_id" = Some (VStr t) ∧ r !! "id" = Some (VStr i).
Proof.
  unfold of_tenant_and_id. rewrite andb_true_iff, !col_is_true. tauto.
Qed.

Lemma filter_nil_of_none {A} (f : A → bool) (l : list A) :
  (∀ x, x ∈ l → f x = false) → filter f l = [].
Proof.
  induction l as [|a l IH]; intros H; [done|].
  rewrite filter_cons. destruct (decide (f a)) as [Ha|Ha].
  - rewrite (H a) in Ha by left. done.
  - apply IH. intros x Hx. apply H. by right.
Qed.

(** With no row under the pair (tenantId, id), [findById] throws the
    not-found error and hands the store back as it was. *)
Lemma findById_absent st t i :
  (∀ r, r ∈ rows st →
     ¬ (r !! "tenant_id" = Some (VStr t) ∧ r !! "id" = Some (VStr i))) →
  findById t i st = (Throw (NotFound t), st).
Proof.
  intros H. unfold findById, bind.
  rewrite filter_nil_of_none; [done|].
  intros r Hr. apply not_true_is_false. rewrite of_tenant_and_id_true.
  by apply H.
Qed.

(** A key constraint: two stored rows with the same id are the same row. *)
Lemma pk_unique_inj rs r1 r2 :
  pk_unique rs → r1 ∈ rs → r2 ∈ rs → row_id r1 = row_id r2 → r1 = r2.
Proof.
  unfold pk_unique. induction rs as [|a rs IH]; intros Hnd H1 H2 Heq.
  - by apply elem_of_nil in H1.
  - rewrite fmap_cons in Hnd. apply NoDup_cons in Hnd as [Hnin Hnd].
    apply elem_of_cons in H1 as [->|H1]; apply elem_of_cons in H2 as [->|H2].
    + done.
    + exfalso. apply Hnin. rewrite Heq. by apply list_elem_of_fmap_2.
    + exfalso. apply Hnin. rewrite <- Heq. by apply list_elem_of_fmap_2.
    + by apply IH.
Qed.

(** Under the key constraint, a row that belongs to tenant [A] leaves no
    match for the pair (B, its id) when [B] is another tenant. *)
Lemma foreign_id_unmatched st A B i r :
  pk_unique (rows st) → A ≠ B → r ∈ rows st →
  r !! "tenant_id" = Some (VStr A) → r !! "id" = Some (VStr i) →
  ∀ r', r' ∈ rows st →
    ¬ (r' !! "tenant_id" = Some (VStr B) ∧ r' !! "id" = Some (VStr i)).
Proof.
  intros Hpk Hne Hr Ht Hi r' Hr' [Ht' Hi'].
  assert (r' = r) as ->.
  { apply (pk_unique_inj (rows st)); auto. unfold row_id. congruence. }
  congruence.
Qed.

Lemma findAll_page tenantId options st rs st' :
  findAll tenantId options st = (Ok rs, st') →
  st' = st ∧ ∀ r, r ∈ rs → r ∈ rows st ∧ r !! "tenant_id" = Some (VStr tenantId).
Proof.
  unfold findAll. intros H.
  destruct (negb _); [done|].
  destruct (_ <? 0); [done|]. destruct (_ <? 0); [done|].
  injection H as <- <-. split; [done|]. intros r Hr.
  apply subseteq_take, subseteq_drop, list_elem_of_filter in Hr as [Hp Hr].
  split; [done|]. apply col_is_true. by apply Is_true_true.
Qed.

(** C1. Tenant read isolation.  Tenants and record ids are UUID text in
    the server's spelling.  In a store that respects the primary key, a
    record that belongs to tenant [A] is never in a page that [findAll]
    returns for another tenant [B], and [findById] under [B] with the
    record's id throws the not-found error, leaving the store untouched:
    the very outcome it has for an id that no row carries. *)
Theorem read_isolation st (A B i : string) r :
  Uuid.uuid_text A → Uuid.uuid_text B → Uuid.uuid_text i →
  pk_unique (rows st) → A ≠ B → r ∈ rows st →
  r !! "tenant_id" = Some (VStr A) → r !! "id" = Some (VStr i) →
  (∀ options rs st', findAll B options st = (Ok rs, st') → r ∉ rs) ∧
  findById B i st = (Throw (NotFound B), st) ∧
  (∀ j, Uuid.uuid_text j →
        (∀ r', r' ∈ rows st → r' !! "id" ≠ Some (VStr j)) →
        findById B j st = findById B i st).
Proof.
  intros _ _ _ Hpk Hne Hr Ht Hi.
  assert (findById B i st = (Throw (NotFound B), st)) as Hfind.
  { apply findById_absent. by apply (foreign_id_unmatched st A B i r). }
  split; [|split; [exact Hfind|]].
  - intros options rs st' Hall Hin.
    apply findAll_page in Hall as [_ Hall].
    destruct (Hall r Hin) as [_ Ht']. congruence.
  - intros j _ Hj. rewrite Hfind. apply findById_absent.
    intros r' Hr' [_ Hid]. by apply (Hj r').
Qed.

(** C2. Read before write.  The tenant and the id are UUID text in the
    server's spelling.  When no row is stored under the pair (tenantId,
    id) -- the id is unknown, or its row belongs to another tenant --
    [update] and [delete] throw the not-found error and return the store
    exactly as they received it: table, audit log and console. *)
Theorem write_not_found_no_mutation env repo st (tenantId id : string)
    (data : Row) options :
  Uuid.uuid_text tenantId → Uuid.uuid_text id →
  (∀ r, r ∈ rows st →
     ¬ (r !! "tenant_id" = Some (VStr tenantId) ∧ r !! "id" = Some (VStr id))) →
  update env repo tenantId id data options st = (Throw (NotFound tenantId), st) ∧
  delete env repo tenantId id options st = (Throw (NotFound tenantId), st).
Proof.
  intros _ _ H. apply findById_absent in H.
  unfold update, delete, bind. by rewrite H.
Qed.

(** [logAudit] never throws and never touches the table. *)
Lemma logAudit_outcome env t uid action resource rid ch pv st :
  ∃ st', logAudit env t uid action resource rid ch pv st = (Ok tt, st') ∧
         rows st' = rows st ∧
         match audit_fault env with
         | Some reason =>
             audit_logs st' = audit_logs st ∧
             console st' = (console st ++ ["Error logging audit: " +:+ reason])%list
         | None =>
             console st' = console st ∧
             audit_logs st' = (audit_logs st ++
               [mkAuditLog t (str_or uid "system") action resource rid ch pv
                  (now env)])%list
         end.
Proof.
  unfold logAudit, try_catch, db_insert_audit, console_error.
  destruct (audit_fault env); eexists; (split; [reflexivity|]); done.
Qed.

Lemma audit_step env (b : bool) t uid action resource rid ch pv st :
  ∃ st', (if b then logAudit env t uid action resource rid ch pv else ret tt) st
           = (Ok tt, st') ∧ rows st' = rows st.
Proof.
  destruct b.
  - destruct (logAudit_outcome env t uid action resource rid ch pv st)
      as (st' & H & Hr & _). eauto.
  - by exists st.
Qed.

Lemma create_outcome env repo t (data : Row) options st :
  match db_insert env repo (dataWithTenant env t data) st with
  | (Ok record, s1) =>
      ∃ s2, create env repo t data options st = (Ok record, s2) ∧
            rows s2 = rows s1
  | (Throw e, s1) => create env repo t data options st = (Throw e, s1)
  end.
Proof.
  unfold create, bind. destruct (db_insert _ _ _ st) as [[record|e] s1]; [|done].
  destruct (audit_step env (wants_audit options) t (userId_of options)
              "CREATE" (tableName repo) (default VNull (row_id record))
              (Some data) None s1) as (s2 & -> & Hr).
  by exists s2.
Qed.

Lemma update_outcome env repo t i (data : Row) options st :
  match (existing <- findById t i ;;
         written <- db_update repo t i (dataWithTimestamp env data) ;;
         lift (Pg.one written)) st with
  | (Ok updated, s1) =>
      ∃ s2, update env repo t i data options st = (Ok updated, s2) ∧
            rows s2 = rows s1
  | (Throw e, s1) => update env repo t i data options st = (Throw e, s1)
  end.
Proof.
  unfold update, bind.
  destruct (findById t i st) as [[existing|e] s0]; [|done].
  destruct (db_update _ _ _ _ s0) as [[written|e] s1]; [|done].
  unfold lift. destruct (Pg.one written) as [updated|e]; [|done].
  destruct (audit_step env (wants_audit options) t (userId_of options)
              "UPDATE" (tableName repo) (VStr i) (Some data) (Some existing) s1)
    as (s2 & -> & Hr).
  by exists s2.
Qed.

Lemma delete_outcome env repo t i options st :
  match (findById t i ;;; db_delete t i) st with
  | (Ok rowCount, s1) =>
      ∃ s2, delete env repo t i options st = (Ok (rowCount =? 1), s2) ∧
            rows s2 = rows s1
  | (Throw e, s1) => delete env repo t i options st = (Throw e, s1)
  end.
Proof.
  unfold delete, bind.
  destruct (findById t i st) as [[existing|e] s0]; [|done].
  destruct (db_delete t i s0) as [[rowCount|e] s1]; [|done].
  destruct (audit_step env (wants_audit options) t (userId_of options)
              "DELETE" (tableName repo) (VStr i) None None s1)
    as (s2 & -> & Hr).
  by exists s2.
Qed.

(** C5. Audit logging is best effort.  [logAudit] returns normally
    whatever the server answers to the audit INSERT: a rejection is
    written to the console and dropped.  Hence [create], [update] and
    [delete] hand back the same result (the record, the row-count test,
    or the error of the business statement) and leave the same table
    whether the audit append succeeds or fails. *)
Theorem audit_failure_not_propagated env repo st (tenantId id : string)
    (data : Row) options (fault1 fault2 : option string) :
  let env1 := with_audit_fault fault1 env in
  let env2 := with_audit_fault fault2 env in
  (∀ uid action resource rid ch pv s reason,
     ∃ s', logAudit (with_audit_fault (Some reason) env) tenantId uid action
             resource rid ch pv s = (Ok tt, s') ∧
           rows s' = rows s ∧ audit_logs s' = audit_logs s ∧
           console s' = (console s ++ ["Error logging audit: " +:+ reason])%list) ∧
  ((create env1 repo tenantId data options st).1
     = (create env2 repo tenantId data options st).1 ∧
   rows (create env1 repo tenantId data options st).2
     = rows (create env2 repo tenantId data options st).2) ∧
  ((update env1 repo tenantId id data options st).1
     = (update env2 repo tenantId id data options st).1 ∧
   rows (update env1 repo tenantId id data options st).2
     = rows (update env2 repo tenantId id data options st).2) ∧
  ((delete env1 repo tenantId id options st).1
     = (delete env2 repo tenantId id options st).1 ∧
   rows (delete env1 repo tenantId id options st).2
     = rows (delete env2 repo tenantId id options st).2).
Proof.
  intros env1 env2. split; [|split; [|split]].
  - intros uid action resource rid ch pv s reason.
    destruct (logAudit_outcome (with_audit_fault (Some reason) env) tenantId
                uid action resource rid ch pv s) as (s' & H & Hr & Ha & Hc).
    exists s'. done.
  - pose proof (create_outcome env1 repo tenantId data options st) as H1.
    pose proof (create_outcome env2 repo tenantId data options st) as H2.
    change (db_insert env2 repo (dataWithTenant env2 tenantId data) st)
      with (db_insert env1 repo (dataWithTenant env1 tenantId data) st) in H2.
    destruct (db_insert env1 repo _ st) as [[record|e] s1].
    + destruct H1 as (s2 & -> & Hr1), H2 as (s3 & -> & Hr2). simpl.
      split; congruence.
    + by rewrite H1, H2.
  - pose proof (update_outcome env1 repo tenantId id data options st) as H1.
    pose proof (update_outcome env2 repo tenantId id data options st) as H2.
    change (dataWithTimestamp env2 data) with (dataWithTimestamp env1 data) in H2.
    destruct ((_ <- findById tenantId id ;; _) st) as [[updated|e] s1].
    + destruct H1 as (s2 & -> & Hr1), H2 as (s3 & -> & Hr2). simpl.
      split; congruence.
    + by rewrite H1, H2.
  - pose proof (delete_outcome env1 repo tenantId id options st) as H1.
    pose proof (delete_outcome env2 repo tenantId id options st) as H2.
    destruct ((findById tenantId id ;;; db_delete tenantId id) st)
      as [[rowCount|e] s1].
    + destruct H1 as (s2 & -> & Hr1), H2 as (s3 & -> & Hr2). simpl.
      split; congruence.
    + by rewrite H1, H2.
Qed.

Lemma dataWithTenant_tenant_id env t (data : Row) :
  dataWithTenant env t data !! "tenant_id" = Some (VStr t).
Proof.
  unfold dataWithTenant.
  rewrite lookup_insert_ne by done. rewrite lookup_insert_ne by done.
  apply lookup_insert_eq.
Qed.

Lemma db_insert_ok env repo (obj : Row) st row st' :
  db_insert env repo obj st = (Ok row, st') →
  row = inserted_row env repo obj ∧
  accepts repo (rows st) row = true ∧ pk_free (rows st) row = true ∧
  st' = set_rows (rows st ++ [row]) st.
Proof.
  unfold db_insert.
  destruct (accepts repo (rows st) _) eqn:Ha; simpl; [|done].
  destruct (pk_free (rows st) _) eqn:Hp; simpl; [|done].
  intros H. injection H as <- <-. done.
Qed.

Lemma db_insert_throw env repo (obj : Row) st e st' :
  db_insert env repo obj st = (Throw e, st') → st' = st.
Proof.
  unfold db_insert.
  destruct (accepts repo (rows st) _); simpl; [|congruence].
  destruct (pk_free (rows st) _); simpl; congruence.
Qed.

Lemma db_insert_accepted env repo (obj : Row) st :
  let row := inserted_row env repo obj in
  accepts repo (rows st) row = true → pk_free (rows st) row = true →
  db_insert env repo obj st = (Ok row, set_rows (rows st ++ [row]) st).
Proof. intros row Ha Hp. unfold db_insert. fold row. by rewrite Ha, Hp. Qed.

(** What [create] does for well-formed arguments: a tenant that is UUID
    text and data whose keys are column names.  The object handed to
    INSERT carries [tenant_id = tenantId] whatever [data] holds under that
    key; so a record that [create] returns has that tenant id and is the
    one row added to the table, a failed [create] adds no row, and
    [create] does return the record whenever the server accepts the row
    and its id is free. *)
Lemma create_binds_tenant_id env repo st (tenantId : string) (data : Row)
    options :
  Uuid.uuid_text tenantId → Sql.column_names data →
  dataWithTenant env tenantId data !! "tenant_id" = Some (VStr tenantId) ∧
  (∀ record st',
     create env repo tenantId data options st = (Ok record, st') →
     record !! "tenant_id" = Some (VStr tenantId) ∧
     rows st' = (rows st ++ [record])%list) ∧
  (∀ e st',
     create env repo tenantId data options st = (Throw e, st') →
     rows st' = rows st) ∧
  (let row := inserted_row env repo (dataWithTenant env tenantId data) in
   accepts repo (rows st) row = true → pk_free (rows st) row = true →
   ∃ st', create env repo tenantId data options st = (Ok row, st') ∧
          row !! "tenant_id" = Some (VStr tenantId)).
Proof.
  intros _ _.
  pose proof (dataWithTenant_tenant_id env tenantId data) as Ht.
  assert (inserted_row env repo (dataWithTenant env tenantId data)
            !! "tenant_id" = Some (VStr tenantId)) as Hrow.
  { unfold inserted_row. by apply lookup_union_Some_l. }
  pose proof (create_outcome env repo tenantId data options st) as Hc.
  split; [exact Ht|]. split; [|split].
  - intros record st' H.
    destruct (db_insert _ _ _ st) as [rec s1] eqn:Hi;
      destruct rec as [record'|e'].
    + destruct Hc as (s2 & Hc & Hr). rewrite Hc in H. injection H as -> ->.
      apply db_insert_ok in Hi as (-> & _ & _ & ->). by rewrite Hr.
    + congruence.
  - intros e st' H.
    destruct (db_insert _ _ _ st) as [rec s1] eqn:Hi;
      destruct rec as [record'|e'].
    + destruct Hc as (s2 & Hc & Hr). congruence.
    + rewrite Hc in H. injection H as -> ->. by apply db_insert_throw in Hi as ->.
  - intros row Ha Hp.
    rewrite (db_insert_accepted env repo _ st Ha Hp) in Hc.
    destruct Hc as (s2 & Hc & _). by exists s2.
Qed.

(** The modelled server keeps the primary key through the three mutating
    methods. *)
Lemma pk_unique_preserved env repo st :
  pk_unique (rows st) →
  (∀ t (data : Row) o, pk_unique (rows (create env repo t data o st).2)) ∧
  (∀ t i (data : Row) o, pk_unique (rows (update env repo t i data o st).2)) ∧
  (∀ t i o, pk_unique (rows (delete env repo t i o st).2)).
Proof.
  intros Hpk. split_and!.
  - intros t data o.
    pose proof (create_outcome env repo t data o st) as Hc.
    destruct (db_insert _ _ _ st) as [[record|e] s1] eqn:Hi.
    + destruct Hc as (s2 & -> & Hr). simpl. rewrite Hr.
      apply db_insert_ok in Hi as (_ & _ & Hfree & ->). simpl.
      unfold pk_unique. rewrite fmap_app. apply NoDup_app.
      split; [done|]. split; [|apply NoDup_singleton].
      intros x Hx ->%list_elem_of_singleton.
      unfold pk_free in Hfree. destruct (row_id record) as [[]|];
        try discriminate; by apply bool_decide_eq_true in Hfree.
    + rewrite Hc. simpl. by apply db_insert_throw in Hi as ->.
  - intros t i data o.
    pose proof (update_outcome env repo t i data o st) as Hu.
    assert (∀ res s1, (existing <- findById t i ;;
                     written <- db_update repo t i (dataWithTimestamp env data) ;;
                     lift (Pg.one written)) st = (res, s1) →
                    pk_unique (rows s1)) as Hstep.
    { intros res s1. unfold bind, findById, bind, throw, ret, lift, db_update.
      destruct (Pg.oneOrNone _) as [[existing|]|e]; simpl;
        try (intros [= <- <-]; exact Hpk).
      destruct (forallb _ _); simpl; [|intros [= <- <-]; exact Hpk].
      case_bool_decide as Hnd; simpl; [|intros [= <- <-]; exact Hpk].
      destruct (Pg.one _); intros [= <- <-]; exact Hnd. }
    destruct ((_ <- findById t i ;; _) st) as [[updated|e] s1] eqn:Hs.
    + destruct Hu as (s2 & -> & Hr). simpl. rewrite Hr. by eapply Hstep.
    + rewrite Hu. simpl. by eapply Hstep.
  - intros t i o.
    pose proof (delete_outcome env repo t i o st) as Hd.
    assert (∀ res s1, (findById t i ;;; db_delete t i) st = (res, s1) →
                    pk_unique (rows s1)) as Hstep.
    { intros res s1. unfold bind, findById, bind, throw, ret, db_delete.
      destruct (Pg.oneOrNone _) as [[existing|]|e]; simpl;
        try (intros [= <- <-]; exact Hpk).
      intros [= <- <-]. simpl. unfold pk_unique.
      eapply sublist_NoDup; [exact Hpk|].
      apply fmap_sublist, sublist_filter. }
    destruct ((findById t i ;;; db_delete t i) st) as [[n|e] s1] eqn:Hs.
    + destruct Hd as (s2 & -> & Hr). simpl. rewrite Hr. by eapply Hstep.
    + rewrite Hd. simpl. by eapply Hstep.
Qed.

Import Samples UuidSamples.

Lemma read_isolation_witness :
  Uuid.uuid_text tenant_a ∧ Uuid.uuid_text tenant_b ∧ Uuid.uuid_text id_x ∧
  pk_unique (rows store_a) ∧ tenant_a ≠ tenant_b ∧ record_x ∈ rows store_a ∧
  record_x !! "tenant_id" = Some (VStr tenant_a) ∧
  record_x !! "id" = Some (VStr id_x) ∧
  (∀ options rs st',
     findAll tenant_b options store_a = (Ok rs, st') → record_x ∉ rs) ∧
  findById tenant_b id_x store_a = (Throw (NotFound tenant_b), store_a).
Proof.
  assert (Uuid.uuid_text tenant_a) as Ua by (vm_compute; reflexivity).
  assert (Uuid.uuid_text tenant_b) as Ub by (vm_compute; reflexivity).
  assert (Uuid.uuid_text id_x) as Ux by (vm_compute; reflexivity).
  assert (pk_unique (rows store_a)) as H1 by by_compute.
  assert (tenant_a ≠ tenant_b) as H2 by by_compute.
  assert (record_x ∈ rows store_a) as H3 by by_compute.
  assert (record_x !! "tenant_id" = Some (VStr tenant_a)) as H4
    by (vm_compute; reflexivity).
  assert (record_x !! "id" = Some (VStr id_x)) as H5
    by (vm_compute; reflexivity).
  destruct (read_isolation store_a tenant_a tenant_b id_x record_x Ua Ub Ux
              H1 H2 H3 H4 H5) as (Hall & Hfind & _).
  repeat (split; [assumption|]). exact Hfind.
Defined.

Lemma write_not_found_no_mutation_witness :
  Uuid.uuid_text tenant_b ∧ Uuid.uuid_text id_x ∧
  (∀ r, r ∈ rows store_a →
     ¬ (r !! "tenant_id" = Some (VStr tenant_b) ∧
        r !! "id" = Some (VStr id_x))) ∧
  update env_y orders tenant_b id_x {["status" := VStr "completed"]} None store_a
    = (Throw (NotFound tenant_b), store_a) ∧
  delete env_y orders tenant_b id_x None store_a
    = (Throw (NotFound tenant_b), store_a).
Proof.
  assert (Uuid.uuid_text tenant_b) as Ub by (vm_compute; reflexivity).
  assert (Uuid.uuid_text id_x) as Ux by (vm_compute; reflexivity).
  assert (∀ r, r ∈ rows store_a →
            ¬ (r !! "tenant_id" = Some (VStr tenant_b) ∧
               r !! "id" = Some (VStr id_x))) as H.
  { apply Forall_forall. by_compute. }
  split; [exact Ub|]. split; [exact Ux|]. split; [exact H|].
  exact (write_not_found_no_mutation env_y orders store_a tenant_b id_x
           {["status" := VStr "completed"]} None Ub Ux H).
Defined.

Lemma create_binds_tenant_id_witness :
  Uuid.uuid_text tenant_b ∧ Sql.column_names forged_a ∧
  accepts orders (rows store_a)
    (inserted_row env_y orders (dataWithTenant env_y tenant_b forged_a)) = true ∧
  pk_free (rows store_a)
    (inserted_row env_y orders (dataWithTenant env_y tenant_b forged_a)) = true ∧
  forged_a !! "tenant_id" = Some (VStr tenant_a) ∧
  ∃ st', create env_y orders tenant_b forged_a None store_a
           = (Ok (inserted_row env_y orders
                    (dataWithTenant env_y tenant_b forged_a)), st') ∧
         inserted_row env_y orders (dataWithTenant env_y tenant_b forged_a)
           !! "tenant_id" = Some (VStr tenant_b).
Proof.
  assert (Uuid.uuid_text tenant_b) as Ub by (vm_compute; reflexivity).
  assert (Sql.column_names forged_a) as Hk by by_compute.
  assert (accepts orders (rows store_a)
            (inserted_row env_y orders (dataWithTenant env_y tenant_b forged_a))
          = true) as Ha by reflexivity.
  assert (pk_free (rows store_a)
            (inserted_row env_y orders (dataWithTenant env_y tenant_b forged_a))
          = true) as Hp by (vm_compute; reflexivity).
  split; [exact Ub|]. split; [exact Hk|].
  split; [exact Ha|]. split; [exact Hp|].
  split; [vm_compute; reflexivity|].
  exact (proj2 (proj2 (proj2
           (create_binds_tenant_id env_y orders store_a tenant_b forged_a None
              Ub Hk))) Ha Hp).
Defined.

End TenantRepoFacts.

Section TenantSvcFacts.
Import TenantSvc.

Implicit Types (db : Db) (q : TenantQuota).

Lemma getQuotas_pure t db r db' :
  getQuotas t db = (r, db') → db' = db.
Proof.
  unfold getQuotas, bind.
  destruct (Pg.one _) as [row|e]; intros H; by injection H.
Qed.

Lemma validateQuota_unfold t resource db q :
  getQuotas t db = (Ok q, db) →
  validateQuota t resource db =
    ((if decide (resource = "users") then
        check (usedUsers q) (maxUsers q) "User" t
      else if decide (resource = "orders") then
        check (usedOrders q) (maxOrders q) "Order" t
      else if decide (resource = "events") then
        check (usedEvents q) (maxEvents q) "Event" t
      else if decide (resource = "api_calls") then
        check (usedApiCalls q) (apiCallsPerDay q) "API calls" t
      else ret tt) ;;; ret true) db.
Proof. intros H. unfold validateQuota. unfold bind at 1. by rewrite H. Qed.

(** One arm of the switch, as a gate on a counter and its ceiling. *)
Lemma check_gate (used max : Z) label0 t db :
  ((∃ label, (check used max label0 t ;;; ret true) db
               = (Throw (QuotaExceeded label t), db)) ↔ max ≤ used) ∧
  ((check used max label0 t ;;; ret true) db = (Ok true, db) ↔ used < max).
Proof.
  unfold check, bind, throw, ret.
  destruct (used >=? max) eqn:E.
  - apply Z.geb_le in E. split; split; try done; try lia. eauto.
  - rewrite Z.geb_leb in E. apply Z.leb_gt in E.
    split; split; try done; try lia. by intros [label H].
Qed.

(** C4. The quota gate.  For a tenant whose quota row [getQuotas] reads,
    and for each of the resources users, orders, events and api_calls,
    [validateQuota] throws the quota-exceeded error if and only if the
    used counter of that resource is greater than or equal to its
    ceiling, and returns true if and only if it is below. *)
Theorem validateQuota_gate t db q :
  getQuotas t db = (Ok q, db) →
  gate t "users" db (usedUsers q) (maxUsers q) ∧
  gate t "orders" db (usedOrders q) (maxOrders q) ∧
  gate t "events" db (usedEvents q) (maxEvents q) ∧
  gate t "api_calls" db (usedApiCalls q) (apiCallsPerDay q).
Proof.
  intros H. unfold gate.
  rewrite !(validateQuota_unfold t _ db q H).
  split_and!; simpl; apply check_gate.
Qed.

Lemma filter_fresh_app {A} (f : A → bool) (l : list A) (x : A) :
  (∀ y, y ∈ l → f y = false) → f x = true → filter f (l ++ [x]) = [x].
Proof.
  intros Hl Hx. rewrite filter_app, (filter_nil_of_none f l Hl). simpl.
  rewrite filter_cons, Hx. done.
Qed.

Lemma not_elem_fmap_false {A} (g : A → string) (l : list A) (k : string) :
  k ∉ g <$> l → ∀ y, y ∈ l → bool_decide (g y = k) = false.
Proof.
  intros Hk y Hy. apply bool_decide_eq_false. intros <-.
  apply Hk. by apply list_elem_of_fmap_2.
Qed.

(** C6. Onboarding round trip.  When the server refuses none of the
    three INSERTs, with a fresh generated id, an unused slug, a supplied
    plan the table admits and field lengths within the column widths, in a
    database whose settings and quota rows all point at existing tenants,
    [createTenant] returns, and [getTenantInfo] on the returned id yields
    the name, slug and email of the input, the plan that was supplied, or
    free when none (or the empty text) was, status active, and the
    settings row with the default ceilings; [getQuotas] reads the default
    quota row. *)
Theorem createTenant_round_trip env (data : NewTenant) db :
  (∀ table, insert_fault env table = None) →
  fits 255 (nt_name data) = true →
  fits 100 (nt_slug data) = true →
  fits 255 (nt_email data) = true →
  (∀ p, nt_plan data = Some p → p ≠ EmptyString → p ∈ valid_plans) →
  gen_uuid env ∉ t_id <$> tenants db →
  nt_slug data ∉ t_slug <$> tenants db →
  (∀ r, r ∈ tenant_settings db → s_tenant_id r ∈ t_id <$> tenants db) →
  (∀ r, r ∈ tenant_quotas db → q_tenant_id r ∈ t_id <$> tenants db) →
  ∃ created db' info,
    createTenant env data db = (Ok created, db') ∧
    id created = gen_uuid env ∧
    getTenantInfo (id created) db' = (Ok info, db') ∧
    id info = id created ∧
    name info = nt_name data ∧
    slug info = nt_slug data ∧
    email info = nt_email data ∧
    (∀ p, nt_plan data = Some p → p ≠ EmptyString → plan info = p) ∧
    (nt_plan data = None ∨ nt_plan data = Some EmptyString →
     plan info = "free") ∧
    status info = "active" ∧
    settings info =
      Some (mkTenantSettings 10 1000 100 (Some []) None None "us" false) ∧
    getQuotas (id created) db' =
      (Ok (mkTenantQuota (id created) 10 0 1000 0 100 0 1000 0 10000 0
             (now env + one_day)), db').
Proof.
  intros Hok Hn Hs He Hplan Hid Hslug Hfk1 Hfk2.
  assert (str_or (nt_plan data) "free" ∈ valid_plans) as Hp.
  { unfold str_or. destruct (nt_plan data) as [p|]; [|by_compute].
    destruct (decide (p = EmptyString)); [by_compute | by apply Hplan]. }
  set (row := mkTenantRow (gen_uuid env) (nt_name data) (nt_slug data)
                (nt_email data) (str_or (nt_plan data) "free") "active"
                (now env) (now env) None).
  set (srow := mkSettingsRow (gen_uuid env) 10 1000 100 [] None None "us" false).
  set (qrow := mkQuotaRow (gen_uuid env) 10 0 1000 0 100 0 1000 0 10000 0
                 (now env + one_day) (now env)).
  set (db' := mkDb (tenants db ++ [row]) (tenant_settings db ++ [srow])
                (tenant_quotas db ++ [qrow])).
  assert (gen_uuid env ∉ s_tenant_id <$> tenant_settings db) as Hs1.
  { intros (r & Hr & Hin)%list_elem_of_fmap. apply Hid. rewrite Hr. auto. }
  assert (gen_uuid env ∉ q_tenant_id <$> tenant_quotas db) as Hq1.
  { intros (r & Hr & Hin)%list_elem_of_fmap. apply Hid. rewrite Hr. auto. }
  assert (createTenant env data db =
            (Ok (mkTenantInfo (gen_uuid env) (nt_name data) (nt_slug data)
                   (nt_email data) (str_or (nt_plan data) "free") "active"
                   (now env) (now env) None), db')) as Hcreate.
  { unfold createTenant, db_insert_tenant, db_insert_settings,
      db_insert_quotas, refused, bind. rewrite !Hok. unfold ret.
    rewrite Hn, Hs, He. simpl.
    rewrite (bool_decide_eq_true_2 _ Hp). simpl.
    unfold has_tenant at 1. rewrite (bool_decide_eq_false_2 _ Hid).
    rewrite (bool_decide_eq_false_2 _ Hslug).
    unfold has_tenant. simpl.
    rewrite bool_decide_eq_true_2
      by (rewrite fmap_app; apply elem_of_app; right; by left).
    rewrite (bool_decide_eq_false_2 _ Hs1). simpl.
    rewrite bool_decide_eq_true_2
      by (rewrite fmap_app; apply elem_of_app; right; by left).
    rewrite (bool_decide_eq_false_2 _ Hq1). done. }
  assert (filter (live_tenant (gen_uuid env)) (tenants db') = [row]) as Ht.
  { apply filter_fresh_app.
    - intros y Hy. unfold live_tenant.
      by rewrite (not_elem_fmap_false t_id (tenants db) _ Hid y Hy).
    - unfold live_tenant. simpl. by rewrite !bool_decide_eq_true_2. }
  assert (filter (settings_of (gen_uuid env)) (tenant_settings db') = [srow])
    as Hset.
  { apply filter_fresh_app.
    - apply not_elem_fmap_false, Hs1.
    - unfold settings_of. by rewrite bool_decide_eq_true_2. }
  assert (filter (quota_of (gen_uuid env)) (tenant_quotas db') = [qrow])
    as Hquo.
  { apply filter_fresh_app.
    - apply not_elem_fmap_false, Hq1.
    - unfold quota_of. by rewrite bool_decide_eq_true_2. }
  eexists _, db', _. split; [exact Hcreate|]. simpl.
  split; [done|].
  split.
  { unfold getTenantInfo, getTenantSettings, bind. rewrite Ht.
    cbn [Pg.oneOrNone]. rewrite Hset. reflexivity. }
  simpl. split_and!; try done.
  - intros p -> Hne. unfold str_or. by rewrite decide_False.
  - by intros [-> | ->].
  - unfold getQuotas, bind. rewrite Hquo. done.
Qed.

(** Every column write keeps the row's tenant and reset date. *)
Lemma quota_column_frame col get set :
  quota_column col = Some (get, set) →
  ∀ v row, q_reset_date (set v row) = q_reset_date row ∧
           q_tenant_id (set v row) = q_tenant_id row.
Proof.
  unfold quota_column. intros Hcol v row.
  destruct (assoc col int_columns); [|discriminate].
  by injection Hcol as <- <-.
Qed.


Lemma assoc_None {V} (key : string) (l : list (string * V)) :
  key ∉ l.*1 → assoc key l = None.
Proof.
  induction l as [|[k v] l IH]; [done|]. simpl. intros H.
  apply not_elem_of_cons in H as [Hne Hl].
  destruct (decide (k = key)); [congruence|]. by apply IH.
Qed.

Lemma unknown_resource_field resource :
  resource ∉ fields.*1 → resource ∉ Object_prototype.*1 →
  getQuotaFieldForResource resource = JsString "used_orders".
Proof.
  intros H1 H2. unfold getQuotaFieldForResource, get_property.
  by rewrite (assoc_None _ _ H1), (assoc_None _ _ H2).
Qed.


(** C9, on the code.  [fields[resource] || 'used_orders'] reads the
    property through the prototype chain.  For a name that every object
    inherits, which is none of the five recognised resources, the lookup
    yields the inherited function or object; that is truthy, so the
    default is not taken.  Its text is spliced where the column goes, the
    server refuses the statement, and [incrementQuota] throws and leaves
    the database as it was, whatever the tenant and the amount: nothing
    is added to used_orders. *)
Theorem inherited_name_misses_default env t resource amount db :
  resource ∈ Object_prototype.*1 →
  (resource ∉ ["users"; "orders"; "events"; "api_calls"; "storage"]) ∧
  getQuotaFieldForResource resource ≠ JsString "used_orders" ∧
  incrementQuota env t resource amount db
    = (Throw (DbError "syntax error in UPDATE statement"), db).
Proof.
  intros Hin. cbn in Hin.
  repeat (apply elem_of_cons in Hin as [-> | Hin]);
    try (split_and!; [by_compute | discriminate | reflexivity]).
  by apply elem_of_nil in Hin.
Qed.

(** Every other unrecognised name does take the default.  A resource
    name that is neither a key of the field table nor a property every
    object inherits is mapped to the used_orders column; when each
    resulting sum fits an INTEGER, [incrementQuota] returns normally and
    adds the amount (1 if omitted) to used_orders of the tenant's quota
    rows, stamping them with the current time and changing nothing
    else. *)
Lemma unknown_resource_counts_as_orders env t resource amount db :
  resource ∉ ["users"; "orders"; "events"; "api_calls"; "storage"] →
  resource ∉ Object_prototype.*1 →
  (∀ row, row ∈ tenant_quotas db → q_tenant_id row = t →
          in_int4 (q_used_orders row + default 1 amount) = true) →
  getQuotaFieldForResource resource = JsString "used_orders" ∧
  incrementQuota env t resource amount db =
    (Ok tt,
     mkDb (tenants db) (tenant_settings db)
       ((λ row,
           if quota_of t row then
             mkQuotaRow (q_tenant_id row) (q_max_users row) (q_used_users row)
               (q_max_orders row) (q_used_orders row + default 1 amount)
               (q_max_events row) (q_used_events row)
               (q_storage_quota_mb row) (q_used_storage_mb row)
               (q_api_calls_per_day row) (q_used_api_calls row)
               (q_reset_date row) (now env)
           else row) <$> tenant_quotas db)).
Proof.
  intros H1 H2 Hsum.
  pose proof (unknown_resource_field resource H1 H2) as Hfield.
  split; [exact Hfield|].
  unfold incrementQuota. rewrite Hfield. unfold db_add_to_quota. simpl.
  replace (forallb _ _) with true; [done|].
  symmetry. apply forallb_forall. intros row Hrow.
  apply list_elem_of_In, list_elem_of_filter in Hrow as [Hq Hrow].
  apply Hsum; [done|]. unfold quota_of in Hq. by apply bool_decide_unpack in Hq.
Qed.

Import Samples UuidSamples.

Lemma validateQuota_gate_witness :
  getQuotas "T1" (quota_db 999 0 0)
    = (Ok (quota_view 999 0 0), quota_db 999 0 0) ∧
  getQuotas "T1" (quota_db 1000 0 0)
    = (Ok (quota_view 1000 0 0), quota_db 1000 0 0) ∧
  validateQuota "T1" "orders" (quota_db 999 0 0)
    = (Ok true, quota_db 999 0 0) ∧
  ∃ label, validateQuota "T1" "orders" (quota_db 1000 0 0)
             = (Throw (QuotaExceeded label "T1"), quota_db 1000 0 0).
Proof.
  assert (getQuotas "T1" (quota_db 999 0 0)
          = (Ok (quota_view 999 0 0), quota_db 999 0 0)) as H1 by reflexivity.
  assert (getQuotas "T1" (quota_db 1000 0 0)
          = (Ok (quota_view 1000 0 0), quota_db 1000 0 0)) as H2 by reflexivity.
  split; [exact H1|]. split; [exact H2|]. split.
  - destruct (validateQuota_gate "T1" (quota_db 999 0 0) _ H1)
      as (_ & [_ Hok] & _).
    apply Hok. simpl. lia.
  - destruct (validateQuota_gate "T1" (quota_db 1000 0 0) _ H2)
      as (_ & [Hfail _] & _).
    apply Hfail. simpl. lia.
Defined.

Lemma createTenant_round_trip_witness :
  (∀ table, insert_fault svc_env_a table = None) ∧
  (tenant_a ∉ t_id <$> tenants empty_db) ∧
  ("acme" ∉ t_slug <$> tenants empty_db) ∧
  nt_plan pro_tenant = Some "pro" ∧ nt_plan new_tenant = None ∧
  (∃ created db' info,
     createTenant svc_env_a pro_tenant empty_db = (Ok created, db') ∧
     getTenantInfo (id created) db' = (Ok info, db') ∧
     name info = "Acme" ∧ slug info = "acme" ∧ email info = "ops@acme.test" ∧
     plan info = "pro" ∧ status info = "active") ∧
  (∃ created db' info,
     createTenant svc_env_a new_tenant empty_db = (Ok created, db') ∧
     getTenantInfo (id created) db' = (Ok info, db') ∧
     plan info = "free").
Proof.
  assert (∀ table, insert_fault svc_env_a table = None) as Hok
    by (intros table; reflexivity).
  assert (tenant_a ∉ t_id <$> tenants empty_db) as Hid by by_compute.
  assert ("acme" ∉ t_slug <$> tenants empty_db) as Hslug by by_compute.
  assert (∀ p, nt_plan pro_tenant = Some p → p ≠ EmptyString →
               p ∈ valid_plans) as Hplan.
  { intros p Hp _. injection Hp as <-. by_compute. }
  assert (∀ p, nt_plan new_tenant = Some p → p ≠ EmptyString →
               p ∈ valid_plans) as Hnone.
  { intros p Hp. discriminate Hp. }
  assert (∀ r, r ∈ tenant_settings empty_db →
               s_tenant_id r ∈ t_id <$> tenants empty_db) as Hfk1
    by (apply Forall_forall; by_compute).
  assert (∀ r, r ∈ tenant_quotas empty_db →
               q_tenant_id r ∈ t_id <$> tenants empty_db) as Hfk2
    by (apply Forall_forall; by_compute).
  split; [exact Hok|]. split; [exact Hid|]. split; [exact Hslug|].
  split; [reflexivity|]. split; [reflexivity|]. split.
  - destruct (createTenant_round_trip svc_env_a pro_tenant empty_db
                Hok eq_refl eq_refl eq_refl Hplan Hid Hslug Hfk1 Hfk2)
      as (created & db' & info & Hc & _ & Hg & _ & Hn & Hs & He & Hp & _
          & Hst & _).
    exists created, db', info. repeat (split; [assumption|]).
    split; [|exact Hst]. apply Hp; [reflexivity | discriminate].
  - destruct (createTenant_round_trip svc_env_a new_tenant empty_db
                Hok eq_refl eq_refl eq_refl Hnone Hid Hslug Hfk1 Hfk2)
      as (created & db' & info & Hc & _ & Hg & _ & _ & _ & _ & _ & Hp & _).
    exists created, db', info. repeat (split; [assumption|]).
    apply Hp. by left.
Defined.



(** "constructor" is not a recognised resource, yet the lookup finds the
    inherited [Object] function: the statement is malformed, the call
    throws, and the 7 orders counted for the tenant stay 7. *)
Lemma inherited_name_misses_default_witness :
  "constructor" ∈ Object_prototype.*1 ∧
  ("constructor" ∉ ["users"; "orders"; "events"; "api_calls"; "storage"]) ∧
  getQuotaFieldForResource "constructor" = JsNativeFunction "Object" ∧
  incrementQuota svc_env_a tenant_a "constructor" (Some 1) quota_db_a
    = (Throw (DbError "syntax error in UPDATE statement"), quota_db_a) ∧
  q_used_orders <$>
    tenant_quotas
      (incrementQuota svc_env_a tenant_a "constructor" (Some 1) quota_db_a).2
    = [7].
Proof.
  assert ("constructor" ∈ Object_prototype.*1) as H by by_compute.
  destruct (inherited_name_misses_default svc_env_a tenant_a "constructor"
              (Some 1) quota_db_a H) as (Hnot & _ & Hrun).
  split; [exact H|]. split; [exact Hnot|]. split; [reflexivity|].
  split; [exact Hrun|]. rewrite Hrun. reflexivity.
Defined.

Lemma unknown_resource_counts_as_orders_witness :
  ("bogus" ∉ ["users"; "orders"; "events"; "api_calls"; "storage"]) ∧
  ("bogus" ∉ Object_prototype.*1) ∧
  incrementQuota svc_env "T1" "bogus" (Some 5) (quota_db 1 0 0)
    = (Ok tt,
       mkDb [] []
         [mkQuotaRow "T1" 10 0 1000 6 100 0 1000 0 10000 0 0 1700000000000]).
Proof.
  assert ("bogus" ∉ ["users"; "orders"; "events"; "api_calls"; "storage"])
    as H1 by by_compute.
  assert ("bogus" ∉ Object_prototype.*1) as H2 by by_compute.
  assert (∀ row, row ∈ tenant_quotas (quota_db 1 0 0) → q_tenant_id row = "T1" →
                 in_int4 (q_used_orders row + default 1 (Some 5)) = true) as H3.
  { intros row Hrow _. simpl in Hrow.
    apply list_elem_of_singleton in Hrow as ->. reflexivity. }
  split; [exact H1|]. split; [exact H2|].
  exact (proj2 (unknown_resource_counts_as_orders svc_env "T1" "bogus"
                  (Some 5) (quota_db 1 0 0) H1 H2 H3)).
Defined.

End TenantSvcFacts.

Section TenantExtractorFacts.
Import TenantExtractor.

Lemma substring_all (s : string) : String.substring 0 (String.length s) s = s.
Proof. induction s as [|c s IH]; simpl; [done|]. by rewrite IH. Qed.

(** [startsWith('Bearer ')] and [substring(7)] on a bearer header. *)
Lemma bearer_token (token : string) :
  String.prefix "Bearer " ("Bearer " +:+ token) = true ∧
  String.substring 7 (String.length ("Bearer " +:+ token) - 7)
    ("Bearer " +:+ token) = token.
Proof.
  split.
  - simpl. by destruct token.
  - simpl. rewrite Nat.sub_0_r. apply substring_all.
Qed.

(** The package throws [TokenExpiredError] for a well-formed token with a
    good signature whose expiry has been reached. *)
Lemma verify_expired decode clock token secret jwt e :
  secret ≠ EmptyString → decode token = Some jwt → signed_with jwt = secret →
  (∀ n, nbf (claims jwt) = Some n → n ≤ clock) →
  exp (claims jwt) = Some e → e ≤ clock →
  verify decode clock token secret = inl (TokenExpiredError, "jwt expired").
Proof.
  intros Hs Hd Hk Hnbf Hexp He. unfold verify.
  rewrite (bool_decide_eq_false_2 _ Hs), Hd, (bool_decide_eq_true_2 _ Hk).
  simpl. rewrite Hexp.
  destruct (nbf (claims jwt)) as [n|] eqn:Hn.
  - specialize (Hnbf n eq_refl).
    replace (clock <? n) with false by (symmetry; apply Z.ltb_ge; lia).
    by replace (e <=? clock) with true by (symmetry; apply Z.leb_le; lia).
  - by replace (e <=? clock) with true by (symmetry; apply Z.leb_le; lia).
Qed.

(** The catch block never reaches its TOKEN_EXPIRED arm: whatever passes
    the first [instanceof] test as false is not a [TokenExpiredError]. *)
Lemma on_error_never_expired c msg status message :
  on_error c msg ≠ Json status "TOKEN_EXPIRED" message.
Proof. by destruct c. Qed.

(** C3, on the code.  A correctly signed credential whose expiry has been
    reached is answered with 401 and the code INVALID_TOKEN, the same
    answer as for a bad signature; no request at all is answered with
    the code TOKEN_EXPIRED. *)
Theorem expired_credential_reported_as_invalid decode clock secret token
    jwt e :
  secret ≠ EmptyString → decode token = Some jwt → signed_with jwt = secret →
  (∀ n, nbf (claims jwt) = Some n → n ≤ clock) →
  exp (claims jwt) = Some e → e ≤ clock →
  tenantExtractorMiddleware decode clock secret (Some ("Bearer " +:+ token))
    = Json 401 "INVALID_TOKEN" "Token verification failed" ∧
  (∀ authorization status message,
     tenantExtractorMiddleware decode clock secret authorization
       ≠ Json status "TOKEN_EXPIRED" message).
Proof.
  intros Hs Hd Hk Hnbf Hexp He. split.
  - unfold tenantExtractorMiddleware.
    destruct (bearer_token token) as [-> ->]. simpl.
    by rewrite (verify_expired decode clock token secret jwt e).
  - intros authorization status message.
    unfold tenantExtractorMiddleware.
    destruct authorization as [authHeader|]; [|done].
    destruct (String.prefix _ _); simpl; [|done].
    destruct (verify _ _ _ _) as [[c msg]|decoded].
    + apply on_error_never_expired.
    + by destruct (bool_decide _).
Qed.

Import Samples.

Lemma expired_credential_reported_as_invalid_witness :
  sample_decode "k1.2000" = Some expired_jwt ∧
  exp (claims expired_jwt) = Some 2000 ∧ 2000 ≤ 3000 ∧
  tenantExtractorMiddleware sample_decode 3000 "k1" (Some "Bearer k1.2000")
    = Json 401 "INVALID_TOKEN" "Token verification failed".
Proof.
  assert ("k1" ≠ EmptyString) as H1 by discriminate.
  assert (sample_decode "k1.2000" = Some expired_jwt) as H2 by reflexivity.
  assert (∀ n, nbf (claims expired_jwt) = Some n → n ≤ 3000) as H3
    by (intros n Hn; discriminate Hn).
  assert (2000 ≤ 3000) as H4 by lia.
  split; [exact H2|]. split; [reflexivity|]. split; [exact H4|].
  exact (proj1 (expired_credential_reported_as_invalid sample_decode 3000
                  "k1" "k1.2000" expired_jwt 2000 H1 H2 eq_refl H3 eq_refl H4)).
Defined.

End TenantExtractorFacts.

Section BaseRepoFacts.
Import BaseRepo.
Context {T : Type}.

(** C8, on the code.  In memory mode [find] returns the whole store
    whatever the WHERE clause says, while the relational branch returns
    the rows the clause selects: as soon as one stored record fails the
    filter, the two backends answer the same call differently. *)
Theorem memory_find_ignores_where
    (where_sem : string → list Value → option (T → bool))
    (l : list T) whereClause values (p : T → bool) (r : T) :
  where_sem whereClause (default [] values) = Some p →
  r ∈ l → p r = false →
  (find where_sem whereClause values (mkState true l [])).1 = Ok l ∧
  (find where_sem whereClause values (mkState false [] l)).1
    = Ok (filter p l) ∧
  (r ∉ filter p l) ∧
  (find where_sem whereClause values (mkState true l [])).1
    ≠ (find where_sem whereClause values (mkState false [] l)).1.
Proof.
  intros Hw Hr Hp. unfold find. simpl. rewrite Hw. simpl.
  assert (r ∉ filter p l) as Hnot.
  { intros [Hpr _]%list_elem_of_filter. by rewrite Hp in Hpr. }
  split_and!; try done.
  intros [= Heq]. apply Hnot. by rewrite <- Heq.
Qed.

End BaseRepoFacts.

Section BaseRepoSamples.
Import BaseRepo Samples.

Lemma memory_find_ignores_where_witness :
  mkOrder "o2" "u1" "completed" ∈ two_orders ∧
  is_pending (mkOrder "o2" "u1" "completed") = false ∧
  (find sample_where "status = $1" (Some [VStr "pending"])
     (mkState true two_orders [])).1 = Ok two_orders ∧
  (find sample_where "status = $1" (Some [VStr "pending"])
     (mkState false [] two_orders)).1 = Ok [mkOrder "o1" "u1" "pending"].
Proof.
  assert (mkOrder "o2" "u1" "completed" ∈ two_orders) as H1
    by (apply list_elem_of_further, list_elem_of_here).
  assert (is_pending (mkOrder "o2" "u1" "completed") = false) as H2
    by reflexivity.
  destruct (memory_find_ignores_where sample_where two_orders "status = $1"
              (Some [VStr "pending"]) is_pending
              (mkOrder "o2" "u1" "completed") eq_refl H1 H2)
    as (Hm & Hp & _).
  split; [exact H1|]. split; [exact H2|]. split; [exact Hm|]. exact Hp.
Defined.

End BaseRepoSamples.


(** * Further properties of the tenant repository *)

Section TenantRepoMore.
Import TenantRepo.

Implicit Types (st : Store) (r : Row) (rs : list Row).


(** Under the key constraint, the pair (tenant, id) selects the one row
    that carries it. *)
Lemma filter_hit_unique rs r t i :
  pk_unique rs → r ∈ rs →
  r !! "tenant_id" = Some (VStr t) → r !! "id" = Some (VStr i) →
  filter (of_tenant_and_id t i) rs = [r].
Proof.
  intros Hpk Hr Ht Hi.
  assert (∀ r', r' ∈ rs → of_tenant_and_id t i r' = true → r' = r) as Huniq.
  { intros r' Hr' [_ Hi']%of_tenant_and_id_true.
    apply (pk_unique_inj rs); auto. unfold row_id. congruence. }
  assert (of_tenant_and_id t i r = true) as Hhit
    by by apply of_tenant_and_id_true.
  clear Ht Hi. unfold pk_unique in Hpk.
  induction rs as [|a rs IH]; [by apply elem_of_nil in Hr|].
  rewrite fmap_cons in Hpk. apply NoDup_cons in Hpk as [Hnin Hnd].
  rewrite filter_cons. apply elem_of_cons in Hr as [<-|Hr].
  - rewrite Hhit. simpl. f_equal. apply filter_nil_of_none.
    intros x Hx. apply not_true_is_false. intros Hxhit.
    assert (x = r) as -> by (apply Huniq; [by right|done]).
    apply Hnin. by apply list_elem_of_fmap_2.
  - destruct (decide (of_tenant_and_id t i a)) as [Ha|Ha].
    + apply Is_true_true in Ha.
      assert (a = r) as -> by (apply Huniq; [by left|done]).
      exfalso. apply Hnin. by apply list_elem_of_fmap_2.
    + apply IH; auto. intros r' Hr'. apply Huniq. by right.
Qed.

Lemma filter_ext_in {A} (P Q : A → Prop) `{!∀ x, Decision (P x)}
    `{!∀ x, Decision (Q x)} (l : list A) :
  (∀ x, x ∈ l → P x ↔ Q x) → filter P l = filter Q l.
Proof.
  induction l as [|a l IH]; intros Hext; [done|].
  rewrite !filter_cons.
  assert (filter P l = filter Q l) as ->
    by (apply IH; intros x Hx; apply Hext; by right).
  pose proof (Hext a (list_elem_of_here _ _)) as Ha.
  destruct (decide (P a)), (decide (Q a)); tauto.
Qed.

Lemma findById_found st r t i :
  pk_unique (rows st) → r ∈ rows st →
  r !! "tenant_id" = Some (VStr t) → r !! "id" = Some (VStr i) →
  findById t i st = (Ok r, st).
Proof.
  intros Hpk Hr Ht Hi. unfold findById, bind.
  by rewrite (filter_hit_unique (rows st) r t i).
Qed.


(** X2. Delete removes the record.  When the record with id [i] belongs to
    tenant [t] in a store that respects the primary key, [delete] returns
    true, the table afterwards holds exactly the other rows, in their
    order, and a second look-up of the id throws the not-found error. *)
Theorem delete_removes_record env repo st (t i : string) options r :
  pk_unique (rows st) → r ∈ rows st →
  r !! "tenant_id" = Some (VStr t) → r !! "id" = Some (VStr i) →
  ∃ st', delete env repo t i options st = (Ok true, st') ∧
         rows st' = filter (λ r', r' ≠ r) (rows st) ∧
         findById t i st' = (Throw (NotFound t), st') ∧
         (delete env repo t i options st').1 = Throw (NotFound t).
Proof.
  intros Hpk Hr Ht Hi.
  pose proof (delete_outcome env repo t i options st) as Hd.
  unfold bind in Hd. rewrite (findById_found st r t i Hpk Hr Ht Hi) in Hd.
  unfold db_delete in Hd.
  rewrite (filter_hit_unique (rows st) r t i Hpk Hr Ht Hi) in Hd.
  destruct Hd as (st' & Hdel & Hrows). simpl in Hdel, Hrows.
  assert (rows st' = filter (λ r', r' ≠ r) (rows st)) as Hrows'.
  { rewrite Hrows. apply filter_ext_in. intros r' Hr'. split.
    - intros Hn ->. apply Is_true_true in Hn. apply negb_true_iff in Hn.
      rewrite (proj2 (of_tenant_and_id_true t i r)) in Hn; done.
    - intros Hne. apply Is_true_true, negb_true_iff, not_true_is_false.
      intros Hhit. apply of_tenant_and_id_true in Hhit as [Ht' Hi'].
      apply Hne. apply (pk_unique_inj (rows st)); auto.
      unfold row_id. congruence. }
  exists st'. split; [exact Hdel|]. split; [exact Hrows'|].
  assert (findById t i st' = (Throw (NotFound t), st')) as Hnf.
  { apply findById_absent. intros r' Hr' [Ht' Hi'].
    rewrite Hrows' in Hr'. apply list_elem_of_filter in Hr' as [Hne Hr'].
    apply Hne. apply (pk_unique_inj (rows st)); auto.
    unfold row_id. congruence. }
  split; [exact Hnf|].
  unfold delete, bind. by rewrite Hnf.
Qed.




Lemma foreign_view_kept env repo st (A B i : string) (data : Row) options :
  A ≠ B →
  filter (of_tenant B) (rows (create env repo A data options st).2)
    = filter (of_tenant B) (rows st) ∧
  filter (of_tenant B) (rows (delete env repo A i options st).2)
    = filter (of_tenant B) (rows st) ∧
  (data !! "tenant_id" ≠ Some (VStr B) →
   filter (of_tenant B) (rows (update env repo A i data options st).2)
     = filter (of_tenant B) (rows st)).
Proof.
  intros Hne. split_and!.
  - pose proof (create_outcome env repo A data options st) as Hc.
    destruct (db_insert _ _ _ st) as [[record|e] s1] eqn:Hin.
    + destruct Hc as (s2 & -> & Hr). simpl. rewrite Hr.
      apply db_insert_ok in Hin as (-> & _ & _ & ->). simpl.
      rewrite filter_app, filter_cons, decide_False, filter_nil, app_nil_r;
        [done|].
      intros Hb%Is_true_true%col_is_true. unfold inserted_row in Hb.
      rewrite (lookup_union_Some_l _ _ _ _ (dataWithTenant_tenant_id env A data))
        in Hb. congruence.
    + rewrite Hc. simpl. by apply db_insert_throw in Hin as ->.
  - pose proof (delete_outcome env repo A i options st) as Hd.
    assert (∀ res s1, (findById A i ;;; db_delete A i) st = (res, s1) →
              filter (of_tenant B) (rows s1) = filter (of_tenant B) (rows st))
      as Hstep.
    { intros res s1. unfold bind, findById, bind, throw, ret, db_delete.
      destruct (Pg.oneOrNone _) as [[existing|]|e]; simpl;
        try (intros [= <- <-]; done).
      intros [= <- <-]. simpl. rewrite list_filter_filter.
      apply list_filter_iff. intros r'. split; [tauto|]. intros Hb.
      split; [done|]. apply Is_true_true, negb_true_iff, not_true_is_false.
      intros [Ha _]%of_tenant_and_id_true.
      apply Is_true_true, col_is_true in Hb. congruence. }
    destruct ((findById A i ;;; db_delete A i) st) as [[n|e] s1] eqn:Hs.
    + destruct Hd as (s2 & -> & Hr). simpl. rewrite Hr. by eapply Hstep.
    + rewrite Hd. simpl. by eapply Hstep.
  - intros Hdata.
    pose proof (update_outcome env repo A i data options st) as Hu.
    assert (∀ res s1, (existing <- findById A i ;;
                       written <- db_update repo A i (dataWithTimestamp env data) ;;
                       lift (Pg.one written)) st = (res, s1) →
              filter (of_tenant B) (rows s1) = filter (of_tenant B) (rows st))
      as Hstep.
    { intros res s1. unfold bind, findById, bind, throw, ret, lift, db_update.
      destruct (Pg.oneOrNone _) as [[existing|]|e]; simpl;
        try (intros [= <- <-]; done).
      destruct (forallb _ _); simpl; [|intros [= <- <-]; done].
      case_bool_decide as Hnd; simpl; [|intros [= <- <-]; done].
      intros Heq.
      assert (rows s1 = (λ r', if of_tenant_and_id A i r'
                               then dataWithTimestamp env data ∪ r' else r')
                          <$> rows st) as ->
        by (destruct (Pg.one _); by injection Heq as <- <-).
      clear -Hne Hdata. induction (rows st) as [|a l IH]; [done|].
      rewrite fmap_cons, !filter_cons, IH.
      destruct (of_tenant_and_id A i a) eqn:Hhit; [|done].
      apply of_tenant_and_id_true in Hhit as [Ha _].
      rewrite !decide_False; [done| |].
      - intros Hb%Is_true_true%col_is_true. congruence.
      - intros Hb%Is_true_true%col_is_true. apply Hdata.
        unfold dataWithTimestamp in Hb.
        destruct (data !! "tenant_id") as [v|] eqn:Hd.
        + rewrite (lookup_union_Some_l _ _ _ v) in Hb; [done|].
          by rewrite lookup_insert_ne.
        + rewrite lookup_union_r in Hb by (by rewrite lookup_insert_ne).
          congruence. }
    destruct ((_ <- findById A i ;; _) st) as [[updated|e] s1] eqn:Hs.
    + destruct Hu as (s2 & -> & Hr). simpl. rewrite Hr. by eapply Hstep.
    + rewrite Hu. simpl. by eapply Hstep.
Qed.

(** X5. Writes of one tenant leave the other tenants' rows alone.  For
    tenants that are UUID text in the server's spelling and data whose
    keys are column names, the rows of tenant [B] are the same before and
    after another tenant [A] runs [create] or [delete], whatever their
    outcome, and the same after [A]'s [update] unless its data carry a
    tenant_id that spells [B]. *)
Theorem foreign_writes_keep_view env repo st (A B i : string) (data : Row)
    options :
  Uuid.uuid_text A → Uuid.uuid_text B → Sql.column_names data →
  A ≠ B →
  filter (of_tenant B) (rows (create env repo A data options st).2)
    = filter (of_tenant B) (rows st) ∧
  filter (of_tenant B) (rows (delete env repo A i options st).2)
    = filter (of_tenant B) (rows st) ∧
  ((∀ s, data !! "tenant_id" = Some (VStr s) → Uuid.uuid_in s ≠ Some B) →
   filter (of_tenant B) (rows (update env repo A i data options st).2)
     = filter (of_tenant B) (rows st)).
Proof.
  intros _ HB _ Hne.
  destruct (foreign_view_kept env repo st A B i data options Hne)
    as (Hc & Hd & Hu).
  split; [exact Hc|]. split; [exact Hd|].
  intros Hspell. apply Hu. intros Hdata. by apply (Hspell B).
Qed.



(** X7. Paging.  For a tenant that is UUID text in the server's
    spelling: a page that [findAll] returns holds only stored rows of the
    tenant, no more than the limit it sent, where a missing limit and the
    limit 0 both mean 1000, and the store is not changed; and with no
    offset, or offset 0, and a limit within the BIGINT range that is not
    below the number of the tenant's rows, [findAll] returns and every row
    of the tenant is in the page. *)
Theorem findAll_paging (t : string) st options :
  Uuid.uuid_text t →
  let lim := match options ≫= limit with
             | Some n => if n =? 0 then 1000 else n
             | None => 1000
             end in
  let off := match options ≫= offset with
             | Some n => n
             | None => 0
             end in
  (∀ rs st',
     findAll t options st = (Ok rs, st') →
     st' = st ∧
     (∀ r, r ∈ rs → r ∈ rows st ∧ r !! "tenant_id" = Some (VStr t)) ∧
     (length rs ≤ Z.to_nat lim)%nat) ∧
  (off = 0 → lim ≤ 9223372036854775807 →
   Z.of_nat (length (filter (of_tenant t) (rows st))) ≤ lim →
   ∃ rs, findAll t options st = (Ok rs, st) ∧
         ∀ r, r ∈ rows st → r !! "tenant_id" = Some (VStr t) → r ∈ rs).
Proof.
  intros _ lim off.
  assert (num_or (options ≫= limit) 1000 = lim) as Hlim.
  { subst lim. unfold num_or. by destruct (options ≫= limit). }
  assert (num_or (options ≫= offset) 0 = off) as Hoff.
  { subst off. unfold num_or. destruct (options ≫= offset) as [n|]; [|done].
    destruct (n =? 0) eqn:E; [|done]. apply Z.eqb_eq in E. by subst n. }
  split.
  - intros rs st' Hpage.
    destruct (findAll_page t options st rs st' Hpage) as [-> Hrows].
    split; [done|]. split; [exact Hrows|].
    revert Hpage. unfold findAll. rewrite Hlim, Hoff.
    destruct (negb _); [done|].
    destruct (off <? 0); [done|]. destruct (lim <? 0); [done|].
    intros [= <-]. rewrite length_take. lia.
  - intros Hzero Hmax Hlen. unfold findAll. rewrite Hlim, Hoff, Hzero.
    assert (0 ≤ lim) as Hpos by lia.
    replace (in_int8 lim && in_int8 0) with true
      by (unfold in_int8; symmetry; rewrite !andb_true_iff, !Z.leb_le; lia).
    replace (lim <? 0) with false by (symmetry; apply Z.ltb_ge; lia).
    simpl. eexists. split; [reflexivity|]. intros r Hr Ht.
    rewrite drop_0, take_ge by lia.
    apply list_elem_of_filter. split; [|done].
    apply Is_true_true. by apply col_is_true.
Qed.

Import Samples UuidSamples.

Import MoreSamples.


Lemma delete_removes_record_witness :
  pk_unique (rows store_t2) ∧ record_X ∈ rows store_t2 ∧
  ∃ st', delete env2 orders "t2" "X" None store_t2 = (Ok true, st') ∧
         rows st' = filter (λ r', r' ≠ record_X) (rows store_t2) ∧
         findById "t2" "X" st' = (Throw (NotFound "t2"), st') ∧
         (delete env2 orders "t2" "X" None st').1 = Throw (NotFound "t2").
Proof.
  assert (pk_unique (rows store_t2)) as H1 by by_compute.
  assert (record_X ∈ rows store_t2) as H2 by by_compute.
  split; [exact H1|]. split; [exact H2|].
  apply (delete_removes_record env2 orders store_t2 "t2" "X" None record_X
           H1 H2); vm_compute; reflexivity.
Defined.



Lemma foreign_writes_keep_view_witness :
  Uuid.uuid_text tenant_b ∧ Uuid.uuid_text tenant_a ∧
  Sql.column_names order_data ∧ tenant_b ≠ tenant_a ∧
  filter (of_tenant tenant_a)
    (rows (create env_y orders tenant_b order_data None store_a).2)
    = [record_x] ∧
  filter (of_tenant tenant_a)
    (rows (delete env_y orders tenant_b id_x None store_a).2)
    = [record_x].
Proof.
  assert (Uuid.uuid_text tenant_b) as Ub by (vm_compute; reflexivity).
  assert (Uuid.uuid_text tenant_a) as Ua by (vm_compute; reflexivity).
  assert (Sql.column_names order_data) as Hk by by_compute.
  assert (tenant_b ≠ tenant_a) as H by by_compute.
  assert (filter (of_tenant tenant_a) (rows store_a) = [record_x]) as Hview
    by (vm_compute; reflexivity).
  split; [exact Ub|]. split; [exact Ua|]. split; [exact Hk|].
  split; [exact H|].
  destruct (foreign_writes_keep_view env_y orders store_a tenant_b tenant_a
              id_x order_data None Ub Ua Hk H) as (Hc & Hd & _).
  split; [exact (eq_trans Hc Hview) | exact (eq_trans Hd Hview)].
Defined.


Lemma findAll_paging_witness :
  Uuid.uuid_text tenant_a ∧
  findAll tenant_a None store_a = (Ok [record_x], store_a) ∧
  (∀ r, r ∈ [record_x] →
        r ∈ rows store_a ∧ r !! "tenant_id" = Some (VStr tenant_a)) ∧
  (∃ rs, findAll tenant_a (Some (mkPage (Some 0) None)) store_a
           = (Ok rs, store_a) ∧
         ∀ r, r ∈ rows store_a → r !! "tenant_id" = Some (VStr tenant_a) →
              r ∈ rs).
Proof.
  assert (Uuid.uuid_text tenant_a) as Ua by (vm_compute; reflexivity).
  assert (findAll tenant_a None store_a = (Ok [record_x], store_a)) as H
    by (vm_compute; reflexivity).
  split; [exact Ua|]. split; [exact H|]. split.
  - exact (proj1 (proj2 (proj1 (findAll_paging tenant_a store_a None Ua)
                           [record_x] store_a H))).
  - apply (proj2 (findAll_paging tenant_a store_a
                    (Some (mkPage (Some 0) None)) Ua)).
    + reflexivity.
    + vm_compute. discriminate.
    + vm_compute. discriminate.
Defined.

End TenantRepoMore.


Section TenantRepoExtFacts.
Import TenantRepo TenantRepoExt.

Lemma prefix_refl_app (n b : string) : String.prefix n (n +:+ b) = true.
Proof.
  induction n as [|c n IH]; simpl; [by destruct b|].
  by destruct (Ascii.ascii_dec c c).
Qed.

Lemma includes_prefix (n h : string) :
  String.prefix n h = true → includes n h = true.
Proof. destruct h; simpl; by intros ->. Qed.

Lemma includes_here (n b : string) : includes n (n +:+ b) = true.
Proof. apply includes_prefix, prefix_refl_app. Qed.

Lemma includes_app (n a b : string) : includes n (a +:+ (n +:+ b)) = true.
Proof.
  induction a as [|c a IH].
  - exact (includes_here n b).
  - simpl. rewrite IH. apply orb_true_r.
Qed.

Lemma toLowerCase_app (a b : string) :
  toLowerCase (a +:+ b) = toLowerCase a +:+ toLowerCase b.
Proof. induction a as [|c a IH]; simpl; [done|]. by rewrite IH. Qed.

Lemma prefix_app (p h : string) :
  String.prefix p h = true → ∃ b, h = p +:+ b.
Proof.
  revert h. induction p as [|c p IH]; intros h.
  - intros _. by exists h.
  - destruct h as [|d h]; simpl; [done|].
    destruct (Ascii.ascii_dec c d) as [->|]; [|done].
    intros (b & ->)%IH. by exists b.
Qed.

Lemma includes_split (n h : string) :
  includes n h = true → ∃ a b, h = a +:+ (n +:+ b).
Proof.
  induction h as [|c h IH]; intros H; cbn [includes] in H.
  - rewrite orb_false_r in H. apply prefix_app in H as (b & Hb).
    by exists EmptyString, b.
  - apply orb_true_iff in H as [Hp | Hi].
    + apply prefix_app in Hp as (b & Hb). by exists EmptyString, b.
    + destruct (IH Hi) as (a & b & ->). by exists (String c a), b.
Qed.

Lemma toLowerCase_split (text a b : string) :
  toLowerCase text = a +:+ b →
  ∃ a' b', text = a' +:+ b' ∧ toLowerCase a' = a ∧ toLowerCase b' = b.
Proof.
  revert text. induction a as [|c a IH]; intros text.
  - intros H. by exists EmptyString, text.
  - destruct text as [|d text]; simpl; [done|].
    intros [= <- H]. destruct (IH text H) as (a' & b' & -> & <- & <-).
    by exists (String d a'), b'.
Qed.

(** X9. What the tenant guard of [query] lets through.  With
    [validateTenantId] set, [query] refuses a statement, with the guard's
    error and before anything is sent, exactly when no place of its text
    holds the nine characters of tenant_id in some mix of upper and lower
    case; the store is then unchanged, whatever the server would have
    done with the statement.  Without [validateTenantId] no statement is
    refused by the guard. *)
Theorem query_guard (text : string) values options st :
  (wants_validation options = true →
   (∀ exec, query exec text values options st = (GuardError guard_message, st))
   ↔ ¬ ∃ before word after,
         text = before +:+ (word +:+ after) ∧ toLowerCase word = "tenant_id") ∧
  (wants_validation options = false →
   ∀ exec, query exec text values options st
           = (Ran (exec text values st).1, (exec text values st).2)).
Proof.
  split.
  - intros Hv. unfold query. rewrite Hv. simpl. split.
    + intros Hrefused (before & word & after & -> & Hw).
      specialize (Hrefused (λ _ _, ret [])). revert Hrefused.
      by rewrite !toLowerCase_app, Hw, includes_app.
    + intros Hnone exec.
      destruct (includes "tenant_id" (toLowerCase text)) eqn:Hinc; [|done].
      exfalso. apply Hnone.
      apply includes_split in Hinc as (a & b & Hsplit).
      apply toLowerCase_split in Hsplit as (before & rest & -> & _ & Hrest).
      apply toLowerCase_split in Hrest as (word & after & -> & Hword & _).
      by exists before, word, after.
  - intros Hv exec. unfold query. rewrite Hv. simpl.
    by destruct (exec text values st).
Qed.

(** X10. The guard reads text, not meaning.  Any statement that carries
    the letters of tenant_id somewhere, in any mix of upper and lower
    case, passes the guard and is run as it is: a trailing comment is
    enough. *)
Theorem query_guard_is_textual exec (before word after : string) values
    options st :
  toLowerCase word = "tenant_id" →
  query exec (before +:+ (word +:+ after)) values options st
    = (Ran (exec (before +:+ (word +:+ after)) values st).1,
       (exec (before +:+ (word +:+ after)) values st).2).
Proof.
  intros Hw. unfold query.
  rewrite !toLowerCase_app, Hw, includes_app, andb_false_r.
  by destruct (exec _ values st).
Qed.




Import Samples MoreSamples UuidSamples.

Lemma query_guard_witness :
  wants_validation (Some (mkOptions None None None (Some true) None)) = true ∧
  (∃ before word after,
     "SELECT * FROM orders WHERE Tenant_Id = $1"
       = before +:+ (word +:+ after) ∧ toLowerCase word = "tenant_id") ∧
  ¬ (∀ exec, query exec "SELECT * FROM orders WHERE Tenant_Id = $1" []
               (Some (mkOptions None None None (Some true) None)) store_t2
             = (GuardError guard_message, store_t2)).
Proof.
  assert (wants_validation (Some (mkOptions None None None (Some true) None))
          = true) as Hv by reflexivity.
  assert (∃ before word after,
            "SELECT * FROM orders WHERE Tenant_Id = $1"
              = before +:+ (word +:+ after) ∧ toLowerCase word = "tenant_id")
    as Hocc.
  { exists "SELECT * FROM orders WHERE ", "Tenant_Id", " = $1".
    split; reflexivity. }
  split; [exact Hv|]. split; [exact Hocc|].
  intros Hrefused.
  exact (proj1 (proj1 (query_guard "SELECT * FROM orders WHERE Tenant_Id = $1"
                         [] (Some (mkOptions None None None (Some true) None))
                         store_t2) Hv) Hrefused Hocc).
Defined.

Lemma query_guard_is_textual_witness :
  toLowerCase "Tenant_ID" = "tenant_id" ∧
  query (λ _ _, ret []) "DELETE FROM orders -- Tenant_ID" []
    (Some (mkOptions None None None (Some true) None)) store_t2
    = (Ran (Ok []), store_t2).
Proof.
  split; [reflexivity|].
  exact (query_guard_is_textual (λ _ _, ret []) "DELETE FROM orders -- "
           "Tenant_ID" EmptyString []
           (Some (mkOptions None None None (Some true) None)) store_t2 eq_refl).
Defined.


End TenantRepoExtFacts.


Section TenantSvcMore.
Import TenantSvc.

Implicit Types (db : Db) (q : TenantQuota).

Lemma getQuotas_row t db q :
  getQuotas t db = (Ok q, db) →
  ∃ row, filter (quota_of t) (tenant_quotas db) = [row] ∧
         q = mkTenantQuota (q_tenant_id row)
               (q_max_users row) (q_used_users row)
               (q_max_orders row) (q_used_orders row)
               (q_max_events row) (q_used_events row)
               (q_storage_quota_mb row) (q_used_storage_mb row)
               (q_api_calls_per_day row) (q_used_api_calls row)
               (q_reset_date row).
Proof.
  unfold getQuotas, bind.
  destruct (filter (quota_of t) (tenant_quotas db)) as [|row [|row2 l]];
    simpl; try discriminate.
  intros [= <-]. by exists row.
Qed.

Lemma filter_quota_fmap (f : QuotaRow → QuotaRow) t (l : list QuotaRow) :
  (∀ row, q_tenant_id (f row) = q_tenant_id row) →
  filter (quota_of t) (f <$> l) = f <$> filter (quota_of t) l.
Proof.
  intros Hf. induction l as [|a l IH]; [done|].
  rewrite fmap_cons, !filter_cons, IH.
  assert (quota_of t (f a) = quota_of t a) as ->
    by (unfold quota_of; by rewrite Hf).
  by destruct (decide _).
Qed.

(** The tenant's quota row after an increment of a known column. *)
Lemma increment_view env t resource col get amount db db' row :
  getQuotaFieldForResource resource = JsString col →
  assoc col int_columns = Some get →
  filter (quota_of t) (tenant_quotas db) = [row] →
  incrementQuota env t resource amount db = (Ok tt, db') →
  tenants db' = tenants db ∧ tenant_settings db' = tenant_settings db ∧
  filter (quota_of t) (tenant_quotas db')
    = [touch (now env) (set_int_column col (get row + default 1 amount) row)].
Proof.
  intros Hfield Hcol Hrow. unfold incrementQuota. rewrite Hfield.
  unfold db_add_to_quota, quota_column. cbn [to_string]. rewrite Hcol.
  cbn [fmap option_fmap option_map].
  destruct (negb _); [done|]. intros [= <-]. cbn [tenants tenant_settings tenant_quotas].
  split; [done|]. split; [done|].
  rewrite filter_quota_fmap by (intros r; by destruct (quota_of t r)).
  rewrite Hrow. simpl.
  assert (quota_of t row = true) as ->; [|done].
  assert (row ∈ filter (quota_of t) (tenant_quotas db)) as Hin
    by (rewrite Hrow; by left).
  apply list_elem_of_filter in Hin as [Hq _]. by apply Is_true_true.
Qed.

(** X12. An increment shows in the next read.  For a tenant whose quota
    row [getQuotas] reads, a successful [incrementQuota] on users, orders,
    events, api_calls or storage adds the amount (1 when omitted) to the
    used counter of that resource and to no other field that [getQuotas]
    returns. *)
Theorem increment_then_getQuotas env t amount db q :
  getQuotas t db = (Ok q, db) →
  let a := default 1 amount in
  (∀ db', incrementQuota env t "users" amount db = (Ok tt, db') →
     getQuotas t db' =
       (Ok (mkTenantQuota (tenantId q) (maxUsers q) (usedUsers q + a)
              (maxOrders q) (usedOrders q) (maxEvents q) (usedEvents q)
              (storageQuota q) (usedStorage q) (apiCallsPerDay q)
              (usedApiCalls q) (resetDate q)), db')) ∧
  (∀ db', incrementQuota env t "orders" amount db = (Ok tt, db') →
     getQuotas t db' =
       (Ok (mkTenantQuota (tenantId q) (maxUsers q) (usedUsers q)
              (maxOrders q) (usedOrders q + a) (maxEvents q) (usedEvents q)
              (storageQuota q) (usedStorage q) (apiCallsPerDay q)
              (usedApiCalls q) (resetDate q)), db')) ∧
  (∀ db', incrementQuota env t "events" amount db = (Ok tt, db') →
     getQuotas t db' =
       (Ok (mkTenantQuota (tenantId q) (maxUsers q) (usedUsers q)
              (maxOrders q) (usedOrders q) (maxEvents q) (usedEvents q + a)
              (storageQuota q) (usedStorage q) (apiCallsPerDay q)
              (usedApiCalls q) (resetDate q)), db')) ∧
  (∀ db', incrementQuota env t "api_calls" amount db = (Ok tt, db') →
     getQuotas t db' =
       (Ok (mkTenantQuota (tenantId q) (maxUsers q) (usedUsers q)
              (maxOrders q) (usedOrders q) (maxEvents q) (usedEvents q)
              (storageQuota q) (usedStorage q) (apiCallsPerDay q)
              (usedApiCalls q + a) (resetDate q)), db')) ∧
  (∀ db', incrementQuota env t "storage" amount db = (Ok tt, db') →
     getQuotas t db' =
       (Ok (mkTenantQuota (tenantId q) (maxUsers q) (usedUsers q)
              (maxOrders q) (usedOrders q) (maxEvents q) (usedEvents q)
              (storageQuota q) (usedStorage q + a) (apiCallsPerDay q)
              (usedApiCalls q) (resetDate q)), db')).
Proof.
  intros Hq a. apply getQuotas_row in Hq as (row & Hrow & ->).
  split_and!; intros db' Hinc;
    (eapply increment_view in Hinc as (_ & _ & Hrow');
       [|reflexivity|reflexivity|exact Hrow]);
    unfold getQuotas, bind; rewrite Hrow'; reflexivity.
Qed.

(** X13. Validate, then increment by one, stays within the ceiling.  When
    [validateQuota] has passed for users, orders, events or api_calls and
    the following [incrementQuota] by 1 on the same resource succeeds, the
    next read shows the used counter at most at its ceiling. *)
Theorem validate_then_increment_within_ceiling env t db db' (resource : string) :
  resource ∈ ["users"; "orders"; "events"; "api_calls"] →
  validateQuota t resource db = (Ok true, db) →
  incrementQuota env t resource None db = (Ok tt, db') →
  ∃ q', getQuotas t db' = (Ok q', db') ∧
        (resource = "users" → usedUsers q' ≤ maxUsers q') ∧
        (resource = "orders" → usedOrders q' ≤ maxOrders q') ∧
        (resource = "events" → usedEvents q' ≤ maxEvents q') ∧
        (resource = "api_calls" → usedApiCalls q' ≤ apiCallsPerDay q').
Proof.
  intros Hres Hval Hinc.
  destruct (getQuotas t db) as [[q|e] db0] eqn:Hq.
  2:{ unfold validateQuota in Hval. unfold bind at 1 in Hval.
      by rewrite Hq in Hval. }
  apply getQuotas_pure in Hq as Hdb. subst db0.
  rewrite (validateQuota_unfold t resource db q Hq) in Hval.
  apply getQuotas_row in Hq as (row & Hrow & ->).
  repeat (apply elem_of_cons in Hres as [->|Hres]);
    [| | | |by apply elem_of_nil in Hres];
    (eapply increment_view in Hinc as (_ & _ & Hrow');
       [|reflexivity|reflexivity|exact Hrow]);
    simpl in Hval; apply check_gate in Hval; simpl in Hval;
    eexists; (split; [unfold getQuotas, bind; rewrite Hrow'; reflexivity|]);
    simpl; split_and!; intros; try discriminate; lia.
Qed.

Lemma others_kept (f : QuotaRow → QuotaRow) t (l : list QuotaRow) :
  (∀ row, q_tenant_id (f row) = q_tenant_id row) →
  filter (λ row, q_tenant_id row ≠ t)
    ((λ row, if quota_of t row then f row else row) <$> l)
  = filter (λ row, q_tenant_id row ≠ t) l.
Proof.
  intros Hf. induction l as [|a l IH]; [done|].
  rewrite fmap_cons, !filter_cons, IH.
  destruct (quota_of t a) eqn:Ha; [|done].
  apply bool_decide_eq_true in Ha.
  rewrite (decide_False (P := q_tenant_id a ≠ t)) by tauto.
  rewrite decide_False; [done|]. rewrite Hf. tauto.
Qed.

Lemma incrementQuota_frame env (t resource : string) amount db :
  tenants (incrementQuota env t resource amount db).2 = tenants db ∧
  tenant_settings (incrementQuota env t resource amount db).2
    = tenant_settings db ∧
  filter (λ row, q_tenant_id row ≠ t)
    (tenant_quotas (incrementQuota env t resource amount db).2)
    = filter (λ row, q_tenant_id row ≠ t) (tenant_quotas db) ∧
  q_tenant_id <$> tenant_quotas (incrementQuota env t resource amount db).2
    = q_tenant_id <$> tenant_quotas db.
Proof.
  unfold incrementQuota, db_add_to_quota.
  destruct (quota_column _) as [[get set]|] eqn:Hcol; [|done].
  destruct (negb _); [done|]. simpl. split; [done|]. split; [done|].
  pose proof (quota_column_frame _ get set Hcol) as Hframe.
  split.
  - apply others_kept. intros row. simpl. apply Hframe.
  - rewrite <- list_fmap_compose. apply list_fmap_ext. intros k row _. simpl.
    destruct (quota_of t row); [|done]. simpl. apply Hframe.
Qed.


Lemma known_field_column (resource : string) :
  resource ∉ Object_prototype.*1 →
  ∃ col get, getQuotaFieldForResource resource = JsString col ∧
             assoc col int_columns = Some get.
Proof.
  intros Hp. unfold getQuotaFieldForResource, get_property.
  rewrite (assoc_None _ _ Hp).
  destruct (assoc resource fields) as [col|] eqn:E; simpl.
  - unfold fields in E. simpl in E.
    repeat case_decide; simplify_eq; simpl; eauto.
  - eauto.
Qed.

(** X15. A tenant without a quota row.  For a tenant that is UUID text
    in the server's spelling and has no quota row, [getQuotas] and
    [validateQuota] throw the no-data error of [db.one], while
    [incrementQuota] on any resource name that is not an inherited
    property returns normally, whatever the amount, and changes
    nothing. *)
Theorem tenant_without_quota_row env (t resource : string) amount db :
  Uuid.uuid_text t →
  (∀ row, row ∈ tenant_quotas db → q_tenant_id row ≠ t) →
  getQuotas t db = (Throw (QueryResultError noData), db) ∧
  validateQuota t resource db = (Throw (QueryResultError noData), db) ∧
  (resource ∉ Object_prototype.*1 →
   incrementQuota env t resource amount db = (Ok tt, db)).
Proof.
  intros _ Hnone.
  assert (filter (quota_of t) (tenant_quotas db) = []) as Hf.
  { apply filter_nil_of_none. intros row Hrow. unfold quota_of.
    apply bool_decide_eq_false. by apply Hnone. }
  assert (getQuotas t db = (Throw (QueryResultError noData), db)) as Hg
    by (unfold getQuotas, bind; by rewrite Hf).
  split; [exact Hg|]. split.
  - unfold validateQuota. unfold bind at 1. by rewrite Hg.
  - intros Hp.
    destruct (known_field_column resource Hp) as (col & get & Hfield & Hcol).
    unfold incrementQuota. rewrite Hfield.
    unfold db_add_to_quota, quota_column. cbn [to_string]. rewrite Hcol.
    cbn [fmap option_fmap option_map]. rewrite Hf. simpl.
    f_equal. destruct db as [ts ss qs]. simpl in *. f_equal.
    rewrite <- (list_fmap_id qs) at 2. apply Forall_fmap_ext, Forall_forall.
    intros row Hrow. unfold quota_of.
    by rewrite (bool_decide_eq_false_2 _ (Hnone row Hrow)).
Qed.

(** X19. Only four resources are gated.  For a tenant whose quota row
    [getQuotas] reads, [validateQuota] returns true for every resource
    name other than users, orders, events and api_calls, whatever the
    counters say: storage usage is never checked against its quota. *)
Theorem validateQuota_ungated t (resource : string) db q :
  getQuotas t db = (Ok q, db) →
  resource ∉ ["users"; "orders"; "events"; "api_calls"] →
  validateQuota t resource db = (Ok true, db).
Proof.
  intros Hq Hres. rewrite (validateQuota_unfold t resource db q Hq).
  rewrite !not_elem_of_cons in Hres. destruct Hres as (H1 & H2 & H3 & H4 & _).
  by rewrite !decide_False.
Qed.

Import Samples MoreSamples UuidSamples.

Lemma increment_then_getQuotas_witness :
  getQuotas "T1" (quota_db 1 0 0) = (Ok (quota_view 1 0 0), quota_db 1 0 0) ∧
  ∃ db', incrementQuota svc_env "T1" "orders" (Some 5) (quota_db 1 0 0)
           = (Ok tt, db') ∧
         getQuotas "T1" db' = (Ok (quota_view 6 0 0), db').
Proof.
  assert (getQuotas "T1" (quota_db 1 0 0)
          = (Ok (quota_view 1 0 0), quota_db 1 0 0)) as H by reflexivity.
  split; [exact H|]. eexists. split; [reflexivity|].
  exact (proj1 (proj2 (increment_then_getQuotas svc_env "T1" (Some 5)
                         (quota_db 1 0 0) _ H)) _ eq_refl).
Defined.

Lemma validate_then_increment_within_ceiling_witness :
  validateQuota "T1" "orders" (quota_db 999 0 0) = (Ok true, quota_db 999 0 0) ∧
  ∃ db' q', incrementQuota svc_env "T1" "orders" None (quota_db 999 0 0)
              = (Ok tt, db') ∧
            getQuotas "T1" db' = (Ok q', db') ∧
            usedOrders q' ≤ maxOrders q'.
Proof.
  assert (validateQuota "T1" "orders" (quota_db 999 0 0)
          = (Ok true, quota_db 999 0 0)) as H1 by reflexivity.
  assert ("orders" ∈ ["users"; "orders"; "events"; "api_calls"]) as H2
    by by_compute.
  split; [exact H1|].
  destruct (validate_then_increment_within_ceiling svc_env "T1"
              (quota_db 999 0 0) _ "orders" H2 H1 eq_refl)
    as (q' & Hq & _ & Ho & _).
  eexists _, q'. split; [reflexivity|]. split; [exact Hq|]. by apply Ho.
Defined.

Lemma tenant_without_quota_row_witness :
  Uuid.uuid_text tenant_b ∧
  (∀ row, row ∈ tenant_quotas quota_db_a → q_tenant_id row ≠ tenant_b) ∧
  ("orders" ∉ Object_prototype.*1) ∧
  validateQuota tenant_b "orders" quota_db_a
    = (Throw (QueryResultError noData), quota_db_a) ∧
  incrementQuota svc_env_a tenant_b "orders" (Some 5000000000) quota_db_a
    = (Ok tt, quota_db_a).
Proof.
  assert (Uuid.uuid_text tenant_b) as Ub by (vm_compute; reflexivity).
  assert (∀ row, row ∈ tenant_quotas quota_db_a → q_tenant_id row ≠ tenant_b)
    as H.
  { intros row Hrow. simpl in Hrow.
    apply list_elem_of_singleton in Hrow as ->. by_compute. }
  assert ("orders" ∉ Object_prototype.*1) as Hp by by_compute.
  destruct (tenant_without_quota_row svc_env_a tenant_b "orders"
              (Some 5000000000) quota_db_a Ub H) as (_ & Hv & Hi).
  split; [exact Ub|]. split; [exact H|]. split; [exact Hp|].
  split; [exact Hv|]. exact (Hi Hp).
Defined.

Lemma validateQuota_ungated_witness :
  getQuotas "T1" (quota_db 1 0 0) = (Ok (quota_view 1 0 0), quota_db 1 0 0) ∧
  validateQuota "T1" "storage" (quota_db 1 0 0) = (Ok true, quota_db 1 0 0).
Proof.
  assert (getQuotas "T1" (quota_db 1 0 0)
          = (Ok (quota_view 1 0 0), quota_db 1 0 0)) as H by reflexivity.
  assert ("storage" ∉ ["users"; "orders"; "events"; "api_calls"]) as Hr
    by by_compute.
  split; [exact H|].
  exact (validateQuota_ungated "T1" "storage" (quota_db 1 0 0) _ H Hr).
Defined.

End TenantSvcMore.

Section TenantSvcExtFacts.
Import TenantSvc TenantSvcExt.

Lemma NoDup_snoc_fresh {A} (l : list A) (x : A) :
  NoDup l → x ∉ l → NoDup (l ++ [x]).
Proof.
  intros Hl Hx. apply NoDup_app. split; [done|].
  split; [|apply NoDup_singleton].
  by intros y Hy ->%list_elem_of_singleton.
Qed.

Lemma consistent_fresh db (k : string) :
  consistent db → k ∉ t_id <$> tenants db →
  (k ∉ s_tenant_id <$> tenant_settings db) ∧
  (k ∉ q_tenant_id <$> tenant_quotas db).
Proof.
  intros [_ _ Hsfk _ Hqfk _] Hk. split.
  - intros (r & Hr & Hin)%list_elem_of_fmap. apply Hk. rewrite Hr. auto.
  - intros (r & Hr & Hin)%list_elem_of_fmap. apply Hk. rewrite Hr. auto.
Qed.

Lemma consistent_add_tenant db row :
  consistent db →
  t_id row ∉ t_id <$> tenants db → t_slug row ∉ t_slug <$> tenants db →
  consistent (mkDb (tenants db ++ [row]) (tenant_settings db) (tenant_quotas db)).
Proof.
  intros [Hids Hslugs Hsfk Hsu Hqfk Hqu] Hid Hslug.
  split; simpl; rewrite ?fmap_app; simpl; try done.
  - by apply NoDup_snoc_fresh.
  - by apply NoDup_snoc_fresh.
  - intros r Hr. apply elem_of_app. left. auto.
  - intros r Hr. apply elem_of_app. left. auto.
Qed.

Lemma consistent_add_settings db srow :
  consistent db →
  s_tenant_id srow ∈ t_id <$> tenants db →
  s_tenant_id srow ∉ s_tenant_id <$> tenant_settings db →
  consistent (mkDb (tenants db) (tenant_settings db ++ [srow]) (tenant_quotas db)).
Proof.
  intros [Hids Hslugs Hsfk Hsu Hqfk Hqu] Hin Hnew.
  split; simpl; rewrite ?fmap_app; simpl; try done.
  - intros r [Hr| ->%list_elem_of_singleton]%elem_of_app; auto.
  - by apply NoDup_snoc_fresh.
Qed.

Lemma consistent_add_quotas db qrow :
  consistent db →
  q_tenant_id qrow ∈ t_id <$> tenants db →
  q_tenant_id qrow ∉ q_tenant_id <$> tenant_quotas db →
  consistent (mkDb (tenants db) (tenant_settings db) (tenant_quotas db ++ [qrow])).
Proof.
  intros [Hids Hslugs Hsfk Hsu Hqfk Hqu] Hin Hnew.
  split; simpl; rewrite ?fmap_app; simpl; try done.
  - intros r [Hr| ->%list_elem_of_singleton]%elem_of_app; auto.
  - by apply NoDup_snoc_fresh.
Qed.

(** Each INSERT of [createTenant] either throws and changes nothing or
    appends its one row, which then satisfies the constraints. *)
Lemma db_insert_tenant_outcome env name slug email plan db :
  (∃ e, db_insert_tenant env name slug email plan db = (Throw e, db)) ∨
  ((gen_uuid env ∉ t_id <$> tenants db) ∧ (slug ∉ t_slug <$> tenants db) ∧
   db_insert_tenant env name slug email plan db
   = (Ok (mkTenantRow (gen_uuid env) name slug email plan "active"
            (now env) (now env) None),
      mkDb (tenants db ++
              [mkTenantRow (gen_uuid env) name slug email plan "active"
                 (now env) (now env) None])
        (tenant_settings db) (tenant_quotas db))).
Proof.
  unfold db_insert_tenant, refused, bind, throw, ret.
  destruct (insert_fault env "tenants"); [left; eauto|].
  destruct (negb _); [left; eauto|].
  destruct (negb _); [left; eauto|].
  unfold has_tenant.
  case_bool_decide as Hid; [left; eauto|].
  case_bool_decide as Hslug; [left; eauto|].
  right. done.
Qed.

Lemma db_insert_settings_outcome env tid a b c db :
  (∃ e, db_insert_settings env tid a b c db = (Throw e, db)) ∨
  (tid ∈ t_id <$> tenants db ∧ (tid ∉ s_tenant_id <$> tenant_settings db) ∧
   db_insert_settings env tid a b c db
   = (Ok tt,
      mkDb (tenants db)
        (tenant_settings db ++ [mkSettingsRow tid a b c [] None None "us" false])
        (tenant_quotas db))).
Proof.
  unfold db_insert_settings, refused, bind, throw, ret.
  destruct (insert_fault env "tenant_settings"); [left; eauto|].
  unfold has_tenant.
  case_bool_decide as Hid; simpl; [|left; eauto].
  case_bool_decide as Hnew; [left; eauto|].
  right. done.
Qed.

Lemma db_insert_quotas_outcome env tid a b c d db :
  (∃ e, db_insert_quotas env tid a b c d db = (Throw e, db)) ∨
  (tid ∈ t_id <$> tenants db ∧ (tid ∉ q_tenant_id <$> tenant_quotas db) ∧
   db_insert_quotas env tid a b c d db
   = (Ok tt,
      mkDb (tenants db) (tenant_settings db)
        (tenant_quotas db ++
           [mkQuotaRow tid a 0 b 0 c 0 1000 0 d 0 (now env + one_day) (now env)]))).
Proof.
  unfold db_insert_quotas, refused, bind, throw, ret.
  destruct (insert_fault env "tenant_quotas"); [left; eauto|].
  unfold has_tenant.
  case_bool_decide as Hid; simpl; [|left; eauto].
  case_bool_decide as Hnew; [left; eauto|].
  right. done.
Qed.

(** The constraints hold after [createTenant] wherever it stops. *)
Lemma createTenant_consistent env (data : NewTenant) db :
  consistent db → consistent (createTenant env data db).2.
Proof.
  intros Hc. unfold createTenant. unfold bind at 1.
  destruct (db_insert_tenant_outcome env (nt_name data) (nt_slug data)
              (nt_email data) (str_or (nt_plan data) "free") db)
    as [[e ->] | (Hid & Hslug & ->)]; [done|].
  set (row := mkTenantRow _ _ _ _ _ _ _ _ _).
  assert (consistent (mkDb (tenants db ++ [row]) (tenant_settings db)
                        (tenant_quotas db))) as H1
    by (by apply consistent_add_tenant).
  unfold bind at 1. cbn [t_id row].
  destruct (db_insert_settings_outcome env (gen_uuid env) 10 1000 100
              (mkDb (tenants db ++ [row]) (tenant_settings db)
                 (tenant_quotas db)))
    as [[e ->] | (Hin & Hnew & ->)]; [done|].
  assert (consistent (mkDb (tenants db ++ [row])
                        (tenant_settings db ++
                           [mkSettingsRow (gen_uuid env) 10 1000 100 [] None
                              None "us" false])
                        (tenant_quotas db))) as H2
    by (by apply (consistent_add_settings _ _ H1)).
  unfold bind at 1.
  match goal with
  | |- context [db_insert_quotas env ?k ?a ?b ?c ?d ?x] =>
      destruct (db_insert_quotas_outcome env k a b c d x)
        as [[e ->] | (Hin' & Hnew' & ->)]; [done|]
  end.
  simpl. by apply (consistent_add_quotas _ _ H2).
Qed.

(** A slug that is taken stops [createTenant] at its first INSERT. *)
Lemma createTenant_slug_taken env (data : NewTenant) db :
  nt_slug data ∈ t_slug <$> tenants db →
  ∃ e, createTenant env data db = (Throw e, db).
Proof.
  intros Hslug. unfold createTenant. unfold bind at 1.
  destruct (db_insert_tenant_outcome env (nt_name data) (nt_slug data)
              (nt_email data) (str_or (nt_plan data) "free") db)
    as [[e ->] | (_ & Hfree & _)]; [eauto | done].
Qed.

Lemma filter_key_unique {A} (key : A → string) (p : A → bool) (l : list A) x :
  NoDup (key <$> l) → x ∈ l → p x = true →
  (∀ y, y ∈ l → p y = true → key y = key x) →
  filter p l = [x].
Proof.
  intros Hnd Hx Hpx Hkey.
  assert (∀ y, y ∈ l → p y = true → y = x) as Huniq.
  { intros y Hy Hpy. specialize (Hkey y Hy Hpy). clear Hpx Hpy.
    induction l as [|a l IH]; [by apply elem_of_nil in Hx|].
    rewrite fmap_cons in Hnd. apply NoDup_cons in Hnd as [Hnin Hnd].
    apply elem_of_cons in Hx as [->|Hx]; apply elem_of_cons in Hy as [->|Hy].
    - done.
    - exfalso. apply Hnin. rewrite <- Hkey. by apply list_elem_of_fmap_2.
    - exfalso. apply Hnin. rewrite Hkey. by apply list_elem_of_fmap_2.
    - by apply IH. }
  clear Hkey. induction l as [|a l IH]; [by apply elem_of_nil in Hx|].
  rewrite fmap_cons in Hnd. apply NoDup_cons in Hnd as [Hnin Hnd].
  rewrite filter_cons. apply elem_of_cons in Hx as [<-|Hx].
  - rewrite Hpx. simpl. f_equal. apply filter_nil_of_none.
    intros y Hy. apply not_true_is_false. intros Hpy.
    assert (y = x) as -> by (apply Huniq; [by right|done]).
    apply Hnin. by apply list_elem_of_fmap_2.
  - destruct (decide (p a)) as [Ha|Ha].
    + apply Is_true_true in Ha.
      assert (a = x) as -> by (apply Huniq; [by left|done]).
      exfalso. apply Hnin. by apply list_elem_of_fmap_2.
    + apply IH; auto. intros y Hy. apply Huniq. by right.
Qed.

(** With unique tenant ids among the settings rows, the settings look-up
    cannot fail. *)
Lemma getTenantSettings_total t db :
  NoDup (s_tenant_id <$> tenant_settings db) →
  ∃ settings,
    getTenantSettings t db = (Ok settings, db) ∧
    ((∀ r, r ∈ tenant_settings db → s_tenant_id r ≠ t) →
     settings = mkTenantSettings 10 1000 100 None None None "global" false).
Proof.
  intros Hnd. unfold getTenantSettings, bind.
  destruct (filter (settings_of t) (tenant_settings db)) as [|r l] eqn:Hf.
  - simpl. eauto.
  - assert (r ∈ filter (settings_of t) (tenant_settings db)) as Hin
      by (rewrite Hf; by left).
    apply list_elem_of_filter in Hin as [Hr Hin].
    apply Is_true_true in Hr.
    rewrite (filter_key_unique s_tenant_id (settings_of t) _ r Hnd Hin Hr) in Hf.
    + injection Hf as <-. simpl. eexists. split; [done|].
      intros Hnone. exfalso. apply (Hnone r Hin).
      unfold settings_of in Hr. by apply bool_decide_eq_true in Hr.
    + intros y _ Hy. unfold settings_of in *.
      apply bool_decide_eq_true in Hy, Hr. congruence.
Qed.

Lemma getTenantInfo_found t db row :
  NoDup (t_id <$> tenants db) →
  NoDup (s_tenant_id <$> tenant_settings db) →
  row ∈ tenants db → t_id row = t → t_deleted_at row = None →
  ∃ settings,
    getTenantInfo t db
      = (Ok (mkTenantInfo (t_id row) (t_name row) (t_slug row) (t_email row)
               (t_plan row) (t_status row) (t_created_at row)
               (t_updated_at row) (Some settings)), db) ∧
    ((∀ r, r ∈ tenant_settings db → s_tenant_id r ≠ t) →
     settings = mkTenantSettings 10 1000 100 None None None "global" false).
Proof.
  intros Hids Hset Hrow Ht Hlive.
  destruct (getTenantSettings_total t db Hset) as (settings & Hs & Hdef).
  exists settings. split; [|exact Hdef].
  unfold getTenantInfo, bind.
  rewrite (filter_key_unique t_id (live_tenant t) _ row Hids Hrow).
  - simpl. by rewrite Hs.
  - unfold live_tenant. by rewrite !bool_decide_eq_true_2.
  - intros y _ Hy. unfold live_tenant in Hy.
    apply andb_true_iff in Hy as [Hy _]. apply bool_decide_eq_true in Hy.
    congruence.
Qed.

(** X16. Onboarding is three statements without a transaction.  From a
    database that satisfies the key, uniqueness and foreign-key
    constraints, for input the tenants table accepts: when the server
    refuses the settings INSERT, or the quota INSERT after it,
    [createTenant] throws that refusal and the rows written before it
    stay.  The tenant then exists for [getTenantInfo], has no quota row,
    so that [getQuotas] throws the no-data error, and every later
    [createTenant] with the same input stops at the taken slug.  The
    constraints hold wherever [createTenant] stops, and after any
    [incrementQuota]. *)
Theorem onboarding_is_not_atomic env (data : NewTenant) db :
  consistent db →
  fits 255 (nt_name data) = true →
  fits 100 (nt_slug data) = true →
  fits 255 (nt_email data) = true →
  (∀ p, nt_plan data = Some p → p ≠ EmptyString → p ∈ valid_plans) →
  gen_uuid env ∉ t_id <$> tenants db →
  nt_slug data ∉ t_slug <$> tenants db →
  insert_fault env "tenants" = None →
  ∃ row srow,
    t_id row = gen_uuid env ∧ t_name row = nt_name data ∧
    t_slug row = nt_slug data ∧ t_status row = "active" ∧
    s_tenant_id srow = gen_uuid env ∧
    let db1 := mkDb (tenants db ++ [row]) (tenant_settings db)
                 (tenant_quotas db) in
    let db2 := mkDb (tenants db ++ [row]) (tenant_settings db ++ [srow])
                 (tenant_quotas db) in
    (∀ why, insert_fault env "tenant_settings" = Some why →
       createTenant env data db = (Throw (DbError why), db1)) ∧
    (∀ why, insert_fault env "tenant_settings" = None →
       insert_fault env "tenant_quotas" = Some why →
       createTenant env data db = (Throw (DbError why), db2)) ∧
    (∀ half, half = db1 ∨ half = db2 →
       consistent half ∧
       (∃ info, getTenantInfo (gen_uuid env) half = (Ok info, half) ∧
                name info = nt_name data ∧ status info = "active") ∧
       getQuotas (gen_uuid env) half
         = (Throw (QueryResultError noData), half) ∧
       (∀ env', ∃ e, createTenant env' data half = (Throw e, half))) ∧
    (∀ env0 data0, consistent (createTenant env0 data0 db).2) ∧
    (∀ qenv t resource amount,
       consistent (incrementQuota qenv t resource amount db).2).
Proof.
  intros Hc Hn Hs He Hplan Hid Hslug Hok.
  assert (str_or (nt_plan data) "free" ∈ valid_plans) as Hp.
  { unfold str_or. destruct (nt_plan data) as [p|]; [|by_compute].
    destruct (decide (p = EmptyString)); [by_compute | by apply Hplan]. }
  destruct (consistent_fresh db (gen_uuid env) Hc Hid) as [Hs1 Hq1].
  set (row := mkTenantRow (gen_uuid env) (nt_name data) (nt_slug data)
                (nt_email data) (str_or (nt_plan data) "free") "active"
                (now env) (now env) None).
  set (srow := mkSettingsRow (gen_uuid env) 10 1000 100 [] None None "us" false).
  exists row, srow. split_and!; try done.
  assert (db_insert_tenant env (nt_name data) (nt_slug data) (nt_email data)
            (str_or (nt_plan data) "free") db
          = (Ok row, mkDb (tenants db ++ [row]) (tenant_settings db)
                       (tenant_quotas db))) as Hfirst.
  { unfold db_insert_tenant, refused, bind, ret. rewrite Hok, Hn, Hs, He. simpl.
    rewrite (bool_decide_eq_true_2 _ Hp). simpl.
    unfold has_tenant. rewrite (bool_decide_eq_false_2 _ Hid).
    by rewrite (bool_decide_eq_false_2 _ Hslug). }
  assert (gen_uuid env ∈ t_id <$> (tenants db ++ [row])) as Hin
    by (rewrite fmap_app; apply elem_of_app; right; by left).
  assert (consistent (mkDb (tenants db ++ [row]) (tenant_settings db)
                        (tenant_quotas db))) as H1
    by (by apply consistent_add_tenant).
  assert (consistent (mkDb (tenants db ++ [row]) (tenant_settings db ++ [srow])
                        (tenant_quotas db))) as H2
    by (by apply (consistent_add_settings _ _ H1)).
  intros db1 db2. split_and!.
  - intros why Hf. unfold createTenant. unfold bind at 1. rewrite Hfirst.
    unfold bind at 1. unfold db_insert_settings, refused, bind, throw.
    by rewrite Hf.
  - intros why Hf1 Hf2. unfold createTenant. unfold bind at 1. rewrite Hfirst.
    unfold bind at 1. unfold db_insert_settings, refused, bind, throw, ret.
    rewrite Hf1. unfold has_tenant. cbn [tenants tenant_settings t_id row].
    rewrite (bool_decide_eq_true_2 _ Hin). simpl.
    rewrite (bool_decide_eq_false_2 _ Hs1). simpl.
    unfold db_insert_quotas, refused, bind, throw. by rewrite Hf2.
  - intros half Hhalf.
    assert (consistent half) as Hch by (by destruct Hhalf as [-> | ->]).
    assert (tenants half = tenants db ++ [row] ∧
            tenant_quotas half = tenant_quotas db) as [Hten Hquo]
      by (by destruct Hhalf as [-> | ->]).
    split; [exact Hch|]. split_and!.
    + destruct (getTenantInfo_found (gen_uuid env) half row)
        as (settings & Hinfo & _); try done.
      * by destruct Hch.
      * by destruct Hch.
      * rewrite Hten. apply elem_of_app. right. by left.
      * eexists. split; [exact Hinfo|]. done.
    + unfold getQuotas, bind. rewrite Hquo.
      rewrite filter_nil_of_none; [done|].
      by apply not_elem_fmap_false.
    + intros env'. apply createTenant_slug_taken.
      rewrite Hten, fmap_app. apply elem_of_app. right. by left.
  - intros env0 data0. by apply createTenant_consistent.
  - intros qenv t resource amount.
    pose proof Hc as [Hids Hslugs Hsfk Hsu Hqfk Hqu].
    pose proof (incrementQuota_frame qenv t resource amount db)
      as (Ht & Hse & _ & Hq).
    split; rewrite ?Ht, ?Hse, ?Hq; try done.
    intros r Hr.
    assert (q_tenant_id r ∈ q_tenant_id <$> tenant_quotas db) as Hin'
      by (rewrite <- Hq; by apply list_elem_of_fmap_2).
    apply list_elem_of_fmap in Hin' as (r0 & -> & Hr0). auto.
Qed.

(** X17. Looking a tenant up.  For an id that is UUID text in the
    server's spelling, in a database with unique tenant ids,
    [getTenantInfo] returns the columns of the tenant's row whatever its
    status, with the settings row or, when the tenant has none, the
    built-in defaults, and writes nothing; a tenant whose row is marked
    deleted is reported exactly like an id that was never issued. *)
Theorem getTenantInfo_lookup (t : string) db :
  Uuid.uuid_text t →
  NoDup (t_id <$> tenants db) →
  NoDup (s_tenant_id <$> tenant_settings db) →
  (∀ row, row ∈ tenants db → t_id row = t → t_deleted_at row = None →
     ∃ info,
       getTenantInfo t db = (Ok info, db) ∧
       id info = t ∧ name info = t_name row ∧ slug info = t_slug row ∧
       email info = t_email row ∧ plan info = t_plan row ∧
       status info = t_status row ∧
       ((∀ r, r ∈ tenant_settings db → s_tenant_id r ≠ t) →
        settings info =
          Some (mkTenantSettings 10 1000 100 None None None "global" false))) ∧
  ((∀ row, row ∈ tenants db → t_id row = t → t_deleted_at row ≠ None) →
   getTenantInfo t db = (Throw (TenantNotFound t), db)).
Proof.
  intros _ Hids Hset. split.
  - intros row Hrow Ht Hlive.
    destruct (getTenantInfo_found t db row Hids Hset Hrow Ht Hlive)
      as (settings & Hinfo & Hdef).
    eexists. split; [exact Hinfo|]. simpl. split_and!; try done.
    intros Hnone. by rewrite Hdef.
  - intros Hgone. unfold getTenantInfo, bind.
    rewrite filter_nil_of_none; [done|].
    intros row Hrow. unfold live_tenant.
    destruct (bool_decide (t_id row = t)) eqn:E; [|done].
    apply bool_decide_eq_true in E. simpl.
    apply bool_decide_eq_false. by apply Hgone.
Qed.

Lemma suspension_audit_refused :
  forallb (λ c, bool_decide (c ∈ audit_logs_columns)) suspension_audit_columns
  = false.
Proof. vm_compute. reflexivity. Qed.

(** X18. Suspension always throws.  The audit INSERT of [suspendTenant]
    names the column metadata, which the audit_logs table of the schema
    does not have, so the server refuses it on every call, and the UPDATE
    before it is not undone.  For an id that is UUID text in the server's
    spelling the call throws, writes no audit row, and has marked every
    row with that id as suspended, stamped with the current time:
    [getTenantInfo] reports the status suspended with the name, slug,
    email and plan unchanged.  For an id that no tenant carries nothing
    changes. *)
Theorem suspendTenant_effect env (t reason : string) st :
  Uuid.uuid_text t →
  NoDup (t_id <$> tenants (db st)) →
  NoDup (s_tenant_id <$> tenant_settings (db st)) →
  let out := suspendTenant env t reason st in
  (∃ e, out.1 = Throw e) ∧
  (s_audit_fault env = None →
   out.1 = Throw (DbError "column of relation audit_logs does not exist")) ∧
  audit_logs out.2 = audit_logs st ∧
  (∀ row, row ∈ tenants (db st) → t_id row ≠ t → row ∈ tenants (db out.2)) ∧
  (∀ row, row ∈ tenants (db st) → t_id row = t →
     suspended (s_now env) row ∈ tenants (db out.2) ∧
     (t_deleted_at row = None →
        ∃ info, getTenantInfo t (db out.2) = (Ok info, db out.2) ∧
                status info = "suspended" ∧ updatedAt info = s_now env ∧
                name info = t_name row ∧ slug info = t_slug row ∧
                email info = t_email row ∧ plan info = t_plan row)) ∧
  ((t ∉ t_id <$> tenants (db st)) → db out.2 = db st).
Proof.
  intros _ Hids Hset out.
  set (mark := λ row, if bool_decide (t_id row = t)
                      then suspended (s_now env) row else row).
  assert (t_id <$> (mark <$> tenants (db st)) = t_id <$> tenants (db st))
    as Hsame.
  { rewrite <- list_fmap_compose. apply list_fmap_ext. intros k row _.
    unfold mark. simpl. by destruct (bool_decide _). }
  assert (out = (Throw (match s_audit_fault env with
                        | Some why => DbError why
                        | None => DbError "column of relation audit_logs does not exist"
                        end),
                 mkState (mkDb (mark <$> tenants (db st))
                            (tenant_settings (db st)) (tenant_quotas (db st)))
                   (audit_logs st))) as Hout.
  { unfold out, suspendTenant, bind, db_suspend, db_insert_suspension_audit.
    destruct (s_audit_fault env); [done|].
    by rewrite suspension_audit_refused. }
  rewrite Hout. cbn [fst snd db audit_logs tenants tenant_settings].
  split_and!.
  - eauto.
  - by intros ->.
  - done.
  - intros row Hrow Hne. apply list_elem_of_fmap. exists row. split; [|done].
    unfold mark. by rewrite bool_decide_eq_false_2.
  - intros row Hrow Ht.
    assert (suspended (s_now env) row ∈ mark <$> tenants (db st)) as Hin.
    { apply list_elem_of_fmap. exists row. split; [|done].
      unfold mark. by rewrite bool_decide_eq_true_2. }
    split; [exact Hin|]. intros Hlive.
    destruct (getTenantInfo_found t
                (mkDb (mark <$> tenants (db st)) (tenant_settings (db st))
                   (tenant_quotas (db st)))
                (suspended (s_now env) row))
      as (settings & Hinfo & _); try done.
    + simpl. by rewrite Hsame.
    + eexists. split; [exact Hinfo|]. done.
  - intros Hnone. destruct (db st) as [ts ss qs] eqn:Hdb. simpl in *. f_equal.
    rewrite <- (list_fmap_id ts) at 2.
    apply Forall_fmap_ext, Forall_forall. intros row Hrow. unfold mark.
    rewrite bool_decide_eq_false_2; [done|].
    intros <-. apply Hnone. by apply list_elem_of_fmap_2.
Qed.

Import Samples MoreSamples UuidSamples.

Lemma empty_db_consistent : consistent empty_db.
Proof.
  split; simpl; try apply NoDup_nil_2; intros r Hr; by apply elem_of_nil in Hr.
Qed.

Lemma onboarding_is_not_atomic_witness :
  consistent empty_db ∧
  insert_fault svc_env_settings_lost "tenants" = None ∧
  insert_fault svc_env_settings_lost "tenant_settings"
    = Some "connection terminated" ∧
  createTenant svc_env_settings_lost pro_tenant empty_db
    = (Throw (DbError "connection terminated"), mkDb [acme_row_a] [] []) ∧
  (∃ info, getTenantInfo tenant_a (mkDb [acme_row_a] [] [])
             = (Ok info, mkDb [acme_row_a] [] []) ∧
           name info = "Acme" ∧ status info = "active") ∧
  getQuotas tenant_a (mkDb [acme_row_a] [] [])
    = (Throw (QueryResultError noData), mkDb [acme_row_a] [] []).
Proof.
  pose proof empty_db_consistent as H0.
  assert (∀ p, nt_plan pro_tenant = Some p → p ≠ EmptyString →
               p ∈ valid_plans) as Hplan.
  { intros p Hp _. injection Hp as <-. by_compute. }
  assert (gen_uuid svc_env_settings_lost ∉ t_id <$> tenants empty_db) as Hid
    by by_compute.
  assert (nt_slug pro_tenant ∉ t_slug <$> tenants empty_db) as Hslug
    by by_compute.
  assert (createTenant svc_env_settings_lost pro_tenant empty_db
          = (Throw (DbError "connection terminated"), mkDb [acme_row_a] [] []))
    as Hrun by (vm_compute; reflexivity).
  destruct (onboarding_is_not_atomic svc_env_settings_lost pro_tenant empty_db
              H0 eq_refl eq_refl eq_refl Hplan Hid Hslug eq_refl)
    as (row & srow & _ & _ & _ & _ & _ & Hlost & _ & Hhalf & _).
  specialize (Hlost "connection terminated" eq_refl).
  rewrite Hrun in Hlost. injection Hlost as Hrow. subst row.
  destruct (Hhalf (mkDb [acme_row_a] [] []) (or_introl eq_refl))
    as (_ & Hinfo & Hquota & _).
  split; [exact H0|]. split; [reflexivity|]. split; [reflexivity|].
  split; [exact Hrun|]. split; [exact Hinfo | exact Hquota].
Defined.

Lemma getTenantInfo_lookup_witness :
  Uuid.uuid_text tenant_a ∧ Uuid.uuid_text tenant_b ∧
  NoDup (t_id <$> tenants acme_db_a) ∧ acme_row_a ∈ tenants acme_db_a ∧
  (∃ info, getTenantInfo tenant_a acme_db_a = (Ok info, acme_db_a) ∧
           name info = "Acme" ∧ status info = "active") ∧
  getTenantInfo tenant_b acme_db_a = (Throw (TenantNotFound tenant_b), acme_db_a).
Proof.
  assert (Uuid.uuid_text tenant_a) as Ua by (vm_compute; reflexivity).
  assert (Uuid.uuid_text tenant_b) as Ub by (vm_compute; reflexivity).
  assert (NoDup (t_id <$> tenants acme_db_a)) as H1 by by_compute.
  assert (NoDup (s_tenant_id <$> tenant_settings acme_db_a)) as H2 by by_compute.
  assert (acme_row_a ∈ tenants acme_db_a) as H3 by apply list_elem_of_here.
  assert (∀ row, row ∈ tenants acme_db_a → t_id row = tenant_b →
                 t_deleted_at row ≠ None) as H4.
  { intros row Hrow. apply list_elem_of_singleton in Hrow as ->.
    intros Hb. exfalso. revert Hb. by_compute. }
  split; [exact Ua|]. split; [exact Ub|]. split; [exact H1|].
  split; [exact H3|]. split.
  - destruct (proj1 (getTenantInfo_lookup tenant_a acme_db_a Ua H1 H2) acme_row_a
                H3 eq_refl eq_refl)
      as (info & Hi & _ & Hn & _ & _ & _ & Hst & _).
    exists info. split; [exact Hi|]. split; [exact Hn | exact Hst].
  - exact (proj2 (getTenantInfo_lookup tenant_b acme_db_a Ub H1 H2) H4).
Defined.

Lemma suspendTenant_effect_witness :
  Uuid.uuid_text tenant_a ∧
  NoDup (t_id <$> tenants (db acme_state_a)) ∧
  acme_row_a ∈ tenants (db acme_state_a) ∧
  s_audit_fault suspend_ok = None ∧
  (suspendTenant suspend_ok tenant_a "unpaid" acme_state_a).1
    = Throw (DbError "column of relation audit_logs does not exist") ∧
  suspended (s_now suspend_ok) acme_row_a
    ∈ tenants (db (suspendTenant suspend_ok tenant_a "unpaid" acme_state_a).2).
Proof.
  assert (Uuid.uuid_text tenant_a) as Ua by (vm_compute; reflexivity).
  assert (NoDup (t_id <$> tenants (db acme_state_a))) as H1 by by_compute.
  assert (NoDup (s_tenant_id <$> tenant_settings (db acme_state_a))) as H2
    by by_compute.
  assert (acme_row_a ∈ tenants (db acme_state_a)) as H3
    by apply list_elem_of_here.
  destruct (suspendTenant_effect suspend_ok tenant_a "unpaid" acme_state_a
              Ua H1 H2) as (_ & Hthrow & _ & _ & Hrow & _).
  split; [exact Ua|]. split; [exact H1|]. split; [exact H3|].
  split; [reflexivity|]. split; [exact (Hthrow eq_refl)|].
  exact (proj1 (Hrow acme_row_a H3 eq_refl)).
Defined.

End TenantSvcExtFacts.

Section AccessGuardFacts.
Import TenantExtractor AccessGuard.

Lemma prefix_split (p h : string) :
  String.prefix p h = true →
  h = p +:+ String.substring (String.length p)
              (String.length h - String.length p) h.
Proof.
  revert h. induction p as [|c p IH]; intros h.
  - intros _. simpl. rewrite Nat.sub_0_r. by rewrite substring_all.
  - destruct h as [|d h]; simpl; [done|].
    destruct (Ascii.ascii_dec c d) as [->|]; [|done].
    intros Hp. change (String d h = String d (p +:+ String.substring
      (String.length p) (String.length h - String.length p) h)).
    f_equal. by apply IH.
Qed.

(** X20. Requests without a bearer credential.  A request with no
    Authorization header, or with one that does not start with the exact
    text Bearer followed by a space, is passed on by the extractor without
    a tenant context and without any check of the header; each of the
    three guards then answers it with 401 TENANT_REQUIRED, whatever roles
    or permissions it was asked for. *)
Theorem anonymous_requests decode clock secret authorization :
  (∀ h, authorization = Some h → String.prefix "Bearer " h = false) →
  tenantExtractorMiddleware decode clock secret authorization = Next None ∧
  requireTenantContext None
    = Json 401 "TENANT_REQUIRED"
        "No tenant context found. Authentication required." ∧
  (∀ roles, requireRole roles None
              = Json 401 "TENANT_REQUIRED" "No tenant context found") ∧
  (∀ perms, requirePermission perms None
              = Json 401 "TENANT_REQUIRED" "No tenant context found").
Proof.
  intros H. split; [|done]. unfold tenantExtractorMiddleware.
  destruct authorization as [h|]; [|done]. by rewrite (H h eq_refl).
Qed.

(** X21. Where a tenant context comes from.  Whenever the extractor
    attaches a context, the header was Bearer plus a token that decodes,
    was signed with the configured, non-empty secret, is past its
    not-before time and before its expiry; the context's tenant is not
    empty, its user is the subject and its expiry the token's. *)
Theorem context_is_authentic decode clock secret authorization ctx :
  tenantExtractorMiddleware decode clock secret authorization
    = Next (Some ctx) →
  ∃ token jwt,
    authorization = Some ("Bearer " +:+ token) ∧
    decode token = Some jwt ∧
    signed_with jwt = secret ∧ secret ≠ EmptyString ∧
    (∀ e, exp (claims jwt) = Some e → clock < e) ∧
    (∀ n, nbf (claims jwt) = Some n → n ≤ clock) ∧
    tenantId ctx ≠ EmptyString ∧
    userId ctx = sub (claims jwt) ∧
    expiresAt ctx = exp (claims jwt).
Proof.
  unfold tenantExtractorMiddleware.
  destruct authorization as [h|]; [|done].
  destruct (String.prefix "Bearer " h) eqn:Hp; simpl; [|done].
  apply prefix_split in Hp. simpl in Hp.
  set (token := String.substring 7 (String.length h - 7) h) in *.
  unfold verify. case_bool_decide as Hs; [by unfold on_error|].
  destruct (decode token) as [jwt|] eqn:Hd; [|by unfold on_error].
  case_bool_decide as Hk; simpl; [|by unfold on_error].
  destruct (nbf (claims jwt)) as [n|] eqn:Hn;
    [destruct (clock <? n) eqn:En; [by unfold on_error|]|];
    (destruct (exp (claims jwt)) as [e|] eqn:He;
       [destruct (e <=? clock) eqn:Ee; [by unfold on_error|]|]);
    (case_bool_decide as Ht; [done|]); intros [= <-]; simpl;
    exists token, jwt; rewrite Hp at 1; split_and!; try done;
    intros x Hx; rewrite ?He, ?Hn in Hx; simplify_eq; lia.
Qed.

Lemma first_segment_app (t rest : string) :
  (∀ c, c ∈ String.list_ascii_of_string t → c ≠ pipe) →
  first_segment (t +:+ String pipe rest) = t.
Proof.
  induction t as [|c t IH]; intros H.
  - change (first_segment (String pipe rest) = EmptyString).
    cbn [first_segment]. by rewrite Ascii.eqb_refl.
  - change (first_segment (String c (t +:+ String pipe rest)) = String c t).
    cbn [first_segment].
    rewrite (proj2 (Ascii.eqb_neq c pipe)) by (apply H; by left).
    f_equal. apply IH. intros d Hd. apply H. by right.
Qed.

(** X22. Which tenant a verified token names.  For a token that
    [jwt.verify] accepts: a non-empty tenant_id claim is the tenant,
    whatever the subject says; without it the tenant is the part of the
    subject before the first bar; when that is empty too the request is
    answered 401 INVALID_TOKEN.  A missing plan, role or permission list
    becomes free, user and the empty list. *)
Theorem tenant_of_verified_token decode clock secret token decoded :
  verify decode clock token secret = inr decoded →
  let run := tenantExtractorMiddleware decode clock secret
               (Some ("Bearer " +:+ token)) in
  (∀ t, tenant_id decoded = Some t → t ≠ EmptyString →
     ∃ ctx, run = Next (Some ctx) ∧ tenantId ctx = t) ∧
  (∀ t rest,
     str_or (tenant_id decoded) EmptyString = EmptyString →
     sub decoded = Some (t +:+ String pipe rest) →
     (∀ c, c ∈ String.list_ascii_of_string t → c ≠ pipe) → t ≠ EmptyString →
     ∃ ctx, run = Next (Some ctx) ∧ tenantId ctx = t) ∧
  (str_or (tenant_id decoded) EmptyString = EmptyString →
   default EmptyString (first_segment <$> sub decoded) = EmptyString →
   run = Json 401 "INVALID_TOKEN" "Token does not contain tenant_id") ∧
  (∀ ctx, run = Next (Some ctx) →
     (plan decoded = None → ctx_plan ctx = "free") ∧
     (role decoded = None → ctx_role ctx = "user") ∧
     (permissions decoded = None → ctx_permissions ctx = [])).
Proof.
  intros Hv run. unfold run, tenantExtractorMiddleware.
  destruct (bearer_token token) as [-> ->]. simpl. rewrite Hv.
  split_and!.
  - intros t Ht Hne. rewrite Ht. simpl. rewrite decide_False by done.
    rewrite bool_decide_eq_false_2 by done. eauto.
  - intros t rest Hclaim Hsub Hpipe Hne.
    assert (str_or (tenant_id decoded)
              (default EmptyString (first_segment <$> sub decoded)) = t) as ->.
    { rewrite Hsub. simpl. rewrite first_segment_app by done.
      unfold str_or in *. destruct (tenant_id decoded) as [c|]; [|done].
      by destruct (decide (c = EmptyString)). }
    rewrite bool_decide_eq_false_2 by done. eauto.
  - intros Hclaim Hsub.
    assert (str_or (tenant_id decoded)
              (default EmptyString (first_segment <$> sub decoded))
            = EmptyString) as ->; [|done].
    rewrite Hsub. exact Hclaim.
  - intros ctx. case_bool_decide; [done|]. intros [= <-]. simpl.
    split_and!; by intros ->.
Qed.

(** X23. The role and permission guards.  With a context attached,
    [requireRole] lets the request through exactly when the context's role
    is one of the allowed roles, and [requirePermission] exactly when the
    context holds at least one of the required permissions; every other
    request is answered 403 INSUFFICIENT_PERMISSIONS.  The role plays no
    part in the permission check, so a context without permissions is
    always refused, and an empty list of allowed roles or of required
    permissions refuses everyone. *)
Theorem role_and_permission_guards (ctx : TenantContext) :
  (∀ roles, requireRole roles (Some ctx) = Next (Some ctx)
            ↔ ctx_role ctx ∈ roles) ∧
  (∀ roles, ctx_role ctx ∉ roles →
     ∃ msg, requireRole roles (Some ctx)
              = Json 403 "INSUFFICIENT_PERMISSIONS" msg) ∧
  (∀ perms, requirePermission perms (Some ctx) = Next (Some ctx)
            ↔ ∃ p, p ∈ perms ∧ p ∈ ctx_permissions ctx) ∧
  (∀ perms, (∀ p, p ∈ perms → p ∉ ctx_permissions ctx) →
     ∃ msg, requirePermission perms (Some ctx)
              = Json 403 "INSUFFICIENT_PERMISSIONS" msg) ∧
  (ctx_permissions ctx = [] →
   ∀ perms, ∃ msg, requirePermission perms (Some ctx)
                     = Json 403 "INSUFFICIENT_PERMISSIONS" msg).
Proof.
  assert (∀ perms,
            existsb (λ perm, bool_decide (perm ∈ ctx_permissions ctx)) perms
            = true ↔ ∃ p, p ∈ perms ∧ p ∈ ctx_permissions ctx) as Hex.
  { intros perms. rewrite existsb_exists. split.
    - intros (p & Hin & Hp). exists p. split; [by apply list_elem_of_In|].
      by apply bool_decide_eq_true in Hp.
    - intros (p & Hin & Hp). exists p. split; [by apply list_elem_of_In|].
      by apply bool_decide_eq_true. }
  assert (∀ perms, (∀ p, p ∈ perms → p ∉ ctx_permissions ctx) →
            ∃ msg, requirePermission perms (Some ctx)
                     = Json 403 "INSUFFICIENT_PERMISSIONS" msg) as Hdeny.
  { intros perms Hnone. unfold requirePermission.
    destruct (existsb _ perms) eqn:E; simpl; [|eauto].
    apply Hex in E as (p & Hin & Hp). by destruct (Hnone p Hin). }
  split_and!.
  - intros roles. unfold requireRole. case_bool_decide; simpl; split; done.
  - intros roles Hr. unfold requireRole.
    rewrite bool_decide_eq_false_2 by done. simpl. eauto.
  - intros perms. rewrite <- Hex. unfold requirePermission.
    destruct (existsb _ perms); simpl; split; done.
  - exact Hdeny.
  - intros Hnil perms. apply Hdeny. intros p _. rewrite Hnil.
    apply not_elem_of_nil.
Qed.

(** X24. Issue, then verify.  A token issued for a context with a
    non-empty tenant, under a non-empty secret and a span the package can
    read, is accepted by the extractor under the same secret at any time
    from issue until just before the span has passed, over any wire
    format that decodes what it encodes.  The context that comes back has
    the tenant, user, tenant name, role, permissions and plan of the
    original (an empty role or plan becoming user or free), the issue and
    expiry times stamped by the signer, and no metadata.  The wire format
    only has to give back the token that was signed. *)
Theorem issued_token_is_accepted encode decode timespan (issued later span : Z)
    (ctx : TenantContext) (secret expiresIn : string) :
  (∀ jwt, sign timespan issued (jwtPayload ctx) secret expiresIn = Some jwt →
          decode (encode jwt) = Some jwt) →
  secret ≠ EmptyString → tenantId ctx ≠ EmptyString →
  timespan expiresIn = Some span →
  issued ≤ later < issued + span →
  ∃ token,
    generateTenantToken encode timespan issued ctx secret expiresIn
      = Some token ∧
    tenantExtractorMiddleware decode later secret (Some ("Bearer " +:+ token))
      = Next (Some (mkContext (tenantId ctx) (userId ctx) (tenantName ctx)
                      (str_or (Some (ctx_plan ctx)) "free")
                      (str_or (Some (ctx_role ctx)) "user")
                      (ctx_permissions ctx)
                      (Some issued) (Some (issued + span)) None)).
Proof.
  intros Hwire Hs Ht Hspan Hat. revert Hwire.
  unfold generateTenantToken, sign, jwtPayload.
  rewrite (bool_decide_eq_false_2 _ Hs), Hspan. intros Hwire.
  specialize (Hwire _ eq_refl).
  cbn [fmap option_fmap option_map].
  eexists. split; [reflexivity|].
  set (tok := encode _).
  unfold tenantExtractorMiddleware.
  destruct (bearer_token tok) as [-> ->]. cbn [negb].
  unfold verify, tok.
  rewrite (bool_decide_eq_false_2 _ Hs), Hwire. simpl.
  rewrite bool_decide_eq_true_2 by done. simpl.
  replace (issued + span <=? later) with false by lia. simpl.
  rewrite !(decide_False (P := tenantId ctx = EmptyString)) by done.
  by rewrite bool_decide_eq_false_2 by done.
Qed.

Import Samples MoreSamples.

Lemma anonymous_requests_witness :
  (∀ h, Some "bearer k1.2000" = Some h → String.prefix "Bearer " h = false) ∧
  tenantExtractorMiddleware sample_decode 1500 "k1" (Some "bearer k1.2000")
    = Next None.
Proof.
  assert (∀ h, Some "bearer k1.2000" = Some h →
               String.prefix "Bearer " h = false) as H
    by (intros h [= <-]; reflexivity).
  split; [exact H|].
  exact (proj1 (anonymous_requests sample_decode 1500 "k1"
                  (Some "bearer k1.2000") H)).
Defined.

Lemma context_is_authentic_witness :
  tenantExtractorMiddleware sample_decode 1500 "k1" (Some "Bearer k1.2000")
    = Next (Some sample_context) ∧
  ∃ token jwt,
    Some "Bearer k1.2000" = Some ("Bearer " +:+ token) ∧
    sample_decode token = Some jwt ∧ signed_with jwt = "k1".
Proof.
  assert (tenantExtractorMiddleware sample_decode 1500 "k1"
            (Some "Bearer k1.2000") = Next (Some sample_context)) as H
    by reflexivity.
  split; [exact H|].
  destruct (context_is_authentic sample_decode 1500 "k1"
              (Some "Bearer k1.2000") sample_context H)
    as (token & jwt & H1 & H2 & H3 & _).
  exists token, jwt. split; [exact H1|]. split; [exact H2 | exact H3].
Defined.

Lemma tenant_of_verified_token_witness :
  verify sample_decode 1500 "k1.2000" "k1" = inr (claims expired_jwt) ∧
  ∃ ctx, tenantExtractorMiddleware sample_decode 1500 "k1"
           (Some ("Bearer " +:+ "k1.2000")) = Next (Some ctx) ∧
         tenantId ctx = "T1".
Proof.
  assert (verify sample_decode 1500 "k1.2000" "k1" = inr (claims expired_jwt))
    as H by reflexivity.
  split; [exact H|].
  apply (proj1 (tenant_of_verified_token sample_decode 1500 "k1" "k1.2000"
                  (claims expired_jwt) H) "T1"); [reflexivity|discriminate].
Defined.

Lemma role_and_permission_guards_witness :
  (ctx_role sample_context ∉ ["manager"]) ∧
  ∃ msg, requireRole ["manager"] (Some sample_context)
           = Json 403 "INSUFFICIENT_PERMISSIONS" msg.
Proof.
  assert (ctx_role sample_context ∉ ["manager"]) as H by by_compute.
  split; [exact H|].
  exact (proj1 (proj2 (role_and_permission_guards sample_context))
           ["manager"] H).
Defined.

Lemma issued_token_is_accepted_witness :
  sample_timespan "1h" = Some 3600 ∧ 1000 ≤ 2000 < 1000 + 3600 ∧
  ∃ token,
    generateTenantToken sample_encode sample_timespan 1000 sample_context
      "k1" "1h" = Some token ∧
    tenantExtractorMiddleware wire_decode 2000 "k1" (Some ("Bearer " +:+ token))
      = Next (Some (mkContext "T1" (Some "T1|u7") None "free" "admin" []
                      (Some 1000) (Some 4600) None)).
Proof.
  assert (∀ jwt, sign sample_timespan 1000 (jwtPayload sample_context) "k1"
                   "1h" = Some jwt →
                 wire_decode (sample_encode jwt) = Some jwt) as H1
    by (intros jwt [= <-]; reflexivity).
  assert (1000 ≤ 2000 < 1000 + 3600) as H2 by lia.
  split; [reflexivity|]. split; [exact H2|].
  apply (issued_token_is_accepted sample_encode wire_decode sample_timespan
           1000 2000 3600 sample_context "k1" "1h" H1);
    [discriminate | discriminate | reflexivity | exact H2].
Defined.

End AccessGuardFacts.

(** ** BaseRepository: the two backends *)

Section BaseRepoMore.
Import BaseRepo.
Context {T : Type}.

Lemma filter_other_fresh (item_id : T → string) (id : string) (l : list T) :
  id ∉ item_id <$> l →
  filter (λ item, negb (bool_decide (item_id item = id))) l = l.
Proof.
  induction l as [|a l IH]; intros Hfresh; [done|].
  rewrite fmap_cons in Hfresh. apply not_elem_of_cons in Hfresh as [Hne Hfresh].
  rewrite filter_cons. rewrite bool_decide_eq_false_2 by congruence. simpl.
  by rewrite IH.
Qed.

Lemma remove_first_spec (item_id : T → string) (id : string) (l : list T) :
  NoDup (item_id <$> l) →
  match remove_first item_id id l with
  | Some l' =>
      l' = filter (λ item, negb (bool_decide (item_id item = id))) l ∧
      id ∈ item_id <$> l ∧ length l = S (length l')
  | None =>
      filter (λ item, negb (bool_decide (item_id item = id))) l = l ∧
      (id ∉ item_id <$> l)
  end.
Proof.
  induction l as [|a l IH]; intros Hnd.
  - simpl. split; [done | apply not_elem_of_nil].
  - rewrite fmap_cons in Hnd. apply NoDup_cons in Hnd as [Hfresh Hnd].
    specialize (IH Hnd). simpl remove_first. rewrite filter_cons.
    case_bool_decide as Ha.
    + simpl. subst id. split_and!.
      * symmetry. by apply filter_other_fresh.
      * rewrite ?fmap_cons. apply elem_of_cons. by left.
      * done.
    + simpl. destruct (remove_first item_id id l) as [l'|]; simpl.
      * destruct IH as (-> & Hin & Hlen). split_and!.
        -- done.
        -- rewrite ?fmap_cons. apply elem_of_cons. by right.
        -- simpl. by rewrite Hlen.
      * destruct IH as [Hf Hnot]. split.
        -- by rewrite Hf.
        -- rewrite ?fmap_cons. apply not_elem_of_cons. split; [congruence | done].
Qed.

Lemma filter_id_removed (item_id : T → string) (id : string) (l : list T) :
  filter (λ item, bool_decide (item_id item = id))
    (filter (λ item, negb (bool_decide (item_id item = id))) l) = [].
Proof.
  induction l as [|a l IH]; [done|].
  rewrite filter_cons. case_bool_decide as Ha; simpl; [done|].
  rewrite filter_cons. by rewrite bool_decide_eq_false_2.
Qed.

Lemma stored_id_spelling (item_id : T → string) (l : list T) (id : string)
    (u : option string) :
  Forall (λ x, Uuid.uuid_text (item_id x)) l →
  Uuid.uuid_in id = u → u ≠ Some id → id ∉ item_id <$> l.
Proof.
  intros Hl Hu Hne (x & -> & Hx)%list_elem_of_fmap.
  rewrite Forall_forall in Hl. specialize (Hl x Hx).
  unfold Uuid.uuid_text in Hl. congruence.
Qed.

Lemma remove_first_absent (item_id : T → string) (l : list T) (id : string) :
  NoDup (item_id <$> l) → id ∉ item_id <$> l →
  remove_first item_id id l = None.
Proof.
  intros Hnd Hnot. pose proof (remove_first_spec item_id id l Hnd) as Hspec.
  destruct (remove_first item_id id l); [|done].
  by destruct Hspec as (_ & Hin & _).
Qed.

(** X25. Where the two backends agree on delete, and where they do not.
    The stored records have distinct ids, each UUID text in the server's
    spelling.  For an id in that spelling, delete gives the same answer
    and leaves the same records in memory mode and in relational mode:
    the answer is true exactly when the id was stored, the record is gone
    afterwards, and the count drops by one in that case and not
    otherwise.  For text that is not a UUID, memory mode answers false
    where the relational branch throws the server's refusal.  For
    another spelling of a stored id, memory mode answers false and keeps
    the record that the relational branch deletes. *)
Theorem delete_backends_agree (item_id : T → string) (l : list T) (id : string) :
  NoDup (item_id <$> l) →
  Forall (λ x, Uuid.uuid_text (item_id x)) l →
  let m := delete item_id id (mkState true l []) in
  let p := delete item_id id (mkState false [] l) in
  (Uuid.uuid_text id →
   m.1 = p.1 ∧ memoryStore m.2 = table p.2 ∧
   (m.1 = Ok true ↔ id ∈ item_id <$> l) ∧
   (findById item_id id m.2).1 = Ok None ∧
   (findById item_id id p.2).1 = Ok None ∧
   (count m.2).1
     = Ok (Z.of_nat (length l) - if decide (id ∈ item_id <$> l) then 1 else 0)) ∧
  (Uuid.uuid_in id = None →
   m = (Ok false, mkState true l []) ∧
   ∃ e, p = (Throw e, mkState false [] l)) ∧
  (∀ u, Uuid.uuid_in id = Some u → u ≠ id → u ∈ item_id <$> l →
     m = (Ok false, mkState true l []) ∧ p.1 = Ok true ∧
     (u ∉ item_id <$> table p.2)).
Proof.
  intros Hnd Hl m p. subst m p. split_and!.
  - intros Hid. unfold Uuid.uuid_text in Hid.
    pose proof (remove_first_spec item_id id l Hnd) as Hspec.
    pose proof (filter_id_removed item_id id l) as Hgone.
    unfold delete, findById, count. cbn [isMemoryMode memoryStore table].
    rewrite Hid.
    destruct (remove_first item_id id l) as [l'|].
    + destruct Hspec as (Hl' & Hin & Hlen).
      cbn [fst snd isMemoryMode memoryStore table].
      rewrite ?Hid. rewrite <- Hl' in *. rewrite Hgone.
      rewrite decide_True by done.
      split_and!; try done.
      * f_equal. symmetry. apply Z.ltb_lt. lia.
      * f_equal. lia.
    + destruct Hspec as [Hf Hnot].
      cbn [fst snd isMemoryMode memoryStore table].
      rewrite ?Hid. rewrite Hf in *. rewrite decide_False by done.
      rewrite <- Hf at 3 4. rewrite Hgone.
      split_and!; try done.
      * f_equal. symmetry. apply Z.ltb_ge. lia.
      * f_equal. lia.
  - intros Hbad.
    assert (id ∉ item_id <$> l) as Hnot
      by (by apply (stored_id_spelling item_id l id None)).
    unfold delete. cbn [isMemoryMode memoryStore table].
    rewrite (remove_first_absent item_id l id Hnd Hnot), Hbad. eauto.
  - intros u Hu Hne Hin.
    assert (id ∉ item_id <$> l) as Hnot.
    { apply (stored_id_spelling item_id l id (Some u)); [done..|congruence]. }
    pose proof (remove_first_spec item_id u l Hnd) as Hspec.
    pose proof (filter_id_removed item_id u l) as Hgone.
    unfold delete. cbn [isMemoryMode memoryStore table].
    rewrite (remove_first_absent item_id l id Hnd Hnot), Hu.
    cbn [fst snd table].
    destruct (remove_first item_id u l) as [l'|]; [|by destruct Hspec].
    destruct Hspec as (Hl' & _ & Hlen). rewrite <- Hl'.
    split_and!; [done | |].
    + f_equal. apply Z.ltb_lt. lia.
    + intros (x & -> & Hx)%list_elem_of_fmap.
      assert (x ∈ filter (λ item, bool_decide (item_id item = item_id x)) l')
        as Hx' by (apply list_elem_of_filter; split;
                   [by apply bool_decide_pack | done]).
      rewrite Hl', Hgone in Hx'. by apply elem_of_nil in Hx'.
Qed.

End BaseRepoMore.

Section BaseRepoMoreSamples.
Import BaseRepo Samples UuidSamples.

Lemma delete_backends_agree_witness :
  NoDup (o_id <$> uuid_orders) ∧
  Forall (λ x, Uuid.uuid_text (o_id x)) uuid_orders ∧
  Uuid.uuid_text id_x ∧ Uuid.uuid_in "o1" = None ∧
  Uuid.uuid_in id_x_capitals = Some id_x ∧
  (delete o_id id_x (mkState true uuid_orders [])).1 = Ok true ∧
  (delete o_id id_x (mkState false [] uuid_orders)).1 = Ok true ∧
  delete o_id "o1" (mkState true uuid_orders [])
    = (Ok false, mkState true uuid_orders []) ∧
  (∃ e, delete o_id "o1" (mkState false [] uuid_orders)
        = (Throw e, mkState false [] uuid_orders)) ∧
  delete o_id id_x_capitals (mkState true uuid_orders [])
    = (Ok false, mkState true uuid_orders []) ∧
  (delete o_id id_x_capitals (mkState false [] uuid_orders)).1 = Ok true.
Proof.
  assert (NoDup (o_id <$> uuid_orders)) as H1 by by_compute.
  assert (Forall (λ x, Uuid.uuid_text (o_id x)) uuid_orders) as H2
    by (repeat constructor; vm_compute; reflexivity).
  assert (Uuid.uuid_text id_x) as H3 by (vm_compute; reflexivity).
  assert (Uuid.uuid_in "o1" = None) as H4 by (vm_compute; reflexivity).
  assert (Uuid.uuid_in id_x_capitals = Some id_x) as H5
    by (vm_compute; reflexivity).
  assert (id_x ≠ id_x_capitals) as H6 by by_compute.
  assert (id_x ∈ o_id <$> uuid_orders) as H7 by by_compute.
  destruct (delete_backends_agree o_id uuid_orders id_x H1 H2)
    as (Hsame & _ & _).
  destruct (Hsame H3) as (Heq & _ & Hiff & _).
  destruct (delete_backends_agree o_id uuid_orders "o1" H1 H2)
    as (_ & Hbad & _).
  destruct (delete_backends_agree o_id uuid_orders id_x_capitals H1 H2)
    as (_ & _ & Hother).
  destruct (Hother id_x H5 H6 H7) as (Hm & Hp & _).
  split; [exact H1|]. split; [exact H2|]. split; [exact H3|].
  split; [exact H4|]. split; [exact H5|].
  split; [exact (proj2 Hiff H7)|].
  split; [rewrite <- Heq; exact (proj2 Hiff H7)|].
  split; [exact (proj1 (Hbad H4))|]. split; [exact (proj2 (Hbad H4))|].
  split; [exact Hm | exact Hp].
Defined.

End BaseRepoMoreSamples.

(** ** The orders service and its controllers *)

Section OrdersFacts.
Import OrdersService OrdersController OrdersHistory.

Lemma find_first_cons {A} (p : A → bool) (a : A) (l : list A) :
  find_first p (a :: l) = if p a then Some a else find_first p l.
Proof.
  unfold find_first. rewrite filter_cons. by destruct (p a).
Qed.

Lemma find_first_app {A} (p : A → bool) (l : list A) (b : A) :
  find_first p (l ++ [b])
  = match find_first p l with
    | Some a => Some a
    | None => if p b then Some b else None
    end.
Proof.
  induction l as [|a l IH].
  - simpl. rewrite find_first_cons. by destruct (p b).
  - simpl. rewrite !find_first_cons. by destruct (p a).
Qed.

Lemma find_first_fresh {A} (key : A → string) (k : string) (l : list A) :
  k ∉ key <$> l → find_first (λ a, bool_decide (key a = k)) l = None.
Proof.
  induction l as [|a l IH]; intros Hfresh; [done|].
  rewrite fmap_cons in Hfresh. apply not_elem_of_cons in Hfresh as [Hne Hfresh].
  rewrite find_first_cons. rewrite bool_decide_eq_false_2 by congruence. auto.
Qed.

Lemma find_first_holds {A} (p : A → bool) (l : list A) (a : A) :
  find_first p l = Some a → p a = true.
Proof.
  induction l as [|b l IH]; [done|].
  rewrite find_first_cons. destruct (p b) eqn:Hb; [|done].
  by intros [= <-].
Qed.

Lemma getOrder_fresh (i : string) (st : State) :
  i ∉ id <$> orders st → getOrder i st = None.
Proof. intros Hfresh. by apply (find_first_fresh id). Qed.

Lemma update_first_miss {A} (p : A → bool) (f : A → A) (l : list A) :
  find_first p l = None → update_first p f l = (None, l).
Proof.
  induction l as [|a l IH]; [done|].
  rewrite find_first_cons. simpl. destruct (p a); [done|].
  intros Hnone. by rewrite (IH Hnone).
Qed.

Lemma update_first_hit {A} (p : A → bool) (f : A → A) (l : list A) (a : A) :
  find_first p l = Some a → p (f a) = true →
  (update_first p f l).1 = Some (f a) ∧
  find_first p (update_first p f l).2 = Some (f a) ∧
  length (update_first p f l).2 = length l.
Proof.
  intros Hfind Hp. induction l as [|b l IH]; [done|].
  rewrite find_first_cons in Hfind. simpl. destruct (p b) eqn:Hb.
  - injection Hfind as ->. simpl. rewrite find_first_cons, Hp. done.
  - specialize (IH Hfind). destruct (update_first p f l) as [r l'].
    simpl in *. rewrite find_first_cons, Hb. destruct IH as (? & ? & ?).
    split_and!; [done | done | congruence].
Qed.

Lemma update_first_app_fresh {A} (p : A → bool) (f : A → A) (l : list A) (b : A) :
  find_first p l = None → p b = true →
  update_first p f (l ++ [b]) = (Some (f b), l ++ [f b]).
Proof.
  intros Hnone Hp. induction l as [|a l IH]; simpl.
  - by rewrite Hp.
  - rewrite find_first_cons in Hnone. destruct (p a); [done|].
    by rewrite (IH Hnone).
Qed.

Lemma kept_refl {A} (R : A → A → Prop) (l : list A) :
  (∀ a, R a a) → kept R l l.
Proof. intros HR k a Hk. eauto. Qed.

Lemma kept_trans {A} (R : A → A → Prop) (l1 l2 l3 : list A) :
  (∀ a b c, R a b → R b c → R a c) →
  kept R l1 l2 → kept R l2 l3 → kept R l1 l3.
Proof.
  intros HR H12 H23 k a Hk.
  destruct (H12 k a Hk) as (b & Hb & Rab).
  destruct (H23 k b Hb) as (c & Hc & Rbc). eauto.
Qed.

Lemma kept_app {A} (R : A → A → Prop) (l : list A) (b : A) :
  (∀ a, R a a) → kept R l (l ++ [b]).
Proof.
  intros HR k a Hk. exists a. split; [|done].
  by apply lookup_app_l_Some.
Qed.

Lemma kept_update_first {A} (R : A → A → Prop) (p : A → bool) (f : A → A)
    (l : list A) :
  (∀ a, R a a) → (∀ a, R a (f a)) → kept R l (update_first p f l).2.
Proof.
  intros HR Hf. induction l as [|a l IH]; [done|].
  simpl. destruct (p a).
  - intros [|k] x Hk; simpl in *.
    + injection Hk as <-. eauto.
    + eauto.
  - destruct (update_first p f l) as [r l']. simpl in *.
    intros [|k] x Hk; simpl in *.
    + injection Hk as <-. eauto.
    + by apply IH.
Qed.

Lemma has_id_of_found (i : string) (st : State) (o : Order) :
  getOrder i st = Some o → id o = i.
Proof.
  intros Hfind%find_first_holds. unfold has_id in Hfind.
  by apply bool_decide_eq_true_1 in Hfind.
Qed.

Lemma updateOrderStatus_hit (now : Z) (i : string) (s : Value) (st : State)
    (o : Order) :
  getOrder i st = Some o →
  let o' := mkOrder (id o) (userId o) (ticketId o) (quantity o) (totalAmount o)
              s (nftTokenIds o) (createdAt o) now in
  ∃ l, OrdersService.updateOrderStatus now i s st
       = (Some o', mkState l (payments st) (nftTransactions st)) ∧
       find_first (has_id i) l = Some o' ∧ length l = length (orders st).
Proof.
  intros Hfind o'. unfold OrdersService.updateOrderStatus.
  match goal with
  | |- context [update_first _ ?f _] =>
      destruct (update_first_hit (has_id i) f (orders st) o Hfind)
        as (Hr & Hf & Hlen)
  end.
  { unfold has_id. cbn [id]. apply bool_decide_eq_true_2.
    by apply (has_id_of_found i st). }
  destruct (update_first _ _ (orders st)) as [r l]. simpl in Hr, Hf, Hlen.
  subst r. by exists l.
Qed.

Lemma updateOrderStatus_miss (now : Z) (i : string) (s : Value) (st : State) :
  getOrder i st = None → OrdersService.updateOrderStatus now i s st = (None, st).
Proof.
  intros Hfind. unfold OrdersService.updateOrderStatus.
  rewrite update_first_miss by done. by destruct st.
Qed.

Lemma addNFTTokenToOrder_hit (now : Z) (i : string) (tok : Value) (st : State)
    (o : Order) :
  getOrder i st = Some o →
  let o' := mkOrder (id o) (userId o) (ticketId o) (quantity o) (totalAmount o)
              (status o) (nftTokenIds o ++ [tok]) (createdAt o) now in
  ∃ l, addNFTTokenToOrder now i tok st
       = (Some o', mkState l (payments st) (nftTransactions st)) ∧
       find_first (has_id i) l = Some o' ∧ length l = length (orders st).
Proof.
  intros Hfind o'. unfold addNFTTokenToOrder.
  match goal with
  | |- context [update_first _ ?f _] =>
      destruct (update_first_hit (has_id i) f (orders st) o Hfind)
        as (Hr & Hf & Hlen)
  end.
  { unfold has_id. cbn [id]. apply bool_decide_eq_true_2.
    by apply (has_id_of_found i st). }
  destruct (update_first _ _ (orders st)) as [r l]. simpl in Hr, Hf, Hlen.
  subst r. by exists l.
Qed.

Lemma given_prefixed (c : Ascii.ascii) (pre s : string) :
  given (Some (String c pre +:+ s)) = true.
Proof. done. Qed.

(** X26.  A create request whose four fields are all present and truthy
    is answered 201 with a pending order without tokens carrying the
    drawn identifier; when that identifier is not already stored, a GET
    of it returns this order, and a GET of any other identifier answers
    as before. *)
Theorem order_round_trip (d : Draw) (b : Row) (st : State) :
  truthy (b !! "userId") → truthy (b !! "ticketId") →
  truthy (b !! "quantity") → truthy (b !! "totalAmount") →
  uuid d ∉ id <$> orders st →
  let o := mkOrder (uuid d) (field b "userId") (field b "ticketId")
             (field b "quantity") (field b "totalAmount") (VStr "pending") []
             (t1 d) (t2 d) in
  let st' := (createOrder d b st).2 in
  (createOrder d b st).1 = mkResponse 201 (OrderBody o) ∧
  orders st' = orders st ++ [o] ∧
  getOrderHandler (uuid d) st' = (mkResponse 200 (OrderBody o), st') ∧
  ∀ i, i ≠ uuid d → (getOrderHandler i st').1 = (getOrderHandler i st).1.
Proof.
  intros H1%Is_true_eq_true H2%Is_true_eq_true H3%Is_true_eq_true
    H4%Is_true_eq_true Hfresh o st'.
  assert (createOrder d b st
          = (mkResponse 201 (OrderBody o),
             mkState (orders st ++ [o]) (payments st) (nftTransactions st)))
    as Hrun.
  { unfold createOrder. by rewrite H1, H2, H3, H4. }
  subst st'. rewrite Hrun. cbn [fst snd orders].
  split_and!; try done.
  - unfold getOrderHandler, getOrder. cbn [orders].
    rewrite find_first_app.
    fold (getOrder (uuid d) st). rewrite getOrder_fresh by done.
    unfold has_id at 1. cbn [id o]. by rewrite bool_decide_eq_true_2.
  - intros i Hi. unfold getOrderHandler, getOrder. cbn [orders].
    rewrite find_first_app.
    destruct (find_first (has_id i) (orders st)); [done|].
    unfold has_id at 1. cbn [id o]. by rewrite bool_decide_eq_false_2.
Qed.

(** X27.  Every request is answered 200, 201, 400 or 404, and a request
    answered 400 or 404 leaves the three stores as they were. *)
Theorem rejected_requests_change_nothing (d : Draw) (req : Request) (st : State) :
  code (router d req st).1 ∈ [200; 201; 400; 404] ∧
  (code (router d req st).1 = 400 ∨ code (router d req st).1 = 404 →
   (router d req st).2 = st).
Proof.
  assert (∀ c : Z, c = 200 ∨ c = 201 ∨ c = 400 ∨ c = 404 →
                   c ∈ [200; 201; 400; 404]) as Hin.
  { intros c Hc. rewrite !elem_of_cons. tauto. }
  destruct req as [b|i|u|i b|i b|i|i b|i]; cbn [router].
  - unfold createOrder.
    destruct (negb (truthy (b !! "userId")) || negb (truthy (b !! "ticketId"))
              || negb (truthy (b !! "quantity"))
              || negb (truthy (b !! "totalAmount"))); cbn.
    + split; [apply Hin; tauto | done].
    + split; [apply Hin; tauto | intros [?|?]; done].
  - unfold getOrderHandler. destruct (getOrder i st); cbn.
    + split; [apply Hin; tauto | done].
    + split; [apply Hin; tauto | done].
  - cbn. split; [apply Hin; tauto | done].
  - unfold updateOrderStatus.
    destruct (negb (truthy (b !! "status"))); cbn.
    { split; [apply Hin; tauto | done]. }
    destruct (getOrder i st) as [o|] eqn:Hfind.
    + destruct (updateOrderStatus_hit (t1 d) i (field b "status") st o Hfind)
        as (l & -> & _). cbn.
      split; [apply Hin; tauto | intros [?|?]; done].
    + rewrite updateOrderStatus_miss by done. cbn.
      split; [apply Hin; tauto | done].
  - unfold processPayment.
    destruct (negb (truthy (b !! "amount")) || negb (truthy (b !! "currency"))
              || negb (truthy (b !! "paymentMethod"))); cbn.
    { split; [apply Hin; tauto | done]. }
    destruct (getOrder i st); cbn.
    + split; [apply Hin; tauto | intros [?|?]; done].
    + split; [apply Hin; tauto | done].
  - cbn. split; [apply Hin; tauto | done].
  - unfold mintNFT.
    destruct (negb (truthy (b !! "contractAddress"))
              || negb (truthy (b !! "recipientAddress"))
              || negb (truthy (b !! "tokenId"))); cbn.
    { split; [apply Hin; tauto | done]. }
    destruct (getOrder i st); cbn.
    + split; [apply Hin; tauto | intros [?|?]; done].
    + split; [apply Hin; tauto | done].
  - cbn. split; [apply Hin; tauto | done].
Qed.


(** X28.  A payment request with its three fields truthy, for a stored
    order and with a payment identifier not yet in use, is answered 201:
    one payment is appended, already succeeded and carrying the charge
    reference built from the first eight characters of its identifier; the
    order is now completed, its other fields but updatedAt as before; the
    order's payments are the earlier ones followed by the new one. *)
Theorem processPayment_settles (d : Draw) (i : string) (b : Row) (st : State)
    (o : Order) :
  truthy (b !! "amount") → truthy (b !! "currency") →
  truthy (b !! "paymentMethod") →
  getOrder i st = Some o →
  uuid d ∉ p_id <$> payments st →
  let paid := mkPayment (uuid d) i (field b "amount") (field b "currency")
                "succeeded" (Some ("charge_" +:+ slice8 (uuid d)))
                (field b "paymentMethod") None (t1 d) (t3 d) in
  let done := mkOrder (id o) (userId o) (ticketId o) (quantity o)
                (totalAmount o) (VStr "completed") (nftTokenIds o)
                (createdAt o) (t4 d) in
  ∃ st', processPayment d i b st
         = (mkResponse 201 (PaymentReceipt (Some done) (Some paid)), st') ∧
    payments st' = payments st ++ [paid] ∧
    nftTransactions st' = nftTransactions st ∧
    length (orders st') = length (orders st) ∧
    getOrder i st' = Some done ∧
    OrdersService.getOrderPayments i st'
      = OrdersService.getOrderPayments i st ++ [paid].
Proof.
  intros H1%Is_true_eq_true H2%Is_true_eq_true H3%Is_true_eq_true Ho Hfresh
    paid done.
  pose proof (find_first_fresh p_id (uuid d) (payments st) Hfresh) as Hnone.
  unfold processPayment. rewrite H1, H2, H3, Ho.
  cbn [negb orb createPayment p_id].
  unfold updatePaymentStatus. cbn [payments orders nftTransactions].
  rewrite update_first_app_fresh;
    [| exact Hnone | cbn [p_id]; by apply bool_decide_eq_true_2].
  cbn [snd p_id p_orderId p_amount p_currency p_paymentMethod p_createdAt
       p_stripeChargeId p_errorMessage].
  rewrite given_prefixed. change (given None) with false. cbv iota. fold paid.
  set (st2 := mkState (orders st) (payments st ++ [paid]) (nftTransactions st)).
  assert (getOrder i st2 = Some o) as Ho2 by exact Ho.
  destruct (updateOrderStatus_hit (t4 d) i (VStr "completed") st2 o Ho2)
    as (l & -> & Hfind & Hlen).
  fold done in Hfind |- *. cbn [snd]. eexists. split.
  - unfold getOrder, getPayment. cbn [orders payments st2].
    rewrite Hfind. rewrite find_first_app, Hnone. cbn [p_id paid].
    rewrite bool_decide_eq_true_2 by done. reflexivity.
  - cbn [payments nftTransactions orders st2].
    split_and!; try done.
    unfold OrdersService.getOrderPayments. cbn [payments].
    rewrite filter_app. f_equal. rewrite filter_cons.
    cbn [p_orderId paid]. by rewrite bool_decide_eq_true_2.
Qed.

(** X29.  A mint request with its three fields truthy, for a stored order
    and with a transaction identifier not yet in use, is answered 201: one
    transaction is appended, already minted and carrying the hash built
    from the first eight characters of its identifier; the token is
    appended to the order's token list and the order's status is left as
    it was. *)
Theorem mintNFT_appends_token (d : Draw) (i : string) (b : Row) (st : State)
    (o : Order) :
  truthy (b !! "contractAddress") → truthy (b !! "recipientAddress") →
  truthy (b !! "tokenId") →
  getOrder i st = Some o →
  uuid d ∉ x_id <$> nftTransactions st →
  let minted := mkTx (uuid d) i (field b "contractAddress")
                  (field b "recipientAddress") (field b "tokenId")
                  (Some ("0xtxhash" +:+ slice8 (uuid d))) "minted"
                  (t1 d) (t3 d) in
  let holder := mkOrder (id o) (userId o) (ticketId o) (quantity o)
                  (totalAmount o) (status o)
                  (nftTokenIds o ++ [field b "tokenId"]) (createdAt o) (t4 d) in
  ∃ st', mintNFT d i b st
         = (mkResponse 201 (MintReceipt (Some holder) (Some minted)), st') ∧
    nftTransactions st' = nftTransactions st ++ [minted] ∧
    payments st' = payments st ∧
    length (orders st') = length (orders st) ∧
    getOrder i st' = Some holder ∧
    OrdersService.getOrderMintTransactions i st'
      = OrdersService.getOrderMintTransactions i st ++ [minted].
Proof.
  intros H1%Is_true_eq_true H2%Is_true_eq_true H3%Is_true_eq_true Ho Hfresh
    minted holder.
  pose proof (find_first_fresh x_id (uuid d) (nftTransactions st) Hfresh)
    as Hnone.
  unfold mintNFT. rewrite H1, H2, H3, Ho.
  cbn [negb orb recordNFTMintTransaction x_id].
  unfold updateMintTransactionStatus. cbn [payments orders nftTransactions].
  rewrite update_first_app_fresh;
    [| exact Hnone | cbn [x_id]; by apply bool_decide_eq_true_2].
  cbn [snd x_id x_orderId x_contractAddress x_recipientAddress x_tokenId
       x_createdAt x_transactionHash].
  rewrite given_prefixed. fold minted.
  set (st2 := mkState (orders st) (payments st) (nftTransactions st ++ [minted])).
  assert (getOrder i st2 = Some o) as Ho2 by exact Ho.
  destruct (addNFTTokenToOrder_hit (t4 d) i (field b "tokenId") st2 o Ho2)
    as (l & -> & Hfind & Hlen).
  fold holder in Hfind |- *. cbn [snd]. eexists. split.
  - unfold getOrder, getMintTransaction. cbn [orders nftTransactions st2].
    rewrite Hfind. rewrite find_first_app, Hnone. cbn [x_id minted].
    rewrite bool_decide_eq_true_2 by done. reflexivity.
  - cbn [payments nftTransactions orders st2].
    split_and!; try done.
    unfold OrdersService.getOrderMintTransactions. cbn [nftTransactions].
    rewrite filter_app. f_equal. rewrite filter_cons.
    cbn [x_orderId minted]. by rewrite bool_decide_eq_true_2.
Qed.

Lemma same_order_refl (o : Order) : same_order o o.
Proof. by repeat split. Qed.

Lemma same_payment_refl (p : Payment) : same_payment p p.
Proof. by repeat split. Qed.

Lemma same_tx_refl (x : NFTMintTransaction) : same_tx x x.
Proof. by repeat split. Qed.

Lemma grows_refl (st : State) : grows st st.
Proof.
  split; apply kept_refl;
    [apply same_order_refl | apply same_payment_refl | apply same_tx_refl].
Qed.

Lemma grows_trans (st1 st2 st3 : State) :
  grows st1 st2 → grows st2 st3 → grows st1 st3.
Proof.
  intros [Ho1 Hp1 Hx1] [Ho2 Hp2 Hx2]. split.
  - apply (kept_trans _ _ (orders st2)); [|done..].
    intros a b c (?&?&?&?&?&?&?) (?&?&?&?&?&?&?).
    repeat split; try congruence. by etrans.
  - apply (kept_trans _ _ (payments st2)); [|done..].
    intros a b c (?&?&?&?&?&?) (?&?&?&?&?&?). repeat split; congruence.
  - apply (kept_trans _ _ (nftTransactions st2)); [|done..].
    intros a b c (?&?&?&?&?&?) (?&?&?&?&?&?). repeat split; congruence.
Qed.

Lemma createOrder_grows uuid t1 t2 u t q a (st : State) :
  grows st (OrdersService.createOrder uuid t1 t2 u t q a st).2.
Proof.
  split; cbn; [apply kept_app | apply kept_refl..];
    [apply same_order_refl | apply same_payment_refl | apply same_tx_refl].
Qed.

Lemma createPayment_grows uuid t1 t2 i a c m (st : State) :
  grows st (createPayment uuid t1 t2 i a c m st).2.
Proof.
  split; cbn; [apply kept_refl | apply kept_app | apply kept_refl];
    [apply same_order_refl | apply same_payment_refl | apply same_tx_refl].
Qed.

Lemma recordNFTMintTransaction_grows uuid t1 t2 i c r k (st : State) :
  grows st (recordNFTMintTransaction uuid t1 t2 i c r k st).2.
Proof.
  split; cbn; [apply kept_refl | apply kept_refl | apply kept_app];
    [apply same_order_refl | apply same_payment_refl | apply same_tx_refl].
Qed.

Lemma updateOrderStatus_grows now i s (st : State) :
  grows st (OrdersService.updateOrderStatus now i s st).2.
Proof.
  unfold OrdersService.updateOrderStatus.
  match goal with
  | |- context [update_first ?p ?f ?l] =>
      pose proof (kept_update_first same_order p f l same_order_refl) as Hk;
      destruct (update_first p f l) as [r l']
  end.
  split; cbn; [| apply kept_refl, same_payment_refl | apply kept_refl, same_tx_refl].
  apply Hk. intros o. by repeat split.
Qed.

Lemma addNFTTokenToOrder_grows now i k (st : State) :
  grows st (addNFTTokenToOrder now i k st).2.
Proof.
  unfold addNFTTokenToOrder.
  match goal with
  | |- context [update_first ?p ?f ?l] =>
      pose proof (kept_update_first same_order p f l same_order_refl) as Hk;
      destruct (update_first p f l) as [r l']
  end.
  split; cbn; [| apply kept_refl, same_payment_refl | apply kept_refl, same_tx_refl].
  apply Hk. intros o. repeat split. cbn. by exists [k].
Qed.

Lemma updatePaymentStatus_grows now i s c e (st : State) :
  grows st (updatePaymentStatus now i s c e st).2.
Proof.
  unfold updatePaymentStatus.
  match goal with
  | |- context [update_first ?p ?f ?l] =>
      pose proof (kept_update_first same_payment p f l same_payment_refl) as Hk;
      destruct (update_first p f l) as [r l']
  end.
  split; cbn; [apply kept_refl, same_order_refl | | apply kept_refl, same_tx_refl].
  apply Hk. intros o. by repeat split.
Qed.

Lemma updateMintTransactionStatus_grows now i s h (st : State) :
  grows st (updateMintTransactionStatus now i s h st).2.
Proof.
  unfold updateMintTransactionStatus.
  match goal with
  | |- context [update_first ?p ?f ?l] =>
      pose proof (kept_update_first same_tx p f l same_tx_refl) as Hk;
      destruct (update_first p f l) as [r l']
  end.
  split; cbn; [apply kept_refl, same_order_refl | apply kept_refl, same_payment_refl |].
  apply Hk. intros o. by repeat split.
Qed.

Lemma router_grows (d : Draw) (req : Request) (st : State) :
  grows st (router d req st).2.
Proof.
  destruct req as [b|i|u|i b|i b|i|i b|i]; cbn [router].
  - unfold createOrder.
    destruct (negb (truthy (b !! "userId")) || negb (truthy (b !! "ticketId"))
              || negb (truthy (b !! "quantity"))
              || negb (truthy (b !! "totalAmount"))); [apply grows_refl|].
    apply createOrder_grows.
  - unfold getOrderHandler. destruct (getOrder i st); apply grows_refl.
  - apply grows_refl.
  - unfold updateOrderStatus.
    destruct (negb (truthy (b !! "status"))); [apply grows_refl|].
    pose proof (updateOrderStatus_grows (t1 d) i (field b "status") st) as Hg.
    destruct (OrdersService.updateOrderStatus (t1 d) i (field b "status") st)
      as [[o|] st']; exact Hg.
  - unfold processPayment.
    destruct (negb (truthy (b !! "amount")) || negb (truthy (b !! "currency"))
              || negb (truthy (b !! "paymentMethod"))); [apply grows_refl|].
    destruct (getOrder i st); [|apply grows_refl].
    cbn [createPayment snd p_id].
    eapply grows_trans; [|apply updateOrderStatus_grows].
    eapply grows_trans; [|apply updatePaymentStatus_grows].
    apply (createPayment_grows (uuid d) (t1 d) (t2 d) i).
  - apply grows_refl.
  - unfold mintNFT.
    destruct (negb (truthy (b !! "contractAddress"))
              || negb (truthy (b !! "recipientAddress"))
              || negb (truthy (b !! "tokenId"))); [apply grows_refl|].
    destruct (getOrder i st); [|apply grows_refl].
    cbn [recordNFTMintTransaction snd x_id].
    eapply grows_trans; [|apply addNFTTokenToOrder_grows].
    eapply grows_trans; [|apply updateMintTransactionStatus_grows].
    apply (recordNFTMintTransaction_grows (uuid d) (t1 d) (t2 d) i).
  - apply grows_refl.
Qed.

(** X30.  Whatever requests the router serves, each order, payment and
    mint transaction stored before is still at its position afterwards
    with the same identifier, the same fields taken from the request that
    created it and the same creation time, and an order's token list is
    only ever extended at its end: nothing is removed, replaced or
    reordered. *)
Theorem serve_keeps_history (reqs : list (Draw * Request)) (st : State) :
  grows st (serve reqs st).
Proof.
  revert st. induction reqs as [|[d req] reqs IH]; intros st.
  - apply grows_refl.
  - simpl. eapply grows_trans; [apply router_grows | apply IH].
Qed.

End OrdersFacts.

Section OrdersSampleFacts.
Import OrdersService OrdersController OrdersHistory OrderSamples.

Lemma order_round_trip_witness :
  truthy (order_body !! "userId") ∧ truthy (order_body !! "ticketId") ∧
  truthy (order_body !! "quantity") ∧ truthy (order_body !! "totalAmount") ∧
  (uuid d1 ∉ id <$> orders no_orders) ∧
  (createOrder d1 order_body no_orders).1 = mkResponse 201 (OrderBody first_order) ∧
  getOrderHandler "11111111-aaaa" one_order
    = (mkResponse 200 (OrderBody first_order), one_order).
Proof.
  assert (truthy (order_body !! "userId")) as H1 by by_compute.
  assert (truthy (order_body !! "ticketId")) as H2 by by_compute.
  assert (truthy (order_body !! "quantity")) as H3 by by_compute.
  assert (truthy (order_body !! "totalAmount")) as H4 by by_compute.
  assert (uuid d1 ∉ id <$> orders no_orders) as H5 by by_compute.
  split_and!; [exact H1 | exact H2 | exact H3 | exact H4 | exact H5 | | ].
  - exact (proj1 (order_round_trip d1 order_body no_orders H1 H2 H3 H4 H5)).
  - exact (proj1 (proj2 (proj2
             (order_round_trip d1 order_body no_orders H1 H2 H3 H4 H5)))).
Defined.

Lemma rejected_requests_change_nothing_witness :
  code (router d2 (PostOrder empty_basket) one_order).1 = 400 ∧
  (router d2 (PostOrder empty_basket) one_order).2 = one_order ∧
  code (router d2 (PostPayment "no-such-order" payment_body) one_order).1 = 404 ∧
  (router d2 (PostPayment "no-such-order" payment_body) one_order).2 = one_order.
Proof.
  assert (code (router d2 (PostOrder empty_basket) one_order).1 = 400) as H1
    by (vm_compute; reflexivity).
  assert (code (router d2 (PostPayment "no-such-order" payment_body)
                  one_order).1 = 404) as H2 by (vm_compute; reflexivity).
  split_and!; [exact H1 | | exact H2 | ].
  - exact (proj2 (rejected_requests_change_nothing d2 (PostOrder empty_basket)
                    one_order) (or_introl H1)).
  - exact (proj2 (rejected_requests_change_nothing d2
                    (PostPayment "no-such-order" payment_body) one_order)
             (or_intror H2)).
Defined.

Lemma processPayment_settles_witness :
  truthy (payment_body !! "amount") ∧ truthy (payment_body !! "currency") ∧
  truthy (payment_body !! "paymentMethod") ∧
  getOrder "11111111-aaaa" one_order = Some first_order ∧
  (uuid d2 ∉ p_id <$> payments one_order) ∧
  ∃ st', processPayment d2 "11111111-aaaa" payment_body one_order
         = (mkResponse 201
              (PaymentReceipt
                 (Some (mkOrder "11111111-aaaa" (VStr "u1") (VStr "tk1") (VNum 2)
                          (VStr "50.00") (VStr "completed") [] 10 23))
                 (Some (mkPayment "22222222-bbbb" "11111111-aaaa" (VStr "50.00")
                          (VStr "EUR") "succeeded" (Some "charge_22222222")
                          (VStr "card") None 20 22))), st').
Proof.
  assert (truthy (payment_body !! "amount")) as H1 by by_compute.
  assert (truthy (payment_body !! "currency")) as H2 by by_compute.
  assert (truthy (payment_body !! "paymentMethod")) as H3 by by_compute.
  assert (getOrder "11111111-aaaa" one_order = Some first_order) as H4
    by (vm_compute; reflexivity).
  assert (uuid d2 ∉ p_id <$> payments one_order) as H5 by by_compute.
  split_and!; [exact H1 | exact H2 | exact H3 | exact H4 | exact H5 | ].
  destruct (processPayment_settles d2 "11111111-aaaa" payment_body one_order
              first_order H1 H2 H3 H4 H5) as (st' & Hrun & _).
  exists st'. exact Hrun.
Defined.

Lemma mintNFT_appends_token_witness :
  truthy (mint_body !! "contractAddress") ∧
  truthy (mint_body !! "recipientAddress") ∧ truthy (mint_body !! "tokenId") ∧
  getOrder "11111111-aaaa" one_order = Some first_order ∧
  (uuid d3 ∉ x_id <$> nftTransactions one_order) ∧
  ∃ st', mintNFT d3 "11111111-aaaa" mint_body one_order
         = (mkResponse 201
              (MintReceipt
                 (Some (mkOrder "11111111-aaaa" (VStr "u1") (VStr "tk1") (VNum 2)
                          (VStr "50.00") (VStr "pending") [VStr "7"] 10 33))
                 (Some (mkTx "33333333-cccc" "11111111-aaaa" (VStr "0xabc")
                          (VStr "0xdef") (VStr "7") (Some "0xtxhash33333333")
                          "minted" 30 32))), st') ∧
         getOrder "11111111-aaaa" st'
         = Some (mkOrder "11111111-aaaa" (VStr "u1") (VStr "tk1") (VNum 2)
                   (VStr "50.00") (VStr "pending") [VStr "7"] 10 33).
Proof.
  assert (truthy (mint_body !! "contractAddress")) as H1 by by_compute.
  assert (truthy (mint_body !! "recipientAddress")) as H2 by by_compute.
  assert (truthy (mint_body !! "tokenId")) as H3 by by_compute.
  assert (getOrder "11111111-aaaa" one_order = Some first_order) as H4
    by (vm_compute; reflexivity).
  assert (uuid d3 ∉ x_id <$> nftTransactions one_order) as H5 by by_compute.
  split_and!; [exact H1 | exact H2 | exact H3 | exact H4 | exact H5 | ].
  destruct (mintNFT_appends_token d3 "11111111-aaaa" mint_body one_order
              first_order H1 H2 H3 H4 H5) as (st' & Hrun & _ & _ & _ & Hget & _).
  exists st'. split; [exact Hrun | exact Hget].
Defined.

End OrdersSampleFacts.

(** ** The statement [create] sends *)

Section InsertTextFacts.
Import InsertText.

Lemma assign_fresh (k : string) (v : Value) (obj : Obj) :
  k ∉ obj.*1 → assign k v obj = obj ++ [(k, v)].
Proof.
  induction obj as [|[k' v'] obj IH]; [done|]. simpl.
  rewrite not_elem_of_cons. intros [Hne Hk].
  rewrite decide_False by done. by rewrite IH.
Qed.

(** C10, on the code.  [create] overrides a tenant_id of the data, but
    it splices every key of the data, as it is, into the column list of
    the statement: for data without the keys tenant_id, created_at and
    updated_at, the statement handed to [db.one] is the template with the
    texts of the keys, in their order, before tenant_id, created_at and
    updated_at, and the caller's tenant is only the value bound to its
    placeholder.  A key is therefore free to close the column list, give a
    row of its own with any tenant_id, and open a second INSERT for the
    columns that follow, as the sample data do. *)
Theorem create_splices_keys env (tableName tenantId : string) (data : Obj) :
  (∀ k, k ∈ data.*1 → k ∉ ["tenant_id"; "created_at"; "updated_at"]) →
  create_statement env tableName tenantId data
  = (nl +:+ "      INSERT INTO " +:+ tableName +:+ " ("
       +:+ String.concat ", "
             (data.*1 ++ ["tenant_id"; "created_at"; "updated_at"]) +:+ ")"
     +:+ nl +:+ "      VALUES ("
       +:+ String.concat ", "
             ((λ i, "$" +:+ pretty (S i)) <$> seq 0 (length data + 3)) +:+ ")"
     +:+ nl +:+ "      RETURNING *"
     +:+ nl +:+ "    ",
     data.*2 ++ [VStr tenantId; VDate (TenantRepo.now env);
                 VDate (TenantRepo.now env)]).
Proof.
  intros Hkeys.
  assert (InsertText.dataWithTenant env tenantId data
          = data ++ [("tenant_id", VStr tenantId);
                     ("created_at", VDate (TenantRepo.now env));
                     ("updated_at", VDate (TenantRepo.now env))]) as Hobj.
  { unfold InsertText.dataWithTenant.
    rewrite (assign_fresh "tenant_id").
    2:{ intros Hin. apply (Hkeys _ Hin). by_compute. }
    rewrite (assign_fresh "created_at").
    2:{ rewrite fmap_app. intros [Hin | Hin]%elem_of_app.
        - apply (Hkeys _ Hin). by_compute.
        - by apply list_elem_of_singleton in Hin. }
    rewrite (assign_fresh "updated_at").
    2:{ rewrite !fmap_app. intros [[Hin | Hin]%elem_of_app | Hin]%elem_of_app.
        - apply (Hkeys _ Hin). by_compute.
        - by apply list_elem_of_singleton in Hin.
        - by apply list_elem_of_singleton in Hin. }
    by rewrite <- !app_assoc. }
  unfold create_statement, insert_text, columns, placeholders.
  rewrite Hobj. rewrite !fmap_app, length_app. reflexivity.
Qed.

Import UuidSamples.

Lemma create_splices_keys_witness :
  (∀ k, k ∈ smuggled.*1 → k ∉ ["tenant_id"; "created_at"; "updated_at"]) ∧
  (create_statement env_x "orders" tenant_a smuggled).1
  = nl +:+ "      INSERT INTO orders (tenant_id, event_id, user_id, unit_price, total_price) VALUES ('b1ffcd00-0d1c-4fa9-8c7e-7cc0ce491b22', 'd3bbef22-2f3e-4bc1-8e90-9ee2e06b3d44', 'e4ccf033-3a4f-4cd2-9fa1-aff3f17c4e55', 1, 1); INSERT INTO orders (event_id, user_id, unit_price, total_price, tenant_id, created_at, updated_at)"
    +:+ nl +:+ "      VALUES ($1, $2, $3, $4, $5, $6, $7)"
    +:+ nl +:+ "      RETURNING *"
    +:+ nl +:+ "    " ∧
  (create_statement env_x "orders" tenant_a smuggled).2
  = [VStr id_y; VStr user_7; VNum 5; VNum 5; VStr tenant_a;
     VDate 1700000000000; VDate 1700000000000].
Proof.
  assert (∀ k, k ∈ smuggled.*1 →
               k ∉ ["tenant_id"; "created_at"; "updated_at"]) as H.
  { apply Forall_forall. by_compute. }
  split; [exact H|].
  rewrite (create_splices_keys env_x "orders" tenant_a smuggled H).
  split; vm_compute; reflexivity.
Defined.

End InsertTextFacts.
